(** * email-assistant: the provider gateway and the side-panel request session

    A shallow embedding of [providers.js] ([callAI], [streamAI], [safeText],
    [truncate]), of the request, history and rate-limit code of
    [sidepanel.js] ([send], [cancelStream], [addToHistory],
    [navigateHistory], [validateProvider], [buildPrompt]) and of the
    streaming port handler of [background.js].

    Conventions.
    - A JavaScript string is the list of its UTF-16 code units ([str]);
      [lit] turns an ASCII literal into such a list.
    - A value produced by [JSON.parse] or read from one is a [value].
    - Code that may throw returns a [result]; a [try]/[catch] is a match
      on it.
    - The platform ([JSON.parse], [encodeURIComponent], [fetch]) is a
      Section variable: the theorems hold for every behaviour of it.  A
      reference parser for closed examples is given separately. *)

From Stdlib Require Import String Ascii DecimalString.
From Stdlib Require Import List NArith ZArith Bool Lia.
Import ListNotations.
Set Warnings "-register-all".

(* ================================================================== *)
(** ** Strings as sequences of code units *)
(* ================================================================== *)

Definition code_unit := N.
Definition str := list code_unit.

(** An ASCII literal as a JavaScript string. *)
Definition lit (s : string) : str := map N_of_ascii (list_ascii_of_string s).
Arguments lit s%_string.

(** The single code unit U+2026 (horizontal ellipsis) that [truncate] appends. *)
Definition ellipsis : str := [8230%N].

Fixpoint str_eqb (a b : str) : bool :=
  match a, b with
  | [], [] => true
  | x :: a', y :: b' => N.eqb x y && str_eqb a' b'
  | _, _ => false
  end.

(** [!s] for a string: the empty string is the only falsy one. *)
Definition is_empty (s : str) : bool :=
  match s with [] => true | _ :: _ => false end.

(** WhiteSpace and LineTerminator code units, the ones [String.prototype.trim]
    strips: TAB LF VT FF CR SP NBSP, U+1680, U+2000..U+200A, U+2028, U+2029,
    U+202F, U+205F, U+3000, U+FEFF. *)
Definition is_white_space (c : code_unit) : bool :=
  existsb (N.eqb c)
    [9; 10; 11; 12; 13; 32; 160; 5760; 8232; 8233; 8239; 8287; 12288; 65279]%N
  || (N.leb 8192 c && N.leb c 8202).

Fixpoint trimStart (s : str) : str :=
  match s with
  | [] => []
  | c :: r => if is_white_space c then trimStart r else s
  end.

Definition trimEnd (s : str) : str := rev (trimStart (rev s)).

(** [s.trim()] *)
Definition trim (s : str) : str := trimEnd (trimStart s).

(** [s.startsWith(p)] *)
Fixpoint startsWith (s p : str) : bool :=
  match p, s with
  | [], _ => true
  | _ :: _, [] => false
  | a :: p', b :: s' => N.eqb a b && startsWith s' p'
  end.

(** [s.endsWith(p)] *)
Definition endsWith (s p : str) : bool := startsWith (rev s) (rev p).

(** [s.slice(n)] and [s.slice(0, n)] for a non-negative [n]. *)
Definition slice_from (n : nat) (s : str) : str := skipn n s.
Definition slice_to (n : nat) (s : str) : str := firstn n s.

Definition LF : code_unit := 10%N.
Definition CR : code_unit := 13%N.

Definition cons_first (c : code_unit) (ls : list str) : list str :=
  match ls with
  | [] => [[c]]
  | l :: ls' => (c :: l) :: ls'
  end.

(** [s.split(/\r?\n/)]: the pieces between line breaks, a line break being
    LF or CR LF.  The result is never empty: a string without a line break
    is its own single piece. *)
Fixpoint split_lines (s : str) : list str :=
  match s with
  | [] => [[]]
  | c :: rest =>
    if N.eqb c LF then [] :: split_lines rest
    else
      match rest with
      | d :: rest' =>
        if N.eqb c CR && N.eqb d LF then [] :: split_lines rest'
        else cons_first c (split_lines rest)
      | [] => cons_first c (split_lines rest)
      end
  end.

(** [pieces.join(sep)] on strings. *)
Fixpoint join (sep : str) (pieces : list str) : str :=
  match pieces with
  | [] => []
  | [p] => p
  | p :: rest => p ++ sep ++ join sep rest
  end.

(** The decimal text of a non-negative integer, as a template literal prints
    an HTTP status. *)
Definition decimal (n : N) : str := lit (NilZero.string_of_uint (N.to_uint n)).

(* ================================================================== *)
(** ** JavaScript values and the operations the code applies to them *)
(* ================================================================== *)

(** What the code observes of a number: whether it is truthy (neither zero
    nor NaN) and the text it prints as. *)
Record number := mkNumber { number_truthy : bool; number_text : str }.

Inductive value :=
| VUndefined
| VNull
| VBool (b : bool)
| VNum (n : number)
| VStr (s : str)
| VArr (items : list value)
| VObj (props : list (str * value)).

(** Exceptions: [new Error(message)] thrown by the code itself, the
    engine's own errors, and a rejected platform promise ([fetch],
    [reader.read]). *)
Inductive exn :=
| Error (message : str)
| TypeError
| SyntaxError
| URIError
| Rejection (reason : str).

Inductive result (A : Type) :=
| Ok (a : A)
| Throw (e : exn).
Arguments Ok {A} a.
Arguments Throw {A} e.

Definition bind {A B : Type} (c : result A) (k : A -> result B) : result B :=
  match c with
  | Ok a => k a
  | Throw e => Throw e
  end.

Notation "x <- c ;; k" := (bind c (fun x => k))
  (at level 61, c at next level, right associativity).

(** [try { body } catch { handler }] *)
Definition try_catch {A : Type} (body : result A) (handler : A) : A :=
  match body with
  | Ok a => a
  | Throw _ => handler
  end.

(** ToBoolean: [if (v)], [!v], [v || w], [filter(Boolean)]. *)
Definition truthy (v : value) : bool :=
  match v with
  | VUndefined | VNull => false
  | VBool b => b
  | VNum n => number_truthy n
  | VStr s => negb (is_empty s)
  | VArr _ | VObj _ => true
  end.

(** [a || b] *)
Definition or_else (a b : value) : value := if truthy a then a else b.

(** The own property [k] of an object literal or of a parsed object; a
    later duplicate key overrides an earlier one, as in [JSON.parse]. *)
Fixpoint lookup (k : str) (props : list (str * value)) : option value :=
  match props with
  | [] => None
  | (k', v) :: rest =>
    match lookup k rest with
    | Some w => Some w
    | None => if str_eqb k k' then Some v else None
    end
  end.

(** [v?.k], for the property names this code reads ([error], [message],
    [delta], [text], [content_block], [candidates], [content], [parts],
    [choices]): none of them is defined on a built-in prototype, so only
    an object's own property can answer. *)
Definition opt_get (k : str) (v : value) : value :=
  match v with
  | VObj props =>
    match lookup k props with
    | Some w => w
    | None => VUndefined
    end
  | _ => VUndefined
  end.

(** [v.k]: a TypeError on [null] and [undefined]. *)
Definition get (k : str) (v : value) : result value :=
  match v with
  | VUndefined | VNull => Throw TypeError
  | _ => Ok (opt_get k v)
  end.

(** [v?.[0]]: the first element of an array, the first code unit of a
    string, the own property ["0"] of an object. *)
Definition opt_index0 (v : value) : value :=
  match v with
  | VArr items => hd VUndefined items
  | VStr (c :: _) => VStr [c]
  | VObj props =>
    match lookup (lit "0") props with
    | Some w => w
    | None => VUndefined
    end
  | _ => VUndefined
  end.

(** ToString, as string concatenation, a template literal and
    [Array.prototype.join] apply it.  An array prints as its elements
    joined by commas, [null] and [undefined] elements as the empty string;
    a parsed object prints as [[object Object]] unless it has an own
    property [toString], which is then not callable: a TypeError. *)
Fixpoint ToString (v : value) : result str :=
  match v with
  | VUndefined => Ok (lit "undefined")
  | VNull => Ok (lit "null")
  | VBool true => Ok (lit "true")
  | VBool false => Ok (lit "false")
  | VNum n => Ok (number_text n)
  | VStr s => Ok s
  | VArr items =>
    pieces <- (fix each (l : list value) : result (list str) :=
                 match l with
                 | [] => Ok []
                 | x :: r =>
                   s <- match x with
                        | VUndefined | VNull => Ok []
                        | _ => ToString x
                        end ;;
                   ss <- each r ;;
                   Ok (s :: ss)
                 end) items ;;
    Ok (join (lit ",") pieces)
  | VObj props =>
    match lookup (lit "toString") props with
    | Some _ => Throw TypeError
    | None => Ok (lit "[object Object]")
    end
  end.

(** The text of one element inside [join]. *)
Definition element_text (x : value) : result str :=
  match x with
  | VUndefined | VNull => Ok []
  | _ => ToString x
  end.

Fixpoint element_texts (l : list value) : result (list str) :=
  match l with
  | [] => Ok []
  | x :: r =>
    s <- element_text x ;;
    ss <- element_texts r ;;
    Ok (s :: ss)
  end.

(** [items.join(sep)] on an array of values. *)
Definition array_join (sep : str) (items : list value) : result str :=
  pieces <- element_texts items ;;
  Ok (join sep pieces).

(** [a.map(f)]: a TypeError unless [a] is an array (no other value read
    here has a callable [map]). *)
Definition array_map (f : value -> value) (a : value) : result (list value) :=
  match a with
  | VArr items => Ok (map f items)
  | _ => Throw TypeError
  end.

(** [(x || '')] on an optional string setting: absent and empty are both
    the empty string. *)
Definition or_empty (x : option str) : str :=
  match x with
  | Some s => s
  | None => []
  end.

(** [x || d] on an optional string with a string default. *)
Definition or_default (x : option str) (d : str) : str :=
  match x with
  | Some (c :: s) => c :: s
  | _ => d
  end.

(* ================================================================== *)
(** ** A reference [JSON.parse] for closed examples *)
(* ================================================================== *)

(** The theorems below take [JSON.parse] as a parameter.  Closed examples
    need one concrete parser: this one follows the JSON grammar (white
    space, literals, strings with their escapes, arrays, objects) and, for
    numbers, accepts integer literals of at most 15 digits, which print
    in plain decimal; a number with a fraction or an exponent is outside
    the fragment and is not accepted. *)

Definition is_json_space (c : code_unit) : bool :=
  existsb (N.eqb c) [32; 9; 10; 13]%N.

Fixpoint skip_space (s : str) : str :=
  match s with
  | [] => []
  | c :: r => if is_json_space c then skip_space r else s
  end.

Definition is_digit (c : code_unit) : bool := N.leb 48 c && N.leb c 57.

Definition hex_digit (c : code_unit) : option N :=
  if is_digit c then Some (c - 48)%N
  else if N.leb 97 c && N.leb c 102 then Some (c - 87)%N
  else if N.leb 65 c && N.leb c 70 then Some (c - 55)%N
  else None.

(** The character an escape letter stands for: quote, backslash, slash,
    b, f, n, r, t. *)
Definition unescape (c : code_unit) : option code_unit :=
  if N.eqb c 34 then Some 34%N
  else if N.eqb c 92 then Some 92%N
  else if N.eqb c 47 then Some 47%N
  else if N.eqb c 98 then Some 8%N
  else if N.eqb c 102 then Some 12%N
  else if N.eqb c 110 then Some 10%N
  else if N.eqb c 114 then Some 13%N
  else if N.eqb c 116 then Some 9%N
  else None.

Definition push_char (c : code_unit) (r : option (str * str)) : option (str * str) :=
  match r with
  | Some (t, rest) => Some (c :: t, rest)
  | None => None
  end.

(** The characters of a string literal after its opening quote, and what
    follows the closing quote. *)
Fixpoint parse_string_body (fuel : nat) (s : str) : option (str * str) :=
  match fuel with
  | O => None
  | S fuel' =>
    match s with
    | [] => None
    | c :: rest =>
      if N.eqb c 34 then Some ([], rest)
      else if N.eqb c 92 then
        match rest with
        | [] => None
        | e :: rest' =>
          if N.eqb e 117 then
            match rest' with
            | h1 :: h2 :: h3 :: h4 :: rest'' =>
              match hex_digit h1, hex_digit h2, hex_digit h3, hex_digit h4 with
              | Some a, Some b, Some c', Some d =>
                push_char (((a * 16 + b) * 16 + c') * 16 + d)%N
                          (parse_string_body fuel' rest'')
              | _, _, _, _ => None
              end
            | _ => None
            end
          else
            match unescape e with
            | Some u => push_char u (parse_string_body fuel' rest')
            | None => None
            end
        end
      else if N.ltb c 32 then None
      else push_char c (parse_string_body fuel' rest)
    end
  end.

Fixpoint take_digits (s : str) : str * str :=
  match s with
  | [] => ([], [])
  | c :: r =>
    if is_digit c then let (ds, rest) := take_digits r in (c :: ds, rest)
    else ([], s)
  end.

Definition parse_number (s : str) : option (value * str) :=
  let s1 := match s with
            | c :: r => if N.eqb c 45 then r else s
            | [] => s
            end in
  let (ds, rest) := take_digits s1 in
  match ds with
  | [] => None
  | d :: ds' =>
    if N.eqb d 48 && negb (is_empty ds') then None
    else if Nat.ltb 15 (length ds) then None
    else if match rest with
            | c :: _ => N.eqb c 46 || N.eqb c 101 || N.eqb c 69
            | [] => false
            end then None
    else
      let nonzero := negb (N.eqb d 48) in
      let sign := if nonzero && negb (str_eqb s s1) then [45%N] else [] in
      Some (VNum (mkNumber nonzero (sign ++ ds)), rest)
  end.

Definition expect (word : str) (v : value) (s : str) : option (value * str) :=
  if startsWith s word then Some (v, skipn (length word) s) else None.

Fixpoint parse_value (fuel : nat) (s : str) : option (value * str) :=
  match fuel with
  | O => None
  | S fuel' =>
    match skip_space s with
    | [] => None
    | c :: rest =>
      if N.eqb c 110 then expect (lit "null") VNull (c :: rest)
      else if N.eqb c 116 then expect (lit "true") (VBool true) (c :: rest)
      else if N.eqb c 102 then expect (lit "false") (VBool false) (c :: rest)
      else if N.eqb c 34 then
        match parse_string_body (S (length rest)) rest with
        | Some (t, r) => Some (VStr t, r)
        | None => None
        end
      else if N.eqb c 91 then
        match skip_space rest with
        | d :: r =>
          if N.eqb d 93 then Some (VArr [], r)
          else
            match parse_elements fuel' rest with
            | Some (items, r') => Some (VArr items, r')
            | None => None
            end
        | [] => None
        end
      else if N.eqb c 123 then
        match skip_space rest with
        | d :: r =>
          if N.eqb d 125 then Some (VObj [], r)
          else
            match parse_members fuel' rest with
            | Some (props, r') => Some (VObj props, r')
            | None => None
            end
        | [] => None
        end
      else parse_number (c :: rest)
    end
  end
with parse_elements (fuel : nat) (s : str) : option (list value * str) :=
  match fuel with
  | O => None
  | S fuel' =>
    match parse_value fuel' s with
    | None => None
    | Some (v, r) =>
      match skip_space r with
      | c :: r' =>
        if N.eqb c 44 then
          match parse_elements fuel' r' with
          | Some (vs, r'') => Some (v :: vs, r'')
          | None => None
          end
        else if N.eqb c 93 then Some ([v], r')
        else None
      | [] => None
      end
    end
  end
with parse_members (fuel : nat) (s : str) : option (list (str * value) * str) :=
  match fuel with
  | O => None
  | S fuel' =>
    match skip_space s with
    | q :: r0 =>
      if N.eqb q 34 then
        match parse_string_body (S (length r0)) r0 with
        | None => None
        | Some (k, r1) =>
          match skip_space r1 with
          | colon :: r2 =>
            if N.eqb colon 58 then
              match parse_value fuel' r2 with
              | None => None
              | Some (v, r3) =>
                match skip_space r3 with
                | c :: r4 =>
                  if N.eqb c 44 then
                    match parse_members fuel' r4 with
                    | Some (ps, r5) => Some ((k, v) :: ps, r5)
                    | None => None
                    end
                  else if N.eqb c 125 then Some ([(k, v)], r4)
                  else None
                | [] => None
                end
              end
            else None
          | [] => None
          end
        end
      else None
    | [] => None
    end
  end.

Definition JSON_parse_ref (s : str) : option value :=
  match parse_value (2 * length s + 2) s with
  | Some (v, rest) => if is_empty (skip_space rest) then Some v else None
  | None => None
  end.

(** The double quote, for writing JSON text. *)
Definition dq : str := [34%N].

(** A JSON string literal around an ASCII word without escapes. *)
Definition quoted (s : string) : str := dq ++ lit s ++ dq.
Arguments quoted s%_string.

(* ================================================================== *)
(** ** providers.js *)
(* ================================================================== *)

(** The settings read from storage: a key that is absent is [None]. *)
Record config := mkConfig {
  openai_key : option str;
  anthropic_key : option str;
  google_key : option str;
  deepseek_key : option str;
  azure_api_key : option str;
  azure_endpoint : option str;
  azure_deployment : option str;
  azure_api_version : option str
}.

(** The argument of [fetch]: always a POST; [body] is the object handed to
    [JSON.stringify]. *)
Record request := mkRequest {
  url : str;
  headers : list (str * str);
  body : value
}.

(** How the reads of a body reader end: [done], or a rejected read. *)
Inductive stream_end :=
| StreamDone
| StreamFailed (reason : str).

(** An HTTP response: its status, what [resp.text()] resolves to, and
    for a response with a body what [resp.body.getReader()] yields: the
    text the decoder returns for each chunk read, then the end. *)
Record response := mkResponse {
  status : N;
  text : result str;
  reader : option (list str * stream_end)
}.

(** [resp.ok]: the status is in the range 200-299. *)
Definition ok (resp : response) : bool :=
  N.leb 200 (status resp) && N.leb (status resp) 299.

(** [safeText(resp)] *)
Definition safeText (resp : response) : str := try_catch (text resp) [].

(** [truncate(s, n)] *)
Definition truncate (s : str) (n : nat) : str :=
  if is_empty s then []
  else if Nat.ltb n (length s) then slice_to n s ++ ellipsis else s.

(** A number literal of the source, truthy, with the text it prints as. *)
Definition num (s : string) : value := VNum (mkNumber true (lit s)).
Arguments num s%_string.

Definition chat_message (role : string) (content : str) : value :=
  VObj [(lit "role", VStr (lit role)); (lit "content", VStr content)].
Arguments chat_message role%_string content.

(** [model || undefined] *)
Definition model_or_undefined (model : option str) : value :=
  match model with
  | Some (c :: s) => VStr (c :: s)
  | _ => VUndefined
  end.

Definition default_system_prompt : str :=
  lit "You are a helpful assistant. Return concise results.".

Definition json_content_type : str * str :=
  (lit "Content-Type", lit "application/json").

(** What a call leaves behind: its result and the requests it handed to
    [fetch], in order. *)
Record call_run := mkCallRun {
  call_outcome : result value;
  call_fetched : list request
}.

(** The same for a streaming call, with the arguments [onDelta] was invoked
    with, in order. *)
Record stream_run := mkStreamRun {
  outcome : result str;
  fetched : list request;
  deltas : list value
}.

(** The state of the read loop of [streamAI]: the text accumulated in
    [full] and the arguments [onDelta] was invoked with so far. *)
Record sse := mkSse {
  full : str;
  emitted : list value
}.

Section Providers.

(** [JSON.parse]: [None] is a SyntaxError. *)
Variable JSON_parse : str -> option value.
(** [encodeURIComponent]: a URIError on a lone surrogate. *)
Variable encodeURIComponent : str -> result str.
(** [fetch]: the response, or a rejection. *)
Variable fetch : request -> result response.

Definition parse (s : str) : result value :=
  match JSON_parse s with
  | Some v => Ok v
  | None => Throw SyntaxError
  end.

(** The [switch (provider)] of [callAI]: the error thrown before any
    request, or the request to send. *)
Definition callAI_request (provider : str) (model : option str) (prompt : str)
  (systemPrompt : option str) (cfg : config) : result request :=
  let sysDefault := or_default systemPrompt default_system_prompt in
  let openaiKey := or_empty (openai_key cfg) in
  let anthropicKey := or_empty (anthropic_key cfg) in
  let googleKey := or_empty (google_key cfg) in
  let deepseekKey := or_empty (deepseek_key cfg) in
  let azureKey := or_empty (azure_api_key cfg) in
  let azureEndpoint := trim (or_empty (azure_endpoint cfg)) in
  let azureDeployment := trim (or_empty (azure_deployment cfg)) in
  let azureApiVersion := trim (or_default (azure_api_version cfg) (lit "2024-02-01")) in
  if str_eqb provider (lit "azure") then
    if is_empty azureEndpoint || is_empty azureKey || is_empty azureDeployment then
      Throw (Error (lit "Azure configuration is incomplete. Set endpoint, deployment, and API key in Settings."))
    else if negb (startsWith azureEndpoint (lit "https://")) then
      Throw (Error (lit "Azure endpoint must use HTTPS. Please update your endpoint URL."))
    else
      let normalizedEndpoint :=
        if endsWith azureEndpoint (lit "/") then azureEndpoint
        else azureEndpoint ++ lit "/" in
      version <- encodeURIComponent azureApiVersion ;;
      Ok {| url := normalizedEndpoint ++ lit "openai/deployments/" ++ azureDeployment
                   ++ lit "/chat/completions?api-version=" ++ version;
            headers := [json_content_type; (lit "api-key", azureKey)];
            body := VObj [(lit "messages",
                           VArr [chat_message "system" sysDefault;
                                 chat_message "user" prompt]);
                          (lit "model", model_or_undefined model);
                          (lit "temperature", num "0.7")] |}
  else if str_eqb provider (lit "openai") then
    if is_empty openaiKey then
      Throw (Error (lit "OpenAI API key not set. Add it in Settings."))
    else
      Ok {| url := lit "https://api.openai.com/v1/chat/completions";
            headers := [json_content_type;
                        (lit "Authorization", lit "Bearer " ++ openaiKey)];
            body := VObj [(lit "model", VStr (or_default model (lit "gpt-4o-mini")));
                          (lit "messages",
                           VArr [chat_message "system" sysDefault;
                                 chat_message "user" prompt]);
                          (lit "temperature", num "0.7")] |}
  else if str_eqb provider (lit "anthropic") then
    if is_empty anthropicKey then
      Throw (Error (lit "Anthropic API key not set. Add it in Settings."))
    else
      Ok {| url := lit "https://api.anthropic.com/v1/messages";
            headers := [json_content_type;
                        (lit "x-api-key", anthropicKey);
                        (lit "anthropic-version", lit "2023-06-01")];
            body := VObj [(lit "model",
                           VStr (or_default model (lit "claude-3-5-sonnet-20241022")));
                          (lit "max_tokens", num "4096");
                          (lit "system", VStr sysDefault);
                          (lit "messages", VArr [chat_message "user" prompt])] |}
  else if str_eqb provider (lit "google") then
    if is_empty googleKey then
      Throw (Error (lit "Google Gemini API key not set. Add it in Settings."))
    else
      let mdl := or_default model (lit "gemini-1.5-flash") in
      m <- encodeURIComponent mdl ;;
      k <- encodeURIComponent googleKey ;;
      Ok {| url := lit "https://generativelanguage.googleapis.com/v1beta/models/"
                   ++ m ++ lit ":generateContent?key=" ++ k;
            headers := [json_content_type];
            body := VObj [(lit "contents",
                           VArr [VObj [(lit "role", VStr (lit "user"));
                                       (lit "parts",
                                        VArr [VObj [(lit "text", VStr sysDefault)];
                                              VObj [(lit "text", VStr prompt)]])]]);
                          (lit "generationConfig",
                           VObj [(lit "temperature", num "0.7")])] |}
  else
    (* case 'deepseek': default: *)
    if is_empty deepseekKey then
      Throw (Error (lit "DeepSeek API key not set. Add it in Settings."))
    else
      Ok {| url := lit "https://api.deepseek.com/chat/completions";
            headers := [json_content_type;
                        (lit "Authorization", lit "Bearer " ++ deepseekKey)];
            body := VObj [(lit "model", VStr (or_default model (lit "deepseek-chat")));
                          (lit "messages",
                           VArr [chat_message "system" sysDefault;
                                 chat_message "user" prompt]);
                          (lit "temperature", num "0.7");
                          (lit "stream", VBool false)] |}.

(** The message of the error thrown on a response that is not [ok]: the
    [try]/[catch] around [JSON.parse(errText)]. *)
Definition http_error_message (provider : str) (st : N) (errText : str) : str :=
  let errorMsg := provider ++ lit " API error " ++ decimal st in
  try_catch
    (errData <- parse errText ;;
     e <- get (lit "error") errData ;;
     let nested := opt_get (lit "message") e in
     if truthy nested then
       s <- ToString nested ;;
       Ok (errorMsg ++ lit ": " ++ s)
     else
       top <- get (lit "message") errData ;;
       if truthy top then
         s <- ToString top ;;
         Ok (errorMsg ++ lit ": " ++ s)
       else Ok (errorMsg ++ lit ": " ++ truncate errText 200))
    (errorMsg ++ lit ": " ++ truncate errText 200).

(** [parts.map((p) => p?.text).filter(Boolean)] *)
Definition part_texts (parts : value) : result (list value) :=
  mapped <- array_map (opt_get (lit "text")) parts ;;
  Ok (filter truthy mapped).

(** "Normalize to text" at the end of [callAI], per provider. *)
Definition openai_call_text (data : value) : value :=
  or_else (opt_get (lit "content")
             (opt_get (lit "message") (opt_index0 (opt_get (lit "choices") data))))
          (VStr []).

Definition anthropic_call_text (data : value) : result str :=
  let parts := or_else (opt_get (lit "content") data) (VArr []) in
  texts <- part_texts parts ;;
  array_join [LF] texts.

Definition google_call_text (data : value) : result str :=
  let candidate := opt_index0 (opt_get (lit "candidates") data) in
  let parts := or_else (opt_get (lit "parts") (opt_get (lit "content") candidate))
                       (VArr []) in
  texts <- part_texts parts ;;
  array_join [LF] texts.

Definition callAI_normalize (provider : str) (data : value) : result value :=
  if str_eqb provider (lit "openai") || str_eqb provider (lit "deepseek")
     || str_eqb provider (lit "azure") then
    Ok (openai_call_text data)
  else if str_eqb provider (lit "anthropic") then
    t <- anthropic_call_text data ;; Ok (VStr t)
  else if str_eqb provider (lit "google") then
    t <- google_call_text data ;; Ok (VStr t)
  else Ok (VStr []).

(** [resp.json()] *)
Definition json (resp : response) : result value :=
  t <- text resp ;;
  parse t.

Definition callAI (provider : str) (model : option str) (prompt : str)
  (systemPrompt : option str) (cfg : config) : call_run :=
  match callAI_request provider model prompt systemPrompt cfg with
  | Throw e => mkCallRun (Throw e) []
  | Ok req =>
    mkCallRun
      (resp <- fetch req ;;
       if negb (ok resp) then
         Throw (Error (http_error_message provider (status resp) (safeText resp)))
       else
         data <- json resp ;;
         callAI_normalize provider data)
      [req]
  end.

(** The [switch (provider)] of [streamAI].  The variable [mode] that the
    source assigns there is never read. *)
Definition streamAI_request (provider : str) (model : option str) (prompt : str)
  (systemPrompt : option str) (cfg : config) : result request :=
  let sysDefault := or_default systemPrompt default_system_prompt in
  let openaiKey := or_empty (openai_key cfg) in
  let anthropicKey := or_empty (anthropic_key cfg) in
  let googleKey := or_empty (google_key cfg) in
  let deepseekKey := or_empty (deepseek_key cfg) in
  let azureKey := or_empty (azure_api_key cfg) in
  let azureEndpoint := trim (or_empty (azure_endpoint cfg)) in
  let azureDeployment := trim (or_empty (azure_deployment cfg)) in
  let azureApiVersion := trim (or_default (azure_api_version cfg) (lit "2024-02-01")) in
  if str_eqb provider (lit "azure") then
    if is_empty azureEndpoint || is_empty azureKey || is_empty azureDeployment then
      Throw (Error (lit "Azure configuration is incomplete."))
    else if negb (startsWith azureEndpoint (lit "https://")) then
      Throw (Error (lit "Azure endpoint must use HTTPS."))
    else
      let base :=
        if endsWith azureEndpoint (lit "/") then azureEndpoint
        else azureEndpoint ++ lit "/" in
      version <- encodeURIComponent azureApiVersion ;;
      Ok {| url := base ++ lit "openai/deployments/" ++ azureDeployment
                   ++ lit "/chat/completions?api-version=" ++ version;
            headers := [json_content_type; (lit "api-key", azureKey)];
            body := VObj [(lit "model", model_or_undefined model);
                          (lit "messages",
                           VArr [chat_message "system" sysDefault;
                                 chat_message "user" prompt]);
                          (lit "temperature", num "0.7");
                          (lit "stream", VBool true)] |}
  else if str_eqb provider (lit "openai") then
    if is_empty openaiKey then Throw (Error (lit "OpenAI API key not set."))
    else
      Ok {| url := lit "https://api.openai.com/v1/chat/completions";
            headers := [json_content_type;
                        (lit "Authorization", lit "Bearer " ++ openaiKey)];
            body := VObj [(lit "model", VStr (or_default model (lit "gpt-4o-mini")));
                          (lit "messages",
                           VArr [chat_message "system" sysDefault;
                                 chat_message "user" prompt]);
                          (lit "temperature", num "0.7");
                          (lit "stream", VBool true)] |}
  else if str_eqb provider (lit "anthropic") then
    if is_empty anthropicKey then Throw (Error (lit "Anthropic API key not set."))
    else
      Ok {| url := lit "https://api.anthropic.com/v1/messages";
            headers := [json_content_type;
                        (lit "x-api-key", anthropicKey);
                        (lit "anthropic-version", lit "2023-06-01")];
            body := VObj [(lit "model",
                           VStr (or_default model (lit "claude-3-5-sonnet-20241022")));
                          (lit "max_tokens", num "4096");
                          (lit "system", VStr sysDefault);
                          (lit "messages", VArr [chat_message "user" prompt]);
                          (lit "stream", VBool true)] |}
  else if str_eqb provider (lit "google") then
    if is_empty googleKey then Throw (Error (lit "Google Gemini API key not set."))
    else
      let mdl := or_default model (lit "gemini-1.5-flash") in
      m <- encodeURIComponent mdl ;;
      k <- encodeURIComponent googleKey ;;
      Ok {| url := lit "https://generativelanguage.googleapis.com/v1beta/models/"
                   ++ m ++ lit ":streamGenerateContent?key=" ++ k ++ lit "&alt=sse";
            headers := [json_content_type];
            body := VObj [(lit "contents",
                           VArr [VObj [(lit "role", VStr (lit "user"));
                                       (lit "parts",
                                        VArr [VObj [(lit "text", VStr sysDefault)];
                                              VObj [(lit "text", VStr prompt)]])]]);
                          (lit "generationConfig",
                           VObj [(lit "temperature", num "0.7")])] |}
  else
    (* case 'deepseek': default: *)
    if is_empty deepseekKey then Throw (Error (lit "DeepSeek API key not set."))
    else
      Ok {| url := lit "https://api.deepseek.com/chat/completions";
            headers := [json_content_type;
                        (lit "Authorization", lit "Bearer " ++ deepseekKey)];
            body := VObj [(lit "model", VStr (or_default model (lit "deepseek-chat")));
                          (lit "messages",
                           VArr [chat_message "system" sysDefault;
                                 chat_message "user" prompt]);
                          (lit "temperature", num "0.7");
                          (lit "stream", VBool true)] |}.

(** [evt?.delta?.text || evt?.content_block?.text || ''] *)
Definition anthropic_delta (evt : value) : value :=
  or_else (or_else (opt_get (lit "text") (opt_get (lit "delta") evt))
                   (opt_get (lit "text") (opt_get (lit "content_block") evt)))
          (VStr []).

(** The text of one Gemini streaming event: the parts joined by [''] *)
Definition google_stream_text (evt : value) : result str :=
  let candidate := opt_index0 (opt_get (lit "candidates") evt) in
  let parts := or_else (opt_get (lit "parts") (opt_get (lit "content") candidate))
                       (VArr []) in
  texts <- part_texts parts ;;
  array_join [] texts.

(** [evt?.choices?.[0]?.delta?.content || ''] *)
Definition openai_delta (evt : value) : value :=
  or_else (opt_get (lit "content")
             (opt_get (lit "delta") (opt_index0 (opt_get (lit "choices") evt))))
          (VStr []).

(** [full += t; if (onDelta) onDelta(t);] where [onDelta] tells whether a
    callback was supplied.  The concatenation converts [t] to a string and
    throws before anything is assigned when that fails. *)
Definition emit (onDelta : bool) (t : value) (st : sse) : result sse :=
  s <- ToString t ;;
  Ok (mkSse (full st ++ s) (if onDelta then emitted st ++ [t] else emitted st)).

(** The body of the [try] for one parsed event. *)
Definition handle_event (provider : str) (onDelta : bool) (evt : value) (st : sse)
  : result sse :=
  if str_eqb provider (lit "anthropic") then
    let t := anthropic_delta evt in
    if truthy t then emit onDelta t st else Ok st
  else if str_eqb provider (lit "google") then
    text <- google_stream_text evt ;;
    if truthy (VStr text) then emit onDelta (VStr text) st else Ok st
  else
    let t := openai_delta evt in
    if truthy t then emit onDelta t st else Ok st.

(** The body of [for (const line of parts)]. *)
Definition process_line (provider : str) (onDelta : bool) (st : sse) (line : str) : sse :=
  let trimmed := trim line in
  if is_empty trimmed || negb (startsWith trimmed (lit "data:")) then st
  else
    let dataStr := trim (slice_from 5 trimmed) in
    if str_eqb dataStr (lit "[DONE]") then st
    else
      try_catch (evt <- parse dataStr ;; handle_event provider onDelta evt st) st.

Definition process_lines (provider : str) (onDelta : bool) (lines : list str) (st : sse)
  : sse :=
  fold_left (process_line provider onDelta) lines st.

(** The [while (true)] loop over the reads that return a chunk: the chunk
    is appended to [buffer], the buffer is split at line breaks, the last
    piece stays in the buffer and the others are processed in order. *)
Fixpoint read_loop (provider : str) (onDelta : bool) (chunks : list str)
  (buffer : str) (st : sse) : sse :=
  match chunks with
  | [] => st
  | chunk :: more =>
    let parts := split_lines (buffer ++ chunk) in
    read_loop provider onDelta more (last parts [])
              (process_lines provider onDelta (removelast parts) st)
  end.

Definition streamAI (provider : str) (model : option str) (prompt : str)
  (systemPrompt : option str) (cfg : config) (onDelta : bool) : stream_run :=
  match streamAI_request provider model prompt systemPrompt cfg with
  | Throw e => mkStreamRun (Throw e) [] []
  | Ok req =>
    match fetch req with
    | Throw e => mkStreamRun (Throw e) [req] []
    | Ok resp =>
      if negb (ok resp) then
        mkStreamRun
          (Throw (Error (http_error_message provider (status resp) (safeText resp))))
          [req] []
      else
        match reader resp with
        | None =>
          let text := safeText resp in
          mkStreamRun (Ok text) [req] (if onDelta then [VStr text] else [])
        | Some (chunks, fin) =>
          let st := read_loop provider onDelta chunks [] (mkSse [] []) in
          mkStreamRun
            match fin with
            | StreamDone => Ok (full st)
            | StreamFailed reason => Throw (Rejection reason)
            end
            [req] (emitted st)
        end
    end
  end.

End Providers.

(* ================================================================== *)
(** ** sidepanel.js: request session, rate limit and response history *)
(* ================================================================== *)

(** The five operations the buttons and the shortcut pass to [send]. *)
Inductive kind := revise | formal | casual | shorten | expand.

(** What [send] reads from the page: the provider select, the model and
    input fields, the email context, and the result of [getSystemPrompt()]. *)
Record dom := mkDom {
  provider_value : str;
  model_value : str;
  input_value : str;
  emailContext_value : str;
  systemPrompt_value : str
}.

Inductive toast_type := info | warning | error | success.

(** What a handler does to the outside, in order. *)
Inductive effect :=
| Toast (message : str) (type : toast_type)
| FocusInput
| StorageGet
| OpenSettings
| Connect
| PostStart (provider model prompt systemPrompt : str)
| Disconnect.

(** The module state of the side panel, with the [raw] of the listener
    that the last [send] registered and the text of the output element.
    Status line, button states and cost estimate are left out. *)
Record panel := mkPanel {
  currentPort : bool;
  isStreaming : bool;
  responseHistory : list str;
  historyIndex : Z;
  currentOriginalText : str;
  lastRequestTime : Z;
  raw : str;
  output : str
}.

Definition initial : panel :=
  {| currentPort := false; isStreaming := false; responseHistory := [];
     historyIndex := (-1)%Z; currentOriginalText := []; lastRequestTime := 0%Z;
     raw := []; output := [] |}.

Definition RATE_LIMIT_MS : Z := 1000.

(** A message posted on the port by the background worker. *)
Inductive port_message :=
| MsgDelta (text : value)
| MsgDone (text : str)
| MsgError (error : str)
| MsgOther.

(** [cfg.k?.trim()] is truthy. *)
Definition configured (x : option str) : bool :=
  match x with
  | Some s => negb (is_empty (trim s))
  | None => false
  end.

(** The names every object literal inherits from [Object.prototype]. *)
Definition object_prototype_names : list str :=
  map lit ["constructor"; "__defineGetter__"; "__defineSetter__"; "hasOwnProperty";
           "__lookupGetter__"; "__lookupSetter__"; "isPrototypeOf";
           "propertyIsEnumerable"; "toString"; "valueOf"; "__proto__";
           "toLocaleString"]%string.

(** Whether [validateProvider(provider, cfg)] is truthy: [validation[provider]]
    is the trimmed setting for the five providers, an inherited member for
    a name of [Object.prototype], and [undefined] otherwise. *)
Definition validateProvider (provider : str) (cfg : config) : bool :=
  if str_eqb provider (lit "openai") then configured (openai_key cfg)
  else if str_eqb provider (lit "anthropic") then configured (anthropic_key cfg)
  else if str_eqb provider (lit "google") then configured (google_key cfg)
  else if str_eqb provider (lit "deepseek") then configured (deepseek_key cfg)
  else if str_eqb provider (lit "azure") then
    configured (azure_api_key cfg) && configured (azure_endpoint cfg)
    && configured (azure_deployment cfg)
  else existsb (str_eqb provider) object_prototype_names.

(** [getValidationError(provider)]; [send] calls it only for a provider that
    [validateProvider] turned away. *)
Definition getValidationError (provider : str) : str :=
  if str_eqb provider (lit "openai") then
    lit "OpenAI API key not configured. Please add it in Settings."
  else if str_eqb provider (lit "anthropic") then
    lit "Anthropic API key not configured. Please add it in Settings."
  else if str_eqb provider (lit "google") then
    lit "Google Gemini API key not configured. Please add it in Settings."
  else if str_eqb provider (lit "deepseek") then
    lit "DeepSeek API key not configured. Please add it in Settings."
  else if str_eqb provider (lit "azure") then
    lit "Azure OpenAI not fully configured. Please set API key, endpoint, and deployment in Settings."
  else lit "Provider not configured".

Definition instruction (k : kind) : str :=
  match k with
  | revise => lit "Revise the following email for clarity, conciseness, and a friendly but professional tone. Keep the original meaning. Return only the improved email text."
  | formal => lit "Rewrite the following email in a formal, professional business tone. Use proper formal language and maintain high professionalism."
  | casual => lit "Rewrite the following email in a casual, friendly tone while remaining professional. Be conversational and approachable."
  | shorten => lit "Make the following email more concise. Remove unnecessary words while keeping the key message and maintaining professionalism."
  | expand => lit "Expand the following email with more detail and context. Make it more comprehensive while maintaining clarity and professionalism."
  end.

(** [buildPrompt(kind, text)] with the email context field as an argument.
    Every [kind] of a call site is a key of [prompts], whose entries are
    non-empty, so the [|| text] of the source is never taken. *)
Definition buildPrompt (k : kind) (text : str) (emailContext : str) : str :=
  let context := trim emailContext in
  let contextPrefix :=
    if is_empty context then []
    else lit "Background Context / Email Chain:" ++ [LF] ++ context
         ++ [LF; LF] ++ lit "---" ++ [LF; LF] in
  contextPrefix ++ instruction k ++ [LF; LF] ++ lit "Email:" ++ [LF] ++ text.

(** [addToHistory(text)] *)
Definition addToHistory (text : str) (p : panel) : panel :=
  let pushed := responseHistory p ++ [text] in
  let kept := if Nat.ltb 10 (length pushed) then tl pushed else pushed in
  {| currentPort := currentPort p; isStreaming := isStreaming p;
     responseHistory := kept;
     historyIndex := (Z.of_nat (length kept) - 1)%Z;
     currentOriginalText := currentOriginalText p;
     lastRequestTime := lastRequestTime p; raw := raw p; output := output p |}.

(** [navigateHistory(direction)] *)
Definition navigateHistory (direction : Z) (p : panel) : panel :=
  match responseHistory p with
  | [] => p
  | _ :: _ =>
    let index :=
      Z.max 0 (Z.min (Z.of_nat (length (responseHistory p)) - 1)
                     (historyIndex p + direction)) in
    {| currentPort := currentPort p; isStreaming := isStreaming p;
       responseHistory := responseHistory p;
       historyIndex := index;
       currentOriginalText := currentOriginalText p;
       lastRequestTime := lastRequestTime p; raw := raw p;
       output := nth (Z.to_nat index) (responseHistory p) [] |}
  end.

(** What [send] has read when it suspends on the storage read. *)
Record pending := mkPending {
  pending_provider : str;
  pending_model : str;
  pending_text : str
}.

(** [send], up to [await chrome.storage.local.get(settingsFields)]: the
    rate-limit check, the timestamp update and the empty-input check.
    [None] means that [send] returned. *)
Definition send_begin (now : Z) (d : dom) (p : panel)
  : panel * list effect * option pending :=
  if (now - lastRequestTime p <? RATE_LIMIT_MS)%Z then
    (p, [Toast (lit "Please wait a moment before sending another request") warning],
     None)
  else
    let p1 :=
      {| currentPort := currentPort p; isStreaming := isStreaming p;
         responseHistory := responseHistory p; historyIndex := historyIndex p;
         currentOriginalText := currentOriginalText p;
         lastRequestTime := now; raw := raw p; output := output p |} in
    let provider := provider_value d in
    let model := trim (model_value d) in
    let text := trim (input_value d) in
    if is_empty text then
      (p1, [Toast (lit "Please enter some text first") warning; FocusInput], None)
    else (p1, [StorageGet], Some (mkPending provider model text)).

(** [send], from the storage result on: provider validation, then the
    request. *)
Definition send_resume (k : kind) (cfg : config) (d : dom) (w : pending) (p : panel)
  : panel * list effect :=
  if negb (validateProvider (pending_provider w) cfg) then
    (p, [Toast (getValidationError (pending_provider w)) error; OpenSettings])
  else
    let prompt := buildPrompt k (pending_text w) (emailContext_value d) in
    let systemPrompt := systemPrompt_value d in
    ({| currentPort := true; isStreaming := true;
        responseHistory := responseHistory p; historyIndex := historyIndex p;
        currentOriginalText := pending_text w;
        lastRequestTime := lastRequestTime p; raw := []; output := [] |},
     [Connect;
      PostStart (pending_provider w) (pending_model w) prompt systemPrompt]).

(** [send(kind)] run to its end, the storage read answering [cfg]. *)
Definition send (k : kind) (now : Z) (d : dom) (cfg : config) (p : panel)
  : panel * list effect :=
  match send_begin now d p with
  | (p1, effects, None) => (p1, effects)
  | (p1, effects, Some w) =>
    let (p2, more) := send_resume k cfg d w p1 in
    (p2, effects ++ more)
  end.

(** The listener that [send] registers on the port. *)
Definition on_message (m : port_message) (p : panel) : panel * list effect :=
  match m with
  | MsgDelta text =>
    (* raw += msg.text || ''; outputEl.textContent = raw; *)
    match ToString (or_else text (VStr [])) with
    | Throw _ => (p, [])
    | Ok s =>
      ({| currentPort := currentPort p; isStreaming := isStreaming p;
          responseHistory := responseHistory p; historyIndex := historyIndex p;
          currentOriginalText := currentOriginalText p;
          lastRequestTime := lastRequestTime p;
          raw := raw p ++ s; output := raw p ++ s |}, [])
    end
  | MsgDone text =>
    (* raw = msg.text || raw; ... addToHistory(raw); currentPort.disconnect(); *)
    let final := if is_empty text then raw p else text in
    (addToHistory final
       {| currentPort := false; isStreaming := false;
          responseHistory := responseHistory p; historyIndex := historyIndex p;
          currentOriginalText := currentOriginalText p;
          lastRequestTime := lastRequestTime p;
          raw := final; output := final |},
     [Disconnect])
  | MsgError err =>
    ({| currentPort := false; isStreaming := false;
        responseHistory := responseHistory p; historyIndex := historyIndex p;
        currentOriginalText := currentOriginalText p;
        lastRequestTime := lastRequestTime p;
        raw := raw p; output := output p |},
     Toast (lit "Request failed: " ++ err) error
     :: (if currentPort p then [Disconnect] else []))
  | MsgOther => (p, [])
  end.

(** A message reaches the listener only while the port is connected on
    the panel's side. *)
Definition deliver (m : port_message) (p : panel) : panel * list effect :=
  if currentPort p then on_message m p else (p, []).

(** [cancelStream()] *)
Definition cancelStream (p : panel) : panel * list effect :=
  ({| currentPort := false; isStreaming := false;
      responseHistory := responseHistory p; historyIndex := historyIndex p;
      currentOriginalText := currentOriginalText p;
      lastRequestTime := lastRequestTime p;
      raw := raw p; output := output p |},
   (if currentPort p then [Disconnect] else [])
   ++ [Toast (lit "Request cancelled") info]).

(** What can happen to the panel. *)
Inductive event :=
| Send (k : kind) (now : Z) (d : dom) (cfg : config)
| Message (m : port_message)
| Cancel
| Navigate (direction : Z).

Definition step (p : panel) (ev : event) : panel * list effect :=
  match ev with
  | Send k now d cfg => send k now d cfg p
  | Message m => deliver m p
  | Cancel => cancelStream p
  | Navigate direction => (navigateHistory direction p, [])
  end.

Definition after (p : panel) (evs : list event) : panel :=
  fold_left (fun q ev => fst (step q ev)) evs p.

(* ================================================================== *)
(** ** background.js: the port handler around [streamAI] *)
(* ================================================================== *)

(** The messages the worker posts for one [start]: a delta for every
    truthy argument of [onDelta], then [done] with the returned text or
    [error] with the text of what was thrown.  [describe] stands for
    [(err && err.message) || String(err)]. *)
Definition port_messages (describe : exn -> str) (r : stream_run) : list port_message :=
  map MsgDelta (filter truthy (deltas r))
  ++ [match outcome r with
      | Ok fullText => MsgDone fullText
      | Throw err => MsgError (describe err)
      end].


(* ================================================================== *)
(** ** Definitions used in the statements *)
(* ================================================================== *)

Definition same_history (p q : panel) : Prop :=
  responseHistory q = responseHistory p /\ historyIndex q = historyIndex p.

Definition rate_limit_toast : effect :=
  Toast (lit "Please wait a moment before sending another request") warning.

Definition is_send (ev : event) : bool :=
  match ev with
  | Send _ _ _ _ => true
  | _ => false
  end.

(** A page with a text to revise, and settings with an OpenAI key only. *)
Definition example_dom : dom :=
  {| provider_value := lit "openai"; model_value := [];
     input_value := lit "Hello"; emailContext_value := [];
     systemPrompt_value := default_system_prompt |}.

Definition example_cfg : config :=
  {| openai_key := Some (lit "sk-test"); anthropic_key := None;
     google_key := None; deepseek_key := None; azure_api_key := None;
     azure_endpoint := None; azure_deployment := None;
     azure_api_version := None |}.

Definition empty_cfg : config :=
  {| openai_key := None; anthropic_key := None;
     google_key := None; deepseek_key := None; azure_api_key := None;
     azure_endpoint := None; azure_deployment := None;
     azure_api_version := None |}.

(** A request sent at 5000 ms and completed, then a second click at 5900 ms. *)
Definition after_two_clicks : panel :=
  after initial [Send revise 5000 example_dom example_cfg;
                 Message (MsgDone (lit "Hi"));
                 Send revise 5900 example_dom example_cfg].

(** The timestamp after an event: only a [send] that passes the
    rate-limit check moves it, to its call time. *)
Definition clock (time : Z) (ev : event) : Z :=
  match ev with
  | Send _ now _ _ => if (now - time <? RATE_LIMIT_MS)%Z then time else now
  | _ => time
  end.

(** The call time of the last [send] among [evs] that passed the check,
    or [time] when there is none. *)
Definition last_accepted_send (time : Z) (evs : list event) : Z :=
  fold_left clock evs time.

(** A [send] is turned away after the rate-limit check when the input
    trims to nothing or the selected provider is not configured. *)
Definition rejected_after_check (d : dom) (cfg : config) : Prop :=
  is_empty (trim (input_value d)) = true
  \/ validateProvider (provider_value d) cfg = false.

(** The endpoint, key or deployment that [callAI] and [streamAI] resolve
    for Azure is empty, or the endpoint does not start with [https://].
    The endpoint and the deployment are trimmed before they are tested,
    an absent setting counts as empty. *)
Definition azure_misconfigured (cfg : config) : Prop :=
  trim (or_empty (azure_endpoint cfg)) = []
  \/ or_empty (azure_api_key cfg) = []
  \/ trim (or_empty (azure_deployment cfg)) = []
  \/ startsWith (trim (or_empty (azure_endpoint cfg))) (lit "https://") = false.

Definition azure_config_errors : list str :=
  [lit "Azure configuration is incomplete. Set endpoint, deployment, and API key in Settings.";
   lit "Azure endpoint must use HTTPS. Please update your endpoint URL.";
   lit "Azure configuration is incomplete.";
   lit "Azure endpoint must use HTTPS."].

(** The truthy texts of [candidates[0].content.parts], in order: what both
    Gemini extractions join. *)
Definition google_part_texts (data : value) : result (list value) :=
  part_texts
    (or_else (opt_get (lit "parts")
                (opt_get (lit "content") (opt_index0 (opt_get (lit "candidates") data))))
             (VArr [])).

(** The concatenation of the texts of a sequence of fragments. *)
Fixpoint concat_texts (fragments : list value) : result str :=
  match fragments with
  | [] => Ok []
  | t :: rest =>
    s <- ToString t ;;
    more <- concat_texts rest ;;
    Ok (s ++ more)
  end.

(** The part of a record after [data:], trimmed: what is compared with
    [[DONE]] and handed to [JSON.parse]. *)
Definition payload (line : str) : str := trim (slice_from 5 (trim line)).

(** The first of two values that is truthy. *)
Definition first_truthy (a b : value) : option value :=
  if truthy a then Some a
  else if truthy b then Some b
  else None.

Section Statements.

Variable JSON_parse : str -> option value.

(** A record that carries no event: blank, not a [data:] line, the
    [[DONE]] sentinel, or a [data:] line whose payload is not JSON.  As in
    the code, the line is trimmed before it is looked at. *)
Definition skipped_record (line : str) : Prop :=
  trim line = []
  \/ startsWith (trim line) (lit "data:") = false
  \/ payload line = lit "[DONE]"
  \/ JSON_parse (payload line) = None.

(** A record that carries the event [evt]. *)
Definition event_record (line : str) (evt : value) : Prop :=
  trim line <> []
  /\ startsWith (trim line) (lit "data:") = true
  /\ payload line <> lit "[DONE]"
  /\ JSON_parse (payload line) = Some evt.

(** What follows the colon in the message of an HTTP failure: the text of
    the body's nested [error.message] when the body parses and that
    field is truthy, else of its top-level [message] when truthy, else
    (also when the body does not parse or the field has no text) the
    truncated body. *)
Definition error_detail (errText : str) : str :=
  match JSON_parse errText with
  | None => truncate errText 200
  | Some errData =>
    match first_truthy (opt_get (lit "message") (opt_get (lit "error") errData))
                       (opt_get (lit "message") errData) with
    | None => truncate errText 200
    | Some field =>
      match ToString field with
      | Ok s => s
      | Throw _ => truncate errText 200
      end
    end
  end.

End Statements.

(* ================================================================== *)
(** ** A reference platform for closed examples *)
(* ================================================================== *)

(** [A-Z a-z 0-9 - _ . ! ~ * ' ( )] *)
Definition is_uri_unreserved (c : code_unit) : bool :=
  (N.leb 65 c && N.leb c 90) || (N.leb 97 c && N.leb c 122) || is_digit c
  || existsb (N.eqb c) [45; 95; 46; 33; 126; 42; 39; 40; 41]%N.

Definition hex_char (n : N) : code_unit :=
  if N.ltb n 10 then (48 + n)%N else (55 + n)%N.

Definition percent (byte : N) : str :=
  [37%N; hex_char (byte / 16); hex_char (byte mod 16)].

Definition utf8 (cp : N) : list N :=
  (if cp <? 128 then [cp]
   else if cp <? 2048 then [192 + cp / 64; 128 + cp mod 64]
   else if cp <? 65536 then
     [224 + cp / 4096; 128 + (cp / 64) mod 64; 128 + cp mod 64]
   else [240 + cp / 262144; 128 + (cp / 4096) mod 64;
         128 + (cp / 64) mod 64; 128 + cp mod 64])%N.

(** [encodeURIComponent]: unreserved characters stay, every other code
    point becomes the percent-escapes of its UTF-8 bytes, a lone
    surrogate is a URIError. *)
Fixpoint encodeURIComponent_ref (s : str) : result str :=
  match s with
  | [] => Ok []
  | c :: rest =>
    if is_uri_unreserved c then
      r <- encodeURIComponent_ref rest ;; Ok (c :: r)
    else if N.leb 55296 c && N.leb c 56319 then
      match rest with
      | d :: rest' =>
        if N.leb 56320 d && N.leb d 57343 then
          r <- encodeURIComponent_ref rest' ;;
          Ok (flat_map percent
                (utf8 (65536 + (c - 55296) * 1024 + (d - 56320))%N) ++ r)
        else Throw URIError
      | [] => Throw URIError
      end
    else if N.leb 56320 c && N.leb c 57343 then Throw URIError
    else
      r <- encodeURIComponent_ref rest ;; Ok (flat_map percent (utf8 c) ++ r)
  end.

(** A server that answers every request with the same response. *)
Definition respond (resp : response) : request -> result response :=
  fun _ => Ok resp.

(** [{"error":{"message":"rate limited"}}] *)
Definition rate_limited_body : str :=
  lit "{" ++ quoted "error" ++ lit ":{" ++ quoted "message" ++ lit ":"
  ++ quoted "rate limited" ++ lit "}}".

Definition rate_limited_response : response :=
  {| status := 429; text := Ok rate_limited_body; reader := None |}.

(** [{"error":{"message":""},"message":"quota"}] *)
Definition empty_nested_message_body : str :=
  lit "{" ++ quoted "error" ++ lit ":{" ++ quoted "message" ++ lit ":" ++ dq ++ dq
  ++ lit "}," ++ quoted "message" ++ lit ":" ++ quoted "quota" ++ lit "}".

(** An error page of 201 characters that is not JSON. *)
Definition long_body : str := repeat 120%N 201.

(** Azure settings whose endpoint is [http://foo.com]. *)
Definition azure_http_cfg : config :=
  {| openai_key := None; anthropic_key := None;
     google_key := None; deepseek_key := None;
     azure_api_key := Some (lit "key");
     azure_endpoint := Some (lit "http://foo.com");
     azure_deployment := Some (lit "gpt4");
     azure_api_version := None |}.

Definition deepseek_cfg : config :=
  {| openai_key := None; anthropic_key := None;
     google_key := None; deepseek_key := Some (lit "ds-key");
     azure_api_key := None; azure_endpoint := None; azure_deployment := None;
     azure_api_version := None |}.

(** A Gemini event whose candidate has the two parts ["a"] and ["b"]. *)
Definition two_part_event : value :=
  VObj [(lit "candidates",
         VArr [VObj [(lit "content",
                      VObj [(lit "parts",
                             VArr [VObj [(lit "text", VStr (lit "a"))];
                                   VObj [(lit "text", VStr (lit "b"))]])])]])].

(** The loop invariant of [streamAI]: [full] is the concatenation of the
    texts of the fragments handed to [onDelta] so far, and every one of
    them is truthy. *)
Definition accumulated (st : sse) : Prop :=
  concat_texts (emitted st) = Ok (full st)
  /\ Forall (fun t => truthy t = true) (emitted st).

(** A fragment that is a string with at least one character. *)
Definition nonempty_string (t : value) : Prop :=
  exists c s, t = VStr (c :: s).

(** The [data:] record of an OpenAI-style event with the given content,
    [data: {"choices":[{"delta":{"content":"..."}}]}]. *)
Definition openai_record (content : string) : str :=
  lit "data: {" ++ quoted "choices" ++ lit ":[{" ++ quoted "delta" ++ lit ":{"
  ++ quoted "content" ++ lit ":" ++ quoted content ++ lit "}}]}".
Arguments openai_record content%_string.

(** A streamed body in two chunks: a record split across the chunks, a
    record that is not JSON, a second event, the sentinel and a blank
    line. *)
Definition example_chunks : list str :=
  [openai_record "Hel" ++ [LF] ++ lit "da";
   lit "ta: not json" ++ [CR; LF] ++ openai_record "lo" ++ [LF]
   ++ lit "data: [DONE]" ++ [LF; LF]].

Definition streamed_response : response :=
  {| status := 200; text := Throw (Rejection (lit "body already read"));
     reader := Some (example_chunks, StreamDone) |}.

(** A 204 response: no body, so no reader, and an empty text. *)
Definition no_content_response : response :=
  {| status := 204; text := Ok []; reader := None |}.

(** A streamed body whose only record is
    [data: {"choices":[{"delta":{"content":[]}}]}]: the content is an
    empty array, which is truthy and prints as the empty string. *)
Definition array_content_response : response :=
  {| status := 200; text := Throw (Rejection (lit "body already read"));
     reader :=
       Some ([lit "data: {" ++ quoted "choices" ++ lit ":[{" ++ quoted "delta"
              ++ lit ":{" ++ quoted "content" ++ lit ":[]}}]}" ++ [LF]],
             StreamDone) |}.

(* ================================================================== *)
(** ** sidepanel.js: provider selection, history buttons, shortcuts *)
(* ================================================================== *)

(** [x && x.trim().length > 0] is truthy. *)
Definition present_and_nonblank (x : option str) : bool :=
  match x with
  | Some s => negb (is_empty s) && Nat.ltb 0 (length (trim s))
  | None => false
  end.

(** Whether [isProviderConfigured(provider, cfg)] is truthy; its callers
    only branch on the result. *)
Definition isProviderConfigured (provider : str) (cfg : config) : bool :=
  if str_eqb provider (lit "openai") then present_and_nonblank (openai_key cfg)
  else if str_eqb provider (lit "anthropic") then present_and_nonblank (anthropic_key cfg)
  else if str_eqb provider (lit "google") then present_and_nonblank (google_key cfg)
  else if str_eqb provider (lit "deepseek") then present_and_nonblank (deepseek_key cfg)
  else if str_eqb provider (lit "azure") then
    present_and_nonblank (azure_api_key cfg)
    && present_and_nonblank (azure_endpoint cfg)
    && present_and_nonblank (azure_deployment cfg)
  else false.

(** [getProviderName(provider)], which the code calls with the entries of
    [providerPriority] only. *)
Definition getProviderName (provider : str) : str :=
  if str_eqb provider (lit "openai") then lit "OpenAI"
  else if str_eqb provider (lit "anthropic") then lit "Anthropic (Claude)"
  else if str_eqb provider (lit "google") then lit "Google Gemini"
  else if str_eqb provider (lit "deepseek") then lit "DeepSeek"
  else if str_eqb provider (lit "azure") then lit "Azure OpenAI"
  else provider.

Definition providerPriority : list str :=
  map lit ["openai"; "anthropic"; "google"; "deepseek"; "azure"]%string.

(** What an auto-selection does: the value of the provider select
    afterwards, whether [onProviderChange()] ran, and the toast shown. *)
Record selection := mkSelection {
  selected : str;
  provider_changed : bool;
  announced : option str
}.

(** [autoSelectProvider(cfg)], [current] being the value of the provider
    select. *)
Definition autoSelectProvider (current : str) (cfg : config) : selection :=
  if isProviderConfigured current cfg then mkSelection current true None
  else
    match find (fun provider => isProviderConfigured provider cfg) providerPriority with
    | Some provider =>
      mkSelection provider true
                  (Some (lit "Auto-selected " ++ getProviderName provider))
    | None => mkSelection current false None
    end.

(** [autoSelectProviderSilent(cfg)] *)
Definition autoSelectProviderSilent (current : str) (cfg : config) : selection :=
  if isProviderConfigured current cfg then mkSelection current true None
  else
    match find (fun provider => isProviderConfigured provider cfg) providerPriority with
    | Some provider => mkSelection provider true None
    | None => mkSelection current false None
    end.

(** What [updateHistoryUI()] writes: the [disabled] flags of the two
    buttons and the two numbers of the position text ([None] for the
    dash shown on an empty history). *)
Record history_ui := mkHistoryUi {
  prev_disabled : bool;
  next_disabled : bool;
  position : option (Z * nat)
}.

Definition updateHistoryUI (p : panel) : history_ui :=
  let hasPrev := (0 <? historyIndex p)%Z in
  let hasNext := (historyIndex p <? Z.of_nat (length (responseHistory p)) - 1)%Z in
  {| prev_disabled := negb hasPrev;
     next_disabled := negb hasNext;
     position :=
       if Nat.ltb 0 (length (responseHistory p))
       then Some ((historyIndex p + 1)%Z, length (responseHistory p))
       else None |}.

(** The prompt presets other than [custom]. *)
Definition SYSTEM_PROMPTS : list (str * str) :=
  [(lit "default", lit "You are a helpful assistant. Return concise results.");
   (lit "professional", lit "You are a professional email writing expert. Focus on clarity, professionalism, and proper business etiquette. Maintain a polished and respectful tone.");
   (lit "concise", lit "You are an expert at concise communication. Be direct, brief, and eliminate unnecessary words while maintaining clarity and professionalism.");
   (lit "friendly", lit "You are a friendly communication assistant. Use a warm, approachable tone while maintaining professionalism. Be conversational but respectful.");
   (lit "formal", lit "You are a formal business communication expert. Use proper formal language, avoid contractions, and maintain a highly professional tone suitable for corporate correspondence.");
   (lit "custom", [])].

Fixpoint preset_text (preset : str) (table : list (str * str)) : option str :=
  match table with
  | [] => None
  | (name, text) :: rest =>
    if str_eqb preset name then Some text else preset_text preset rest
  end.

(** [getSystemPrompt()], [preset] and [custom] being the values of the
    preset select and of the custom prompt field.  [None] stands for the
    one case in which the result is not a string: a preset that names a
    member inherited from [Object.prototype]. *)
Definition getSystemPrompt (preset custom : str) : option str :=
  if str_eqb preset (lit "custom") then
    Some (or_default (Some (trim custom)) default_system_prompt)
  else
    match preset_text preset SYSTEM_PROMPTS with
    | Some text => Some (or_default (Some text) default_system_prompt)
    | None =>
      if existsb (str_eqb preset) object_prototype_names then None
      else Some default_system_prompt
    end.

(** A [keydown] event: the two modifier flags and the key. *)
Record key_event := mkKeyEvent {
  metaKey : bool;
  ctrlKey : bool;
  key : str
}.

(** What a shortcut triggers. *)
Inductive shortcut :=
| DoSend (k : kind)
| DoCancel
| DoClearInput
| DoToggleTheme
| DoSaveSettings.

(** [handleKeyboardShortcuts(e)]: the handlers it calls, in order; each
    comes with one [e.preventDefault()].  [isMac] is whether the platform
    name contains MAC, [settingsOpen] whether the settings element has
    the [open] attribute. *)
Definition handleKeyboardShortcuts (isMac settingsOpen : bool) (e : key_event)
  (p : panel) : list shortcut :=
  let modifier := if isMac then metaKey e else ctrlKey e in
  (if modifier && str_eqb (key e) (lit "Enter") && negb (isStreaming p)
   then [DoSend revise] else [])
  ++ (if str_eqb (key e) (lit "Escape") && isStreaming p then [DoCancel] else [])
  ++ (if modifier && str_eqb (key e) (lit "k") then [DoClearInput] else [])
  ++ (if modifier && str_eqb (key e) (lit "d") then [DoToggleTheme] else [])
  ++ (if modifier && str_eqb (key e) (lit "s") && settingsOpen
      then [DoSaveSettings] else []).

(** The cursor is a position of the history, or -1 on an empty history. *)
Definition cursor_ok (p : panel) : Prop :=
  match responseHistory p with
  | [] => historyIndex p = (-1)%Z
  | _ :: _ => (0 <= historyIndex p < Z.of_nat (length (responseHistory p)))%Z
  end.

(** The settings with another Azure endpoint. *)
Definition with_azure_endpoint (endpoint : str) (cfg : config) : config :=
  {| openai_key := openai_key cfg; anthropic_key := anthropic_key cfg;
     google_key := google_key cfg; deepseek_key := deepseek_key cfg;
     azure_api_key := azure_api_key cfg;
     azure_endpoint := Some endpoint;
     azure_deployment := azure_deployment cfg;
     azure_api_version := azure_api_version cfg |}.

(** The errors that report a missing credential, in [callAI] and in
    [streamAI]. *)
Definition missing_credential_errors : list str :=
  [lit "Azure configuration is incomplete. Set endpoint, deployment, and API key in Settings.";
   lit "OpenAI API key not set. Add it in Settings.";
   lit "Anthropic API key not set. Add it in Settings.";
   lit "Google Gemini API key not set. Add it in Settings.";
   lit "DeepSeek API key not set. Add it in Settings.";
   lit "Azure configuration is incomplete.";
   lit "OpenAI API key not set.";
   lit "Anthropic API key not set.";
   lit "Google Gemini API key not set.";
   lit "DeepSeek API key not set."].

(** All code units of a string are white space. *)
Definition all_white_space (s : str) : Prop :=
  forallb is_white_space s = true.

(** Complete Azure settings with an HTTPS endpoint without final slash. *)
Definition azure_https_cfg : config :=
  {| openai_key := None; anthropic_key := None;
     google_key := None; deepseek_key := None;
     azure_api_key := Some (lit "key");
     azure_endpoint := Some (lit "https://foo.openai.azure.com");
     azure_deployment := Some (lit "gpt4");
     azure_api_version := None |}.

(** Settings with an Anthropic and a DeepSeek key. *)
Definition two_keys_cfg : config :=
  {| openai_key := None; anthropic_key := Some (lit "ak");
     google_key := None; deepseek_key := Some (lit "ds-key");
     azure_api_key := None; azure_endpoint := None; azure_deployment := None;
     azure_api_version := None |}.

(** The panel right after an accepted [send]. *)
Definition streaming_panel : panel :=
  fst (send revise 5000 example_dom example_cfg initial).

(** A panel with three responses, the cursor on the second. *)
Definition browsing_panel : panel :=
  after initial [Send revise 5000 example_dom example_cfg;
                 Message (MsgDone (lit "one"));
                 Send revise 7000 example_dom example_cfg;
                 Message (MsgDone (lit "two"));
                 Send revise 9000 example_dom example_cfg;
                 Message (MsgDone (lit "three"));
                 Navigate (-1)].

(** A body answered by a server that knows no provider shape: [{}]. *)
Definition empty_object_response : response :=
  {| status := 200; text := Ok (lit "{}"); reader := None |}.

(** A complete OpenAI-style answer,
    [{"choices":[{"message":{"content":"Hello"}}]}]. *)
Definition chat_completion_response : response :=
  {| status := 200;
     text := Ok (lit "{" ++ quoted "choices" ++ lit ":[{" ++ quoted "message"
                 ++ lit ":{" ++ quoted "content" ++ lit ":" ++ quoted "Hello"
                 ++ lit "}}]}");
     reader := None |}.

(** The panel after it has handled the messages the worker posts for one
    run of [streamAI]. *)
Definition panel_after_run (describe : exn -> str) (r : stream_run) (p : panel)
  : panel :=
  after p (map Message (port_messages describe r)).

(** A streamed body whose reads fail after the first chunk. *)
Definition interrupted_response : response :=
  {| status := 200; text := Throw (Rejection (lit "body already read"));
     reader := Some ([openai_record "Hel" ++ [LF] ++ lit "da"],
                     StreamFailed (lit "network error")) |}.
(* ================================================================== *)
(** ** Basic facts about strings and values *)
(* ================================================================== *)

Arguments lit : simpl never.

Lemma str_eqb_eq (a b : str) : str_eqb a b = true <-> a = b.
Proof.
  revert b; induction a as [|x a IH]; intros [|y b]; simpl; split;
    try congruence; try reflexivity.
  - intros H. apply andb_true_iff in H as [Hx Hr].
    apply N.eqb_eq in Hx. apply IH in Hr. congruence.
  - intros H. injection H as -> ->. rewrite N.eqb_refl. simpl.
    apply IH. reflexivity.
Qed.

Lemma str_eqb_refl (a : str) : str_eqb a a = true.
Proof. apply str_eqb_eq. reflexivity. Qed.

Lemma str_eqb_neq (a b : str) : a <> b -> str_eqb a b = false.
Proof.
  intros H. destruct (str_eqb a b) eqn:E; [|reflexivity].
  apply str_eqb_eq in E. contradiction.
Qed.

Lemma is_empty_true (s : str) : is_empty s = true <-> s = [].
Proof. destruct s; simpl; split; congruence. Qed.

Lemma truthy_VStr (s : str) : truthy (VStr s) = true <-> s <> [].
Proof. destruct s; simpl; split; congruence. Qed.

(* ================================================================== *)
(** ** The response history *)
(* ================================================================== *)

Lemma addToHistory_entries (text : str) (p : panel) :
  responseHistory (addToHistory text p)
  = if Nat.ltb 10 (length (responseHistory p ++ [text]))
    then tl (responseHistory p ++ [text])
    else responseHistory p ++ [text].
Proof. reflexivity. Qed.

Lemma addToHistory_bounded (text : str) (p : panel) :
  length (responseHistory p) <= 10 ->
  length (responseHistory (addToHistory text p)) <= 10.
Proof.
  intros H. rewrite addToHistory_entries.
  destruct (Nat.ltb 10 (length (responseHistory p ++ [text]))) eqn:E.
  - destruct (responseHistory p ++ [text]) as [|x l] eqn:El; simpl; [lia|].
    assert (Hl : length (responseHistory p ++ [text]) = S (length l))
      by (rewrite El; reflexivity).
    rewrite length_app in Hl. simpl in Hl. lia.
  - apply Nat.ltb_ge in E. exact E.
Qed.

Lemma step_entries (p : panel) (ev : event) :
  responseHistory (fst (step p ev)) = responseHistory p
  \/ exists text,
       ev = Message (MsgDone text) /\ currentPort p = true
       /\ fst (step p ev)
          = addToHistory (if is_empty text then raw p else text)
              {| currentPort := false; isStreaming := false;
                 responseHistory := responseHistory p;
                 historyIndex := historyIndex p;
                 currentOriginalText := currentOriginalText p;
                 lastRequestTime := lastRequestTime p;
                 raw := if is_empty text then raw p else text;
                 output := if is_empty text then raw p else text |}.
Proof.
  destruct ev as [k now d cfg|m| |direction]; simpl.
  - left. unfold send, send_begin.
    destruct (now - lastRequestTime p <? RATE_LIMIT_MS)%Z; [reflexivity|].
    destruct (is_empty (trim (input_value d))); [reflexivity|].
    unfold send_resume. simpl.
    destruct (validateProvider (provider_value d) cfg); reflexivity.
  - unfold deliver. destruct (currentPort p) eqn:Hp; [|left; reflexivity].
    destruct m as [text|text|err|]; simpl.
    + left. destruct (ToString (or_else text (VStr []))); reflexivity.
    + right. exists text. repeat split.
    + left. reflexivity.
    + left. reflexivity.
  - left. reflexivity.
  - left. unfold navigateHistory.
    destruct (responseHistory p) eqn:E; simpl; congruence.
Qed.

Lemma step_bounded (p : panel) (ev : event) :
  length (responseHistory p) <= 10 ->
  length (responseHistory (fst (step p ev))) <= 10.
Proof.
  intros H. destruct (step_entries p ev) as [E|[text [_ [_ E]]]].
  - rewrite E. exact H.
  - rewrite E. apply addToHistory_bounded. exact H.
Qed.

Lemma after_bounded (evs : list event) (p : panel) :
  length (responseHistory p) <= 10 ->
  length (responseHistory (after p evs)) <= 10.
Proof.
  revert p. induction evs as [|ev evs IH]; intros p H; simpl; [exact H|].
  apply IH. apply step_bounded. exact H.
Qed.

(** C6.  From the initial state the history never holds more than 10
    entries, whatever events the panel handles; [addToHistory] keeps the
    bound, appends the new entry when there is room and otherwise drops
    the oldest entry and shifts the others, and leaves the cursor on the
    entry it just added; after eleven pushes the first entry is gone. *)
Theorem history_capacity :
  (forall evs, length (responseHistory (after initial evs)) <= 10)
  /\ (forall p ev,
        length (responseHistory p) <= 10 ->
        length (responseHistory (fst (step p ev))) <= 10)
  /\ (forall text p,
        length (responseHistory p) < 10 ->
        responseHistory (addToHistory text p) = responseHistory p ++ [text])
  /\ (forall text p,
        length (responseHistory p) = 10 ->
        responseHistory (addToHistory text p) = tl (responseHistory p) ++ [text]
        /\ length (responseHistory (addToHistory text p)) = 10)
  /\ (forall text p,
        length (responseHistory p) <= 10 ->
        historyIndex (addToHistory text p)
        = (Z.of_nat (length (responseHistory (addToHistory text p))) - 1)%Z
        /\ nth_error (responseHistory (addToHistory text p))
                     (Z.to_nat (historyIndex (addToHistory text p)))
           = Some text)
  /\ (forall e1 e2 e3 e4 e5 e6 e7 e8 e9 e10 e11,
        responseHistory
          (fold_left (fun p text => addToHistory text p)
                     [e1; e2; e3; e4; e5; e6; e7; e8; e9; e10; e11] initial)
        = [e2; e3; e4; e5; e6; e7; e8; e9; e10; e11]).
Proof.
  split; [|split; [|split; [|split; [|split]]]]; [| | | | |reflexivity].
  - intros evs. apply after_bounded. simpl. lia.
  - intros p ev. apply step_bounded.
  - intros text p H. rewrite addToHistory_entries.
    rewrite length_app. simpl.
    destruct (Nat.ltb_spec 10 (length (responseHistory p) + 1)); [lia|reflexivity].
  - intros text p H. rewrite addToHistory_entries.
    rewrite length_app. simpl. rewrite H. simpl.
    destruct (responseHistory p) as [|x l]; simpl in *; [discriminate|].
    split; [reflexivity|]. rewrite length_app. simpl. lia.
  - intros text p H. split; [reflexivity|].
    unfold addToHistory at 2. simpl historyIndex.
    rewrite addToHistory_entries.
    rewrite length_app. simpl length.
    destruct (Nat.ltb_spec 10 (length (responseHistory p) + 1)) as [Hlt|Hge].
    + destruct (responseHistory p) as [|x l] eqn:El; simpl in *; [lia|].
      rewrite length_app. simpl.
      replace (Z.to_nat (Z.of_nat (length l + 1) - 1)) with (length l) by lia.
      rewrite nth_error_app2 by lia. rewrite Nat.sub_diag. reflexivity.
    + rewrite length_app. simpl.
      replace (Z.to_nat (Z.of_nat (length (responseHistory p) + 1) - 1))
        with (length (responseHistory p)) by lia.
      rewrite nth_error_app2 by lia. rewrite Nat.sub_diag. reflexivity.
Qed.

(* ================================================================== *)
(** ** History and cursor under errors and cancellation *)
(* ================================================================== *)

Lemma same_history_refl (p : panel) : same_history p p.
Proof. split; reflexivity. Qed.




Lemma send_history (k : kind) (now : Z) (d : dom) (cfg : config) (p : panel) :
  same_history p (fst (send k now d cfg p)).
Proof.
  unfold send, send_begin.
  destruct (now - lastRequestTime p <? RATE_LIMIT_MS)%Z; [split; reflexivity|].
  destruct (is_empty (trim (input_value d))); [split; reflexivity|].
  unfold send_resume. simpl.
  destruct (validateProvider (provider_value d) cfg); split; reflexivity.
Qed.




Lemma after_app (p : panel) (evs1 evs2 : list event) :
  after p (evs1 ++ evs2) = after (after p evs1) evs2.
Proof. unfold after. apply fold_left_app. Qed.


(* ================================================================== *)
(** ** The rate limit of [send] *)
(* ================================================================== *)

Lemma send_begin_rejects (now : Z) (d : dom) (p : panel) :
  (now - lastRequestTime p < RATE_LIMIT_MS)%Z ->
  send_begin now d p = (p, [rate_limit_toast], None).
Proof.
  intros H. unfold send_begin.
  destruct (Z.ltb_spec (now - lastRequestTime p) RATE_LIMIT_MS); [reflexivity|lia].
Qed.

Lemma send_rejects (k : kind) (now : Z) (d : dom) (cfg : config) (p : panel) :
  (now - lastRequestTime p < RATE_LIMIT_MS)%Z ->
  send k now d cfg p = (p, [rate_limit_toast]).
Proof. intros H. unfold send. rewrite send_begin_rejects by exact H. reflexivity. Qed.

Lemma send_passing_sets_time (k : kind) (now : Z) (d : dom) (cfg : config) (p : panel) :
  (RATE_LIMIT_MS <= now - lastRequestTime p)%Z ->
  lastRequestTime (fst (send k now d cfg p)) = now.
Proof.
  intros H. unfold send, send_begin.
  destruct (Z.ltb_spec (now - lastRequestTime p) RATE_LIMIT_MS); [lia|].
  destruct (is_empty (trim (input_value d))); [reflexivity|].
  unfold send_resume. simpl.
  destruct (validateProvider (provider_value d) cfg); reflexivity.
Qed.

Lemma step_keeps_time (p : panel) (ev : event) :
  is_send ev = false ->
  lastRequestTime (fst (step p ev)) = lastRequestTime p.
Proof.
  destruct ev as [k now d cfg|m| |direction]; simpl; intros H;
    [discriminate| |reflexivity|].
  - unfold deliver. destruct (currentPort p); [|reflexivity].
    destruct m as [text|text|err|]; simpl; try reflexivity.
    destruct (ToString (or_else text (VStr []))); reflexivity.
  - unfold navigateHistory. destruct (responseHistory p); reflexivity.
Qed.

Lemma after_keeps_time (evs : list event) (p : panel) :
  forallb (fun ev => negb (is_send ev)) evs = true ->
  lastRequestTime (after p evs) = lastRequestTime p.
Proof.
  revert p. induction evs as [|ev evs IH]; intros p H; simpl; [reflexivity|].
  simpl in H. apply andb_true_iff in H as [Hev Hevs].
  rewrite (IH _ Hevs). apply step_keeps_time.
  destruct (is_send ev); [discriminate|reflexivity].
Qed.

(** C8, as stated, fails: the click at 5900 ms was itself turned away and
    left the timestamp at 5000, so the call at 6100 ms, 200 ms after it,
    passes the check, reads the settings and posts the request. *)
Lemma close_sends_second_accepted :
  (6100 - 5900 < RATE_LIMIT_MS)%Z
  /\ snd (send revise 5900 example_dom example_cfg
            (after initial [Send revise 5000 example_dom example_cfg;
                            Message (MsgDone (lit "Hi"))]))
     = [rate_limit_toast]
  /\ snd (send revise 6100 example_dom example_cfg after_two_clicks)
     = [StorageGet; Connect;
        PostStart (lit "openai") [] (buildPrompt revise (lit "Hello") [])
                  default_system_prompt].
Proof. split; [reflexivity|split; vm_compute; reflexivity]. Qed.

Lemma step_clock (p : panel) (ev : event) :
  lastRequestTime (fst (step p ev)) = clock (lastRequestTime p) ev.
Proof.
  destruct ev as [k now d cfg|m| |direction];
    try (apply step_keeps_time; reflexivity).
  cbn [step clock]. unfold send, send_begin.
  destruct (now - lastRequestTime p <? RATE_LIMIT_MS)%Z; [reflexivity|].
  destruct (is_empty (trim (input_value d))); [reflexivity|].
  unfold send_resume. simpl.
  destruct (validateProvider (provider_value d) cfg); reflexivity.
Qed.

Lemma after_clock (evs : list event) (p : panel) :
  lastRequestTime (after p evs) = last_accepted_send (lastRequestTime p) evs.
Proof.
  revert p. induction evs as [|ev evs IH]; intros p; [reflexivity|].
  unfold last_accepted_send. simpl. rewrite IH, step_clock. reflexivity.
Qed.

(** C8, amended.  A [send] that comes less than 1000 ms after the last
    [send] that passed the rate-limit check is turned away with the
    warning toast and does nothing else: the panel state is unchanged,
    the settings are not read, no prompt is built, no port is opened and
    nothing is posted.  The timestamp it is measured against is moved
    only by a [send] that passes the check, so a [send] that was itself
    turned away by the rate limit does not restart the window.  In
    particular the second of two calls less than 1000 ms apart is turned
    away when the first one passed the check, whatever other handlers
    ran in between. *)
Theorem send_within_window_is_rejected :
  forall p,
    (forall evs k now d cfg,
       (now - last_accepted_send (lastRequestTime p) evs < RATE_LIMIT_MS)%Z ->
       send_begin now d (after p evs) = (after p evs, [rate_limit_toast], None)
       /\ send k now d cfg (after p evs) = (after p evs, [rate_limit_toast]))
    /\ (forall k1 now1 d1 cfg1 between k2 now2 d2 cfg2,
          (RATE_LIMIT_MS <= now1 - lastRequestTime p)%Z ->
          forallb (fun ev => negb (is_send ev)) between = true ->
          (now2 - now1 < RATE_LIMIT_MS)%Z ->
          send_begin now2 d2 (after (fst (send k1 now1 d1 cfg1 p)) between)
          = (after (fst (send k1 now1 d1 cfg1 p)) between, [rate_limit_toast], None)
          /\ send k2 now2 d2 cfg2 (after (fst (send k1 now1 d1 cfg1 p)) between)
             = (after (fst (send k1 now1 d1 cfg1 p)) between, [rate_limit_toast])).
Proof.
  intros p. split.
  - intros evs k now d cfg Hclose. rewrite <- after_clock in Hclose.
    split; [apply send_begin_rejects|apply send_rejects]; exact Hclose.
  - intros k1 now1 d1 cfg1 between k2 now2 d2 cfg2 Hpass Hbetween Hclose.
    assert (Ht : lastRequestTime (after (fst (send k1 now1 d1 cfg1 p)) between)
                 = now1).
    { rewrite after_keeps_time by exact Hbetween.
      apply send_passing_sets_time. exact Hpass. }
    split; [apply send_begin_rejects|apply send_rejects]; rewrite Ht; exact Hclose.
Qed.

Lemma send_within_window_is_rejected_witness :
  (RATE_LIMIT_MS <= 5000 - lastRequestTime initial)%Z
  /\ (5900 - 5000 < RATE_LIMIT_MS)%Z
  /\ send revise 5900 example_dom example_cfg
       (after (fst (send revise 5000 example_dom example_cfg initial))
              [Message (MsgDone (lit "Hi"))])
     = (after (fst (send revise 5000 example_dom example_cfg initial))
              [Message (MsgDone (lit "Hi"))],
        [rate_limit_toast]).
Proof.
  split; [vm_compute; discriminate|].
  split; [reflexivity|].
  apply (proj2 (send_within_window_is_rejected initial)
               revise 5000%Z example_dom example_cfg
               [Message (MsgDone (lit "Hi"))] revise 5900%Z example_dom example_cfg).
  - vm_compute. discriminate.
  - reflexivity.
  - reflexivity.
Defined.

(** C9.  A [send] that passes the rate-limit check and is then turned
    away for empty input or for an unconfigured provider has already set
    the timestamp to its call time: it opens no port and posts nothing,
    and a [send] less than 1000 ms after it is turned away by the rate
    limit. *)
Theorem rejected_send_consumes_window :
  forall p k now d cfg,
    (RATE_LIMIT_MS <= now - lastRequestTime p)%Z ->
    rejected_after_check d cfg ->
    lastRequestTime (fst (send k now d cfg p)) = now
    /\ ~ In Connect (snd (send k now d cfg p))
    /\ (forall provider model prompt systemPrompt,
          ~ In (PostStart provider model prompt systemPrompt)
               (snd (send k now d cfg p)))
    /\ isStreaming (fst (send k now d cfg p)) = isStreaming p
    /\ (forall k2 now2 d2 cfg2,
          (now2 - now < RATE_LIMIT_MS)%Z ->
          send k2 now2 d2 cfg2 (fst (send k now d cfg p))
          = (fst (send k now d cfg p), [rate_limit_toast])).
Proof.
  intros p k now d cfg Hpass Hrej.
  assert (Ht : lastRequestTime (fst (send k now d cfg p)) = now)
    by (apply send_passing_sets_time; exact Hpass).
  split; [exact Ht|].
  assert (Hshape :
            (snd (send k now d cfg p)
             = [Toast (lit "Please enter some text first") warning; FocusInput]
             \/ snd (send k now d cfg p)
                = [StorageGet;
                   Toast (getValidationError (provider_value d)) error;
                   OpenSettings])
            /\ isStreaming (fst (send k now d cfg p)) = isStreaming p).
  { unfold send, send_begin.
    destruct (Z.ltb_spec (now - lastRequestTime p) RATE_LIMIT_MS); [lia|].
    destruct (is_empty (trim (input_value d))) eqn:Hempty.
    - split; [left|]; reflexivity.
    - destruct Hrej as [Hrej|Hrej]; [congruence|].
      unfold send_resume. simpl. rewrite Hrej. simpl.
      split; [right|]; reflexivity. }
  destruct Hshape as [Hshape Hstream].
  split; [|split; [|split; [exact Hstream|]]].
  - destruct Hshape as [E|E]; rewrite E; simpl; intros H;
      repeat (destruct H as [H|H]; [discriminate|]); exact H.
  - intros provider model prompt systemPrompt.
    destruct Hshape as [E|E]; rewrite E; simpl; intros H;
      repeat (destruct H as [H|H]; [discriminate|]); exact H.
  - intros k2 now2 d2 cfg2 Hclose. apply send_rejects. rewrite Ht. exact Hclose.
Qed.

Lemma rejected_send_consumes_window_witness :
  (RATE_LIMIT_MS <= 5000 - lastRequestTime initial)%Z
  /\ rejected_after_check example_dom empty_cfg
  /\ lastRequestTime (fst (send revise 5000 example_dom empty_cfg initial)) = 5000%Z
  /\ send revise 5999 example_dom example_cfg
       (fst (send revise 5000 example_dom empty_cfg initial))
     = (fst (send revise 5000 example_dom empty_cfg initial), [rate_limit_toast]).
Proof.
  assert (Hpass : (RATE_LIMIT_MS <= 5000 - lastRequestTime initial)%Z)
    by (vm_compute; discriminate).
  assert (Hrej : rejected_after_check example_dom empty_cfg)
    by (right; reflexivity).
  split; [exact Hpass|]. split; [exact Hrej|].
  split.
  - apply (rejected_send_consumes_window initial revise 5000 example_dom empty_cfg
             Hpass Hrej).
  - apply (rejected_send_consumes_window initial revise 5000 example_dom empty_cfg
             Hpass Hrej).
    reflexivity.
Defined.

(* ================================================================== *)
(** ** Requests: validation before [fetch] *)
(* ================================================================== *)

Section ProviderFacts.

Variable JSON_parse : str -> option value.
Variable encodeURIComponent : str -> result str.
Variable fetch : request -> result response.

Lemma callAI_throws_before_fetch provider model prompt systemPrompt cfg e :
  callAI_request encodeURIComponent provider model prompt systemPrompt cfg = Throw e ->
  callAI JSON_parse encodeURIComponent fetch provider model prompt systemPrompt cfg
  = mkCallRun (Throw e) [].
Proof. intros H. unfold callAI. rewrite H. reflexivity. Qed.

Lemma streamAI_throws_before_fetch provider model prompt systemPrompt cfg onDelta e :
  streamAI_request encodeURIComponent provider model prompt systemPrompt cfg = Throw e ->
  streamAI JSON_parse encodeURIComponent fetch provider model prompt systemPrompt cfg
           onDelta
  = mkStreamRun (Throw e) [] [].
Proof. intros H. unfold streamAI. rewrite H. reflexivity. Qed.

Lemma callAI_fetches provider model prompt systemPrompt cfg req :
  callAI_request encodeURIComponent provider model prompt systemPrompt cfg = Ok req ->
  call_fetched
    (callAI JSON_parse encodeURIComponent fetch provider model prompt systemPrompt cfg)
  = [req].
Proof. intros H. unfold callAI. rewrite H. reflexivity. Qed.

Lemma streamAI_fetches provider model prompt systemPrompt cfg onDelta req :
  streamAI_request encodeURIComponent provider model prompt systemPrompt cfg = Ok req ->
  fetched
    (streamAI JSON_parse encodeURIComponent fetch provider model prompt systemPrompt cfg
              onDelta)
  = [req].
Proof.
  intros H. unfold streamAI. rewrite H.
  destruct (fetch req) as [resp|e]; [|reflexivity].
  destruct (negb (ok resp)); [reflexivity|].
  destruct (reader resp) as [[chunks fin]|]; reflexivity.
Qed.

Lemma azure_incomplete_or_insecure (cfg : config) :
  azure_misconfigured cfg ->
  is_empty (trim (or_empty (azure_endpoint cfg)))
  || is_empty (or_empty (azure_api_key cfg))
  || is_empty (trim (or_empty (azure_deployment cfg))) = true
  \/ (is_empty (trim (or_empty (azure_endpoint cfg)))
      || is_empty (or_empty (azure_api_key cfg))
      || is_empty (trim (or_empty (azure_deployment cfg))) = false
      /\ negb (startsWith (trim (or_empty (azure_endpoint cfg))) (lit "https://"))
         = true).
Proof.
  intros H.
  destruct (is_empty (trim (or_empty (azure_endpoint cfg)))
            || is_empty (or_empty (azure_api_key cfg))
            || is_empty (trim (or_empty (azure_deployment cfg)))) eqn:E;
    [left; reflexivity|right; split; [reflexivity|]].
  apply orb_false_iff in E as [E E3]. apply orb_false_iff in E as [E1 E2].
  destruct H as [H|[H|[H|H]]].
  - rewrite H in E1. discriminate.
  - rewrite H in E2. discriminate.
  - rewrite H in E3. discriminate.
  - rewrite H. reflexivity.
Qed.

(** C4.  For provider [azure], when the endpoint, the key or the
    deployment is empty, or the endpoint does not start with [https://],
    [callAI] and [streamAI] both throw one of the Azure configuration
    errors and hand no request to [fetch]. *)
Theorem azure_misconfiguration_throws_before_fetch :
  forall model prompt systemPrompt cfg onDelta,
    azure_misconfigured cfg ->
    (exists message,
       callAI JSON_parse encodeURIComponent fetch (lit "azure") model prompt
              systemPrompt cfg
       = mkCallRun (Throw (Error message)) []
       /\ In message azure_config_errors)
    /\ (exists message,
          streamAI JSON_parse encodeURIComponent fetch (lit "azure") model prompt
                   systemPrompt cfg onDelta
          = mkStreamRun (Throw (Error message)) [] []
          /\ In message azure_config_errors).
Proof.
  intros model prompt systemPrompt cfg onDelta H.
  apply azure_incomplete_or_insecure in H.
  split.
  - destruct H as [H|[H1 H2]].
    + eexists. split.
      * apply callAI_throws_before_fetch. unfold callAI_request.
        rewrite str_eqb_refl. cbv zeta. rewrite H. reflexivity.
      * left. reflexivity.
    + eexists. split.
      * apply callAI_throws_before_fetch. unfold callAI_request.
        rewrite str_eqb_refl. cbv zeta. rewrite H1, H2. reflexivity.
      * right. left. reflexivity.
  - destruct H as [H|[H1 H2]].
    + eexists. split.
      * apply streamAI_throws_before_fetch. unfold streamAI_request.
        rewrite str_eqb_refl. cbv zeta. rewrite H. reflexivity.
      * right. right. left. reflexivity.
    + eexists. split.
      * apply streamAI_throws_before_fetch. unfold streamAI_request.
        rewrite str_eqb_refl. cbv zeta. rewrite H1, H2. reflexivity.
      * right. right. right. left. reflexivity.
Qed.

Lemma not_a_named_provider (provider : str) :
  provider <> lit "openai" -> provider <> lit "anthropic" ->
  provider <> lit "google" -> provider <> lit "azure" ->
  str_eqb provider (lit "azure") = false
  /\ str_eqb provider (lit "openai") = false
  /\ str_eqb provider (lit "anthropic") = false
  /\ str_eqb provider (lit "google") = false.
Proof. intros. repeat split; apply str_eqb_neq; assumption. Qed.

(** C10.  A provider string other than [openai], [anthropic], [google]
    and [azure] takes the DeepSeek branch of [callAI] and of [streamAI]:
    with an empty DeepSeek key both throw the DeepSeek configuration
    error before any request; otherwise each sends one request, to the
    DeepSeek chat-completions URL, with the key as Bearer authorization
    and with the given model or [deepseek-chat] when none is given. *)
Theorem other_providers_use_deepseek :
  forall provider model prompt systemPrompt cfg onDelta,
    provider <> lit "openai" -> provider <> lit "anthropic" ->
    provider <> lit "google" -> provider <> lit "azure" ->
    (or_empty (deepseek_key cfg) = [] ->
     callAI JSON_parse encodeURIComponent fetch provider model prompt systemPrompt cfg
     = mkCallRun (Throw (Error (lit "DeepSeek API key not set. Add it in Settings."))) []
     /\ streamAI JSON_parse encodeURIComponent fetch provider model prompt systemPrompt
                 cfg onDelta
        = mkStreamRun (Throw (Error (lit "DeepSeek API key not set."))) [] [])
    /\ (or_empty (deepseek_key cfg) <> [] ->
        exists creq sreq,
          call_fetched (callAI JSON_parse encodeURIComponent fetch provider model
                               prompt systemPrompt cfg) = [creq]
          /\ fetched (streamAI JSON_parse encodeURIComponent fetch provider model
                               prompt systemPrompt cfg onDelta) = [sreq]
          /\ url creq = lit "https://api.deepseek.com/chat/completions"
          /\ url sreq = lit "https://api.deepseek.com/chat/completions"
          /\ In (lit "Authorization", lit "Bearer " ++ or_empty (deepseek_key cfg))
                (headers creq)
          /\ In (lit "Authorization", lit "Bearer " ++ or_empty (deepseek_key cfg))
                (headers sreq)
          /\ opt_get (lit "model") (body creq)
             = VStr (or_default model (lit "deepseek-chat"))
          /\ opt_get (lit "model") (body sreq)
             = VStr (or_default model (lit "deepseek-chat"))
          /\ opt_get (lit "stream") (body creq) = VBool false
          /\ opt_get (lit "stream") (body sreq) = VBool true).
Proof.
  intros provider model prompt systemPrompt cfg onDelta H1 H2 H3 H4.
  destruct (not_a_named_provider provider H1 H2 H3 H4) as [Ea [Eo [En Eg]]].
  split.
  - intros Hkey. split.
    + apply callAI_throws_before_fetch. unfold callAI_request.
      rewrite Ea, Eo, En, Eg. cbv zeta. rewrite Hkey. reflexivity.
    + apply streamAI_throws_before_fetch. unfold streamAI_request.
      rewrite Ea, Eo, En, Eg. cbv zeta. rewrite Hkey. reflexivity.
  - intros Hkey.
    assert (Hne : is_empty (or_empty (deepseek_key cfg)) = false).
    { destruct (or_empty (deepseek_key cfg)); [contradiction|reflexivity]. }
    eexists. eexists.
    split; [|split].
    + apply callAI_fetches. unfold callAI_request.
      rewrite Ea, Eo, En, Eg. cbv zeta. rewrite Hne. reflexivity.
    + apply streamAI_fetches. unfold streamAI_request.
      rewrite Ea, Eo, En, Eg. cbv zeta. rewrite Hne. reflexivity.
    + repeat split; try reflexivity; simpl; right; left; reflexivity.
Qed.

(* ================================================================== *)
(** ** HTTP failures *)
(* ================================================================== *)

Lemma truncate_short (s : str) : length s <= 200 -> truncate s 200 = s.
Proof.
  intros H. unfold truncate. destruct s as [|c s]; [reflexivity|].
  cbn [is_empty].
  destruct (Nat.ltb_spec 200 (length (c :: s))); [lia|reflexivity].
Qed.

Lemma truncate_long (s : str) :
  200 < length s -> truncate s 200 = firstn 200 s ++ ellipsis.
Proof.
  intros H. unfold truncate. destruct s as [|c s]; [simpl in H; lia|].
  cbn [is_empty].
  destruct (Nat.ltb_spec 200 (length (c :: s))); [reflexivity|lia].
Qed.

Lemma http_error_message_detail (provider : str) (st : N) (errText : str) :
  http_error_message JSON_parse provider st errText
  = provider ++ lit " API error " ++ decimal st ++ lit ": "
    ++ error_detail JSON_parse errText.
Proof.
  unfold http_error_message, error_detail, parse. cbv zeta.
  destruct (JSON_parse errText) as [errData|];
    [|cbn [bind try_catch]; rewrite <- !app_assoc; reflexivity].
  assert (Hcase : errData = VUndefined \/ errData = VNull
                  \/ forall k, get k errData = Ok (opt_get k errData)).
  { destruct errData; auto. }
  destruct Hcase as [->|[->|Hget]];
    try (cbn [get bind try_catch opt_get first_truthy truthy];
         rewrite <- !app_assoc; reflexivity).
  cbn [bind]. rewrite Hget. cbn [bind]. unfold first_truthy.
  destruct (truthy (opt_get (lit "message") (opt_get (lit "error") errData))).
  - destruct (ToString (opt_get (lit "message") (opt_get (lit "error") errData)));
      cbn [bind try_catch]; rewrite <- !app_assoc; reflexivity.
  - rewrite Hget. cbn [bind].
    destruct (truthy (opt_get (lit "message") errData)).
    + destruct (ToString (opt_get (lit "message") errData));
        cbn [bind try_catch]; rewrite <- !app_assoc; reflexivity.
    + cbn [bind try_catch]. rewrite <- !app_assoc. reflexivity.
Qed.

(** C5, as stated, fails twice.  A body of 201 characters that is not
    JSON is not cut to 200 characters: the message carries 200 of them
    and an ellipsis.  And a nested [error.message] that is present but
    empty is passed over for the top-level [message]. *)
Lemma http_error_message_counterexample :
  JSON_parse_ref long_body = None
  /\ http_error_message JSON_parse_ref (lit "openai") 500 long_body
     <> lit "openai API error 500: " ++ firstn 200 long_body
  /\ http_error_message JSON_parse_ref (lit "openai") 500 long_body
     = lit "openai API error 500: " ++ firstn 200 long_body ++ ellipsis
  /\ JSON_parse_ref empty_nested_message_body
     = Some (VObj [(lit "error", VObj [(lit "message", VStr [])]);
                   (lit "message", VStr (lit "quota"))])
  /\ http_error_message JSON_parse_ref (lit "openai") 500 empty_nested_message_body
     = lit "openai API error 500: quota".
Proof.
  split; [vm_compute; reflexivity|].
  split; [vm_compute; discriminate|].
  split; [vm_compute; reflexivity|].
  split; vm_compute; reflexivity.
Qed.

(** C5, amended.  On a response that is not [ok], [callAI] and [streamAI]
    throw, after the one request, an error whose message is the
    provider, [ API error ], the status, a colon and a detail.  The
    detail is the text of the body's nested [error.message] when the
    body parses as JSON and that field is truthy, else the text of its
    top-level [message] when truthy, else the body itself when it has
    at most 200 characters and otherwise its first 200 characters
    followed by an ellipsis; the body is read as the empty string when it
    cannot be read.  For [openai], status 429 and the body
    [{"error":{"message":"rate limited"}}] the message is
    [openai API error 429: rate limited]. *)
Theorem http_failure_message :
  forall provider model prompt systemPrompt cfg onDelta,
    (forall req resp,
       callAI_request encodeURIComponent provider model prompt systemPrompt cfg
       = Ok req ->
       fetch req = Ok resp -> ok resp = false ->
       callAI JSON_parse encodeURIComponent fetch provider model prompt systemPrompt cfg
       = mkCallRun
           (Throw (Error (provider ++ lit " API error " ++ decimal (status resp)
                          ++ lit ": " ++ error_detail JSON_parse (safeText resp))))
           [req])
    /\ (forall req resp,
          streamAI_request encodeURIComponent provider model prompt systemPrompt cfg
          = Ok req ->
          fetch req = Ok resp -> ok resp = false ->
          streamAI JSON_parse encodeURIComponent fetch provider model prompt
                   systemPrompt cfg onDelta
          = mkStreamRun
              (Throw (Error (provider ++ lit " API error " ++ decimal (status resp)
                             ++ lit ": " ++ error_detail JSON_parse (safeText resp))))
              [req] [])
    /\ (forall body, length body <= 200 -> truncate body 200 = body)
    /\ (forall body, 200 < length body ->
                     truncate body 200 = firstn 200 body ++ ellipsis)
    /\ (JSON_parse rate_limited_body = JSON_parse_ref rate_limited_body ->
        error_detail JSON_parse rate_limited_body = lit "rate limited"
        /\ http_error_message JSON_parse (lit "openai") 429 rate_limited_body
           = lit "openai API error 429: rate limited").
Proof.
  intros provider model prompt systemPrompt cfg onDelta.
  split; [|split; [|split; [|split]]].
  - intros req resp Hreq Hfetch Hok. unfold callAI. rewrite Hreq, Hfetch.
    cbn [bind]. rewrite Hok. cbn [negb].
    rewrite http_error_message_detail. reflexivity.
  - intros req resp Hreq Hfetch Hok. unfold streamAI. rewrite Hreq, Hfetch, Hok.
    cbn [negb]. rewrite http_error_message_detail. reflexivity.
  - apply truncate_short.
  - apply truncate_long.
  - intros Hparse.
    assert (Hdetail : error_detail JSON_parse rate_limited_body = lit "rate limited").
    { unfold error_detail. rewrite Hparse. vm_compute. reflexivity. }
    split; [exact Hdetail|].
    rewrite http_error_message_detail, Hdetail. vm_compute. reflexivity.
Qed.

(* ================================================================== *)
(** ** The Gemini extractions *)
(* ================================================================== *)

Lemma element_texts_length (items : list value) (pieces : list str) :
  element_texts items = Ok pieces -> length pieces = length items.
Proof.
  revert pieces. induction items as [|x items IH]; intros pieces H; simpl in H.
  - injection H as <-. reflexivity.
  - destruct (element_text x) as [s|e]; [|discriminate]. cbn [bind] in H.
    destruct (element_texts items) as [ss|e]; [|discriminate]. cbn [bind] in H.
    injection H as <-. simpl. rewrite (IH ss); reflexivity.
Qed.

Lemma join_length (sep : str) (pieces : list str) :
  length (join sep pieces)
  = list_sum (map (@length code_unit) pieces) + length sep * (length pieces - 1).
Proof.
  induction pieces as [|p rest IH]; [simpl; lia|].
  destruct rest as [|q rest].
  - simpl. lia.
  - change (join sep (p :: q :: rest)) with (p ++ sep ++ join sep (q :: rest)).
    rewrite !length_app, IH. simpl. nia.
Qed.

Lemma array_join_throws (sep sep' : str) (items : list value) (e : exn) :
  array_join sep items = Throw e -> array_join sep' items = Throw e.
Proof.
  unfold array_join. destruct (element_texts items); cbn [bind]; congruence.
Qed.

(** C3, as stated, fails: for an event with the two parts ["a"] and
    ["b"] the streaming extraction gives ["ab"] and the non-streaming
    one gives ["a"], a line feed, ["b"]. *)
Lemma google_extractions_disagree :
  google_stream_text two_part_event = Ok (lit "ab")
  /\ google_call_text two_part_event = Ok (lit "a" ++ [LF] ++ lit "b")
  /\ google_stream_text two_part_event <> google_call_text two_part_event.
Proof.
  split; [vm_compute; reflexivity|].
  split; [vm_compute; reflexivity|].
  vm_compute. discriminate.
Qed.

(** C3, amended.  For provider google the streaming and the
    non-streaming extraction select the same fragments, the truthy
    [text]s of [candidates[0].content.parts] in order, and throw on the
    same inputs; the streaming one joins the fragments with nothing
    between them and the non-streaming one with a line feed.  They give
    the same text when there is at most one fragment, and different
    texts when there are two or more. *)
Theorem google_extractions_join_same_fragments :
  forall data,
    google_stream_text data = (texts <- google_part_texts data ;; array_join [] texts)
    /\ google_call_text data
       = (texts <- google_part_texts data ;; array_join [LF] texts)
    /\ (forall e, google_stream_text data = Throw e <-> google_call_text data = Throw e)
    /\ (forall texts,
          google_part_texts data = Ok texts -> length texts <= 1 ->
          google_stream_text data = google_call_text data)
    /\ (forall texts s,
          google_part_texts data = Ok texts -> 2 <= length texts ->
          google_stream_text data = Ok s -> google_call_text data <> Ok s).
Proof.
  intros data.
  assert (Hs : google_stream_text data
               = (texts <- google_part_texts data ;; array_join [] texts))
    by reflexivity.
  assert (Hc : google_call_text data
               = (texts <- google_part_texts data ;; array_join [LF] texts))
    by reflexivity.
  split; [exact Hs|]. split; [exact Hc|].
  rewrite Hs, Hc. clear Hs Hc.
  destruct (google_part_texts data) as [texts|e0]; cbn [bind].
  - split; [|split].
    + intros e. split; apply array_join_throws.
    + intros texts' H Hlen. injection H as <-.
      destruct texts as [|x [|y texts]]; [reflexivity| |simpl in Hlen; lia].
      unfold array_join. simpl. destruct (element_text x); reflexivity.
    + intros texts' s H Hlen Hstream Hcall. injection H as <-.
      unfold array_join in Hstream, Hcall.
      destruct (element_texts texts) as [pieces|e] eqn:Hp; [|discriminate].
      cbn [bind] in Hstream, Hcall.
      apply element_texts_length in Hp.
      assert (Hl : length (join [LF] pieces) = length (join [] pieces)) by congruence.
      rewrite !join_length in Hl. simpl in Hl. lia.
  - split; [|split].
    + intros e. split; intros H; exact H.
    + intros texts H. discriminate.
    + intros texts s H. discriminate.
Qed.

(* ================================================================== *)
(** ** Lines of a streamed body *)
(* ================================================================== *)

Lemma split_lines_nonempty (s : str) : split_lines s <> [].
Proof.
  destruct s as [|c rest]; simpl; [discriminate|].
  destruct (N.eqb c LF); [discriminate|].
  destruct rest as [|d rest'].
  - simpl. discriminate.
  - destruct (N.eqb c CR && N.eqb d LF); [discriminate|].
    destruct (split_lines (d :: rest')); discriminate.
Qed.

Lemma removelast_cons {A : Type} (x : A) (l : list A) :
  l <> [] -> removelast (x :: l) = x :: removelast l.
Proof. destruct l; [contradiction|reflexivity]. Qed.

Lemma last_cons {A : Type} (x d : A) (l : list A) :
  l <> [] -> last (x :: l) d = last l d.
Proof. destruct l; [contradiction|reflexivity]. Qed.

(** A character that neither is nor starts a line break goes to the
    front of the first piece. *)
Lemma split_lines_plain (c : code_unit) (s : str) :
  N.eqb c LF = false ->
  N.eqb c CR && match s with d :: _ => N.eqb d LF | [] => false end = false ->
  split_lines (c :: s) = cons_first c (split_lines s).
Proof.
  intros Hlf Hcr. cbn [split_lines]. rewrite Hlf.
  destruct s as [|d s']; [reflexivity|]. rewrite Hcr. reflexivity.
Qed.

(** A first piece that is the only piece starts with the first character. *)
Lemma split_lines_single_head (d : code_unit) (s x : str) :
  split_lines (d :: s) = [x] -> exists x', x = d :: x'.
Proof.
  cbn [split_lines]. destruct (N.eqb d LF).
  - intros H. injection H as _ H. destruct (split_lines_nonempty _ H).
  - destruct s as [|e s'].
    + intros H. injection H as <-. eexists. reflexivity.
    + destruct (N.eqb d CR && N.eqb e LF).
      * intros H. injection H as _ H. destruct (split_lines_nonempty _ H).
      * destruct (split_lines (e :: s')) as [|l ls]; intros H;
          injection H as <-; eexists; reflexivity.
Qed.

Lemma split_lines_app_aux (n : nat) :
  forall a b : str,
    length a <= n ->
    split_lines (a ++ b)
    = removelast (split_lines a) ++ split_lines (last (split_lines a) [] ++ b).
Proof.
  induction n as [|n IH]; intros a b Hlen.
  - destruct a; [reflexivity|simpl in Hlen; lia].
  - destruct a as [|c rest]; [reflexivity|].
    simpl in Hlen.
    destruct (N.eqb c LF) eqn:Hlf.
    + cbn [split_lines app]. rewrite Hlf.
      rewrite removelast_cons, last_cons by apply split_lines_nonempty.
      rewrite (IH rest b) by lia. reflexivity.
    + destruct rest as [|d rest'].
      * assert (E : split_lines [c] = [[c]])
          by (cbn [split_lines]; rewrite Hlf; reflexivity).
        rewrite E. reflexivity.
      * destruct (N.eqb c CR && N.eqb d LF) eqn:Hcr.
        -- cbn [split_lines app]. rewrite Hlf, Hcr.
           rewrite removelast_cons, last_cons by apply split_lines_nonempty.
           simpl in Hlen. rewrite (IH rest' b) by lia. reflexivity.
        -- change ((c :: d :: rest') ++ b) with (c :: ((d :: rest') ++ b)).
           rewrite (split_lines_plain c ((d :: rest') ++ b)) by assumption.
           rewrite (split_lines_plain c (d :: rest')) by assumption.
           rewrite (IH (d :: rest') b) by lia.
           destruct (split_lines (d :: rest')) as [|x [|y ys]] eqn:Hx.
           ++ destruct (split_lines_nonempty _ Hx).
           ++ destruct (split_lines_single_head _ _ _ Hx) as [x' ->].
              cbn [removelast last cons_first app].
              rewrite (split_lines_plain c (d :: x' ++ b)) by assumption.
              reflexivity.
           ++ reflexivity.
Qed.

(** Splitting a text at line breaks can be done piecewise: split the
    first part, keep its last piece, and go on with that piece in front
    of the rest. *)
Lemma split_lines_app (a b : str) :
  split_lines (a ++ b)
  = removelast (split_lines a) ++ split_lines (last (split_lines a) [] ++ b).
Proof. apply (split_lines_app_aux (length a)). lia. Qed.

Lemma split_lines_no_LF (s : str) : ~ In LF s -> split_lines s = [s].
Proof.
  induction s as [|c rest IH]; intros H; [reflexivity|].
  assert (Hc : N.eqb c LF = false).
  { apply N.eqb_neq. intros ->. apply H. left. reflexivity. }
  assert (Hrest : ~ In LF rest) by (intros Hin; apply H; right; exact Hin).
  rewrite split_lines_plain; [rewrite (IH Hrest); reflexivity|exact Hc|].
  destruct rest as [|d rest']; [apply andb_false_r|].
  assert (Hd : N.eqb d LF = false).
  { apply N.eqb_neq. intros ->. apply Hrest. left. reflexivity. }
  rewrite Hd. apply andb_false_r.
Qed.

Lemma split_lines_pieces_no_LF (s : str) :
  Forall (fun piece => ~ In LF piece) (split_lines s).
Proof.
  assert (Hgen : forall n (s : str), length s <= n ->
                   Forall (fun piece => ~ In LF piece) (split_lines s)).
  { clear s. induction n as [|n IH]; intros s Hlen.
    - destruct s; [|simpl in Hlen; lia]. constructor; [intros []|constructor].
    - destruct s as [|c rest]; [constructor; [intros []|constructor]|].
      simpl in Hlen. cbn [split_lines].
      assert (Hplain : N.eqb c LF = false ->
                Forall (fun piece => ~ In LF piece) (cons_first c (split_lines rest))).
      { intros Hlf. specialize (IH rest ltac:(lia)).
        destruct (split_lines rest) as [|x xs]; cbn [cons_first].
        - constructor; [|constructor]. intros [E|[]].
          rewrite E, N.eqb_refl in Hlf. discriminate.
        - inversion IH as [|? ? Hx Hxs]; subst. constructor; [|exact Hxs].
          intros [E|Hin]; [|exact (Hx Hin)].
          rewrite E, N.eqb_refl in Hlf. discriminate. }
      destruct (N.eqb c LF) eqn:Hlf.
      + constructor; [intros []|]. apply IH. lia.
      + destruct rest as [|d rest'].
        * apply Hplain. reflexivity.
        * destruct (N.eqb c CR && N.eqb d LF).
          -- constructor; [intros []|]. apply IH. simpl in Hlen. lia.
          -- apply Hplain. reflexivity. }
  apply (Hgen (length s)). lia.
Qed.

Lemma last_no_LF (s : str) : ~ In LF (last (split_lines s) []).
Proof.
  pose proof (split_lines_pieces_no_LF s) as H.
  pose proof (split_lines_nonempty s) as Hne.
  rewrite (app_removelast_last [] Hne) in H.
  apply Forall_app in H as [_ H]. inversion H; subst. assumption.
Qed.

(* ================================================================== *)
(** ** The read loop of [streamAI] *)
(* ================================================================== *)

Lemma process_lines_app provider onDelta (l1 l2 : list str) (st : sse) :
  process_lines JSON_parse provider onDelta (l1 ++ l2) st
  = process_lines JSON_parse provider onDelta l2
      (process_lines JSON_parse provider onDelta l1 st).
Proof. unfold process_lines. apply fold_left_app. Qed.

(** The loop processes, in order, the complete lines of the body read so
    far; the text after the last line break waits in the buffer. *)
Lemma read_loop_lines provider onDelta (chunks : list str) :
  forall (buffer : str) (st : sse),
    ~ In LF buffer ->
    read_loop JSON_parse provider onDelta chunks buffer st
    = process_lines JSON_parse provider onDelta
        (removelast (split_lines (buffer ++ concat chunks))) st.
Proof.
  induction chunks as [|chunk more IH]; intros buffer st Hbuf.
  - cbn [read_loop concat]. rewrite app_nil_r, split_lines_no_LF by exact Hbuf.
    reflexivity.
  - cbn [read_loop concat]. rewrite IH by apply last_no_LF.
    rewrite (app_assoc buffer chunk (concat more)).
    rewrite (split_lines_app (buffer ++ chunk) (concat more)).
    rewrite removelast_app by apply split_lines_nonempty.
    rewrite process_lines_app. reflexivity.
Qed.

Lemma process_line_skipped provider onDelta (st : sse) (line : str) :
  skipped_record JSON_parse line ->
  process_line JSON_parse provider onDelta st line = st.
Proof.
  unfold skipped_record, payload, process_line. cbv zeta.
  intros [H|[H|[H|H]]].
  - rewrite H. reflexivity.
  - rewrite H. rewrite orb_true_r. reflexivity.
  - destruct (is_empty (trim line) || negb (startsWith (trim line) (lit "data:")));
      [reflexivity|].
    rewrite H, str_eqb_refl. reflexivity.
  - destruct (is_empty (trim line) || negb (startsWith (trim line) (lit "data:")));
      [reflexivity|].
    destruct (str_eqb (trim (slice_from 5 (trim line))) (lit "[DONE]"));
      [reflexivity|].
    unfold parse. rewrite H. reflexivity.
Qed.

Lemma process_line_event provider onDelta (st : sse) (line : str) (evt : value) :
  event_record JSON_parse line evt ->
  process_line JSON_parse provider onDelta st line
  = try_catch (handle_event provider onDelta evt st) st.
Proof.
  unfold event_record, payload, process_line. cbv zeta.
  intros [Hne [Hdata [Hdone Hparse]]].
  assert (E1 : is_empty (trim line) = false)
    by (destruct (trim line); [contradiction|reflexivity]).
  rewrite E1, Hdata. cbn [negb orb].
  rewrite (str_eqb_neq _ _ Hdone). unfold parse. rewrite Hparse. reflexivity.
Qed.

(** C2.  A record that is blank, is not a [data:] line, is the [[DONE]]
    sentinel or has a payload that is not JSON changes neither the
    accumulated text nor the fragments delivered, and processing goes
    on as if the record were not there: the lines before and after it
    give the same result with or without it, and a following record
    that carries an event is handled as usual.  No record makes
    [streamAI] throw: when all reads succeed it returns the text
    accumulated over the complete lines of the body. *)
Theorem skipped_records_do_not_disturb_the_stream :
  forall provider onDelta bad,
    skipped_record JSON_parse bad ->
    (forall st, process_line JSON_parse provider onDelta st bad = st)
    /\ (forall before after st,
          process_lines JSON_parse provider onDelta (before ++ bad :: after) st
          = process_lines JSON_parse provider onDelta (before ++ after) st)
    /\ (forall good evt st st',
          event_record JSON_parse good evt ->
          handle_event provider onDelta evt st = Ok st' ->
          process_lines JSON_parse provider onDelta [bad; good] st = st')
    /\ (forall model prompt systemPrompt cfg req resp chunks,
          streamAI_request encodeURIComponent provider model prompt systemPrompt cfg
          = Ok req ->
          fetch req = Ok resp -> ok resp = true ->
          reader resp = Some (chunks, StreamDone) ->
          outcome (streamAI JSON_parse encodeURIComponent fetch provider model prompt
                            systemPrompt cfg onDelta)
          = Ok (full (process_lines JSON_parse provider onDelta
                        (removelast (split_lines (concat chunks)))
                        (mkSse [] [])))).
Proof.
  intros provider onDelta bad Hbad.
  split; [|split; [|split]].
  - intros st. apply process_line_skipped. exact Hbad.
  - intros before after st.
    rewrite !process_lines_app. unfold process_lines at 1. cbn [fold_left].
    rewrite process_line_skipped by exact Hbad. reflexivity.
  - intros good evt st st' Hgood Hevt.
    unfold process_lines. cbn [fold_left].
    rewrite (process_line_skipped provider onDelta st bad Hbad).
    rewrite (process_line_event provider onDelta st good evt Hgood), Hevt. reflexivity.
  - intros model prompt systemPrompt cfg req resp chunks Hreq Hfetch Hok Hreader.
    unfold streamAI. rewrite Hreq, Hfetch, Hok, Hreader. cbn [negb outcome].
    rewrite read_loop_lines by (intros []). reflexivity.
Qed.

Lemma concat_texts_snoc (l : list value) (t : value) (a s : str) :
  concat_texts l = Ok a -> ToString t = Ok s ->
  concat_texts (l ++ [t]) = Ok (a ++ s).
Proof.
  revert a. induction l as [|x l IH]; intros a Hl Ht.
  - simpl in Hl. injection Hl as <-. cbn [app concat_texts]. rewrite Ht.
    cbn [bind]. rewrite app_nil_r. reflexivity.
  - cbn [app concat_texts] in *.
    destruct (ToString x) as [sx|e]; [|discriminate]. cbn [bind] in *.
    destruct (concat_texts l) as [more|e]; [|discriminate]. cbn [bind] in Hl.
    injection Hl as <-. rewrite (IH more eq_refl Ht). cbn [bind].
    rewrite app_assoc. reflexivity.
Qed.

Lemma emit_accumulated (t : value) (st st' : sse) :
  truthy t = true -> accumulated st -> emit true t st = Ok st' -> accumulated st'.
Proof.
  intros Ht [Hfull Hall] H. unfold emit in H.
  destruct (ToString t) as [s|e] eqn:Es; [|discriminate]. cbn [bind] in H.
  injection H as <-. split; cbn [full emitted].
  - apply concat_texts_snoc; assumption.
  - apply Forall_app. split; [exact Hall|]. constructor; [exact Ht|constructor].
Qed.

Lemma handle_event_accumulated provider (evt : value) (st st' : sse) :
  accumulated st -> handle_event provider true evt st = Ok st' -> accumulated st'.
Proof.
  intros Hst H. unfold handle_event in H.
  destruct (str_eqb provider (lit "anthropic")).
  - destruct (truthy (anthropic_delta evt)) eqn:Ht.
    + eapply emit_accumulated; eassumption.
    + injection H as <-. exact Hst.
  - destruct (str_eqb provider (lit "google")).
    + destruct (google_stream_text evt) as [text|e]; [|discriminate].
      cbn [bind] in H. destruct (truthy (VStr text)) eqn:Ht.
      * eapply emit_accumulated; eassumption.
      * injection H as <-. exact Hst.
    + destruct (truthy (openai_delta evt)) eqn:Ht.
      * eapply emit_accumulated; eassumption.
      * injection H as <-. exact Hst.
Qed.

Lemma process_line_accumulated provider (st : sse) (line : str) :
  accumulated st -> accumulated (process_line JSON_parse provider true st line).
Proof.
  intros Hst. unfold process_line. cbv zeta.
  destruct (is_empty (trim line) || negb (startsWith (trim line) (lit "data:")));
    [exact Hst|].
  destruct (str_eqb (trim (slice_from 5 (trim line))) (lit "[DONE]")); [exact Hst|].
  unfold parse. destruct (JSON_parse (trim (slice_from 5 (trim line)))) as [evt|];
    [|exact Hst].
  cbn [bind].
  destruct (handle_event provider true evt st) as [st'|e] eqn:H; [|exact Hst].
  cbn [try_catch]. eapply handle_event_accumulated; eassumption.
Qed.

Lemma process_lines_accumulated provider (lines : list str) (st : sse) :
  accumulated st -> accumulated (process_lines JSON_parse provider true lines st).
Proof.
  revert st. induction lines as [|line lines IH]; intros st Hst; [exact Hst|].
  unfold process_lines. cbn [fold_left]. apply IH.
  apply process_line_accumulated. exact Hst.
Qed.

Lemma read_loop_accumulated provider (chunks : list str) (buffer : str) (st : sse) :
  accumulated st -> accumulated (read_loop JSON_parse provider true chunks buffer st).
Proof.
  revert buffer st. induction chunks as [|chunk more IH]; intros buffer st Hst;
    [exact Hst|].
  cbn [read_loop]. apply IH. apply process_lines_accumulated. exact Hst.
Qed.

(** For google every fragment is a string with at least one character. *)
Lemma google_fragments_are_strings (lines : list str) (st : sse) :
  Forall nonempty_string (emitted st) ->
  Forall nonempty_string
    (emitted (process_lines JSON_parse (lit "google") true lines st)).
Proof.
  revert st. induction lines as [|line lines IH]; intros st Hst; [exact Hst|].
  unfold process_lines. cbn [fold_left]. apply IH. clear IH.
  unfold process_line. cbv zeta.
  destruct (is_empty (trim line) || negb (startsWith (trim line) (lit "data:")));
    [exact Hst|].
  destruct (str_eqb (trim (slice_from 5 (trim line))) (lit "[DONE]")); [exact Hst|].
  unfold parse. destruct (JSON_parse (trim (slice_from 5 (trim line)))) as [evt|];
    [|exact Hst].
  cbn [bind]. unfold handle_event.
  change (str_eqb (lit "google") (lit "anthropic")) with false.
  change (str_eqb (lit "google") (lit "google")) with true. cbv iota.
  destruct (google_stream_text evt) as [text|e]; [|exact Hst].
  cbn [bind]. destruct text as [|c text]; [exact Hst|].
  cbn [truthy is_empty negb emit ToString bind try_catch emitted].
  apply Forall_app. split; [exact Hst|].
  constructor; [|constructor]. exists c, text. reflexivity.
Qed.

(** C1, amended.  Whenever [streamAI], called with a callback, returns a
    string, that string is the concatenation, in call order, of the
    texts of the fragments passed to [onDelta].  When the response body
    is read through a reader every fragment passed is truthy, so a
    fragment that is a string is never empty, and for google every
    fragment is a non-empty string.  When the response has no reader,
    [onDelta] is called exactly once, with the whole response text, which
    is also the returned string and may be empty. *)
Theorem streamAI_returns_concatenation_of_deltas :
  forall provider model prompt systemPrompt cfg s,
    outcome (streamAI JSON_parse encodeURIComponent fetch provider model prompt
                      systemPrompt cfg true) = Ok s ->
    concat_texts (deltas (streamAI JSON_parse encodeURIComponent fetch provider model
                                   prompt systemPrompt cfg true)) = Ok s
    /\ exists req resp,
         fetched (streamAI JSON_parse encodeURIComponent fetch provider model prompt
                           systemPrompt cfg true) = [req]
         /\ fetch req = Ok resp
         /\ match reader resp with
            | Some _ =>
              Forall (fun t => truthy t = true)
                     (deltas (streamAI JSON_parse encodeURIComponent fetch provider
                                       model prompt systemPrompt cfg true))
              /\ (provider = lit "google" ->
                  Forall nonempty_string
                         (deltas (streamAI JSON_parse encodeURIComponent fetch provider
                                           model prompt systemPrompt cfg true)))
            | None =>
              deltas (streamAI JSON_parse encodeURIComponent fetch provider model prompt
                               systemPrompt cfg true) = [VStr s]
              /\ s = safeText resp
            end.
Proof.
  intros provider model prompt systemPrompt cfg s.
  unfold streamAI.
  destruct (streamAI_request encodeURIComponent provider model prompt systemPrompt cfg)
    as [req|e]; [|discriminate].
  destruct (fetch req) as [resp|e] eqn:Hfetch; [|discriminate].
  destruct (negb (ok resp)); [discriminate|].
  destruct (reader resp) as [[chunks fin]|] eqn:Hreader.
  - destruct fin as [|reason]; [|discriminate].
    cbn [outcome deltas fetched]. intros H. injection H as <-.
    assert (Hacc : accumulated
                     (read_loop JSON_parse provider true chunks [] (mkSse [] []))).
    { apply read_loop_accumulated. split; [reflexivity|constructor]. }
    destruct Hacc as [Hconcat Htruthy].
    split; [exact Hconcat|].
    exists req, resp. split; [reflexivity|]. split; [exact Hfetch|].
    rewrite Hreader. split; [exact Htruthy|].
    intros ->. rewrite read_loop_lines by (intros []).
    apply google_fragments_are_strings. constructor.
  - cbn [outcome deltas fetched]. intros H. injection H as <-.
    split; [cbn [concat_texts ToString bind]; rewrite app_nil_r; reflexivity|].
    exists req, resp. split; [reflexivity|]. split; [exact Hfetch|].
    rewrite Hreader. split; reflexivity.
Qed.

End ProviderFacts.

(* ================================================================== *)
(** ** Closed examples *)
(* ================================================================== *)

(** The example body, streamed to an OpenAI request: the record that is
    not JSON and the sentinel are passed over, the two events arrive. *)
Lemma streamAI_example :
  streamAI JSON_parse_ref encodeURIComponent_ref (respond streamed_response)
           (lit "openai") None (lit "Hi") None example_cfg true
  = {| outcome := Ok (lit "Hello");
       fetched :=
         [{| url := lit "https://api.openai.com/v1/chat/completions";
             headers := [json_content_type;
                         (lit "Authorization", lit "Bearer sk-test")];
             body := VObj [(lit "model", VStr (lit "gpt-4o-mini"));
                           (lit "messages",
                            VArr [chat_message "system" default_system_prompt;
                                  chat_message "user" (lit "Hi")]);
                           (lit "temperature", num "0.7");
                           (lit "stream", VBool true)] |}];
       deltas := [VStr (lit "Hel"); VStr (lit "lo")] |}.
Proof. vm_compute. reflexivity. Qed.

(** C1, as stated, fails.  On a 204 response, which has no body to
    read, [streamAI] returns the empty string after calling [onDelta]
    once with the empty string.  And while reading a body, an event
    whose content is an empty array makes it call [onDelta] with that
    array, whose text is empty. *)
Lemma streamAI_passes_empty_fragment :
  streamAI JSON_parse_ref encodeURIComponent_ref (respond no_content_response)
           (lit "openai") None (lit "Hi") None example_cfg true
  = mkStreamRun (Ok [])
      (fetched (streamAI JSON_parse_ref encodeURIComponent_ref
                         (respond no_content_response)
                         (lit "openai") None (lit "Hi") None example_cfg true))
      [VStr []]
  /\ ~ Forall (fun t => ToString t <> Ok [])
         (deltas (streamAI JSON_parse_ref encodeURIComponent_ref
                           (respond no_content_response)
                           (lit "openai") None (lit "Hi") None example_cfg true))
  /\ streamAI JSON_parse_ref encodeURIComponent_ref (respond array_content_response)
              (lit "openai") None (lit "Hi") None example_cfg true
     = mkStreamRun (Ok [])
         (fetched (streamAI JSON_parse_ref encodeURIComponent_ref
                            (respond array_content_response)
                            (lit "openai") None (lit "Hi") None example_cfg true))
         [VArr []]
  /\ ToString (VArr []) = Ok [].
Proof.
  split; [vm_compute; reflexivity|].
  split; [|split; vm_compute; reflexivity].
  intros H.
  assert (E : deltas (streamAI JSON_parse_ref encodeURIComponent_ref
                               (respond no_content_response)
                               (lit "openai") None (lit "Hi") None example_cfg true)
              = [VStr []]) by (vm_compute; reflexivity).
  rewrite E in H. inversion H as [|? ? Hhead _]. apply Hhead. reflexivity.
Qed.

Lemma streamAI_returns_concatenation_of_deltas_witness :
  outcome (streamAI JSON_parse_ref encodeURIComponent_ref (respond streamed_response)
                    (lit "openai") None (lit "Hi") None example_cfg true)
  = Ok (lit "Hello")
  /\ concat_texts
       (deltas (streamAI JSON_parse_ref encodeURIComponent_ref
                         (respond streamed_response)
                         (lit "openai") None (lit "Hi") None example_cfg true))
     = Ok (lit "Hello").
Proof.
  assert (H : outcome (streamAI JSON_parse_ref encodeURIComponent_ref
                                (respond streamed_response)
                                (lit "openai") None (lit "Hi") None example_cfg true)
              = Ok (lit "Hello")) by (vm_compute; reflexivity).
  split; [exact H|].
  exact (proj1 (streamAI_returns_concatenation_of_deltas
                  JSON_parse_ref encodeURIComponent_ref (respond streamed_response)
                  (lit "openai") None (lit "Hi") None example_cfg (lit "Hello") H)).
Defined.

Lemma skipped_records_do_not_disturb_the_stream_witness :
  skipped_record JSON_parse_ref (lit "data: not json")
  /\ process_lines JSON_parse_ref (lit "openai") true
       [openai_record "Hel"; lit "data: not json"; openai_record "lo"] (mkSse [] [])
     = process_lines JSON_parse_ref (lit "openai") true
         [openai_record "Hel"; openai_record "lo"] (mkSse [] [])
  /\ process_lines JSON_parse_ref (lit "openai") true
       [openai_record "Hel"; openai_record "lo"] (mkSse [] [])
     = mkSse (lit "Hello") [VStr (lit "Hel"); VStr (lit "lo")].
Proof.
  assert (H : skipped_record JSON_parse_ref (lit "data: not json"))
    by (right; right; right; vm_compute; reflexivity).
  split; [exact H|].
  split; [|vm_compute; reflexivity].
  exact (proj1 (proj2 (skipped_records_do_not_disturb_the_stream
                         JSON_parse_ref encodeURIComponent_ref
                         (respond streamed_response) (lit "openai") true
                         (lit "data: not json") H))
               [openai_record "Hel"] [openai_record "lo"] (mkSse [] [])).
Defined.

Lemma azure_misconfiguration_throws_before_fetch_witness :
  azure_misconfigured azure_http_cfg
  /\ callAI JSON_parse_ref encodeURIComponent_ref (respond rate_limited_response)
            (lit "azure") None (lit "Hi") None azure_http_cfg
     = mkCallRun
         (Throw (Error (lit "Azure endpoint must use HTTPS. Please update your endpoint URL.")))
         []
  /\ (exists message,
        streamAI JSON_parse_ref encodeURIComponent_ref (respond rate_limited_response)
                 (lit "azure") None (lit "Hi") None azure_http_cfg true
        = mkStreamRun (Throw (Error message)) [] []
        /\ In message azure_config_errors).
Proof.
  assert (H : azure_misconfigured azure_http_cfg)
    by (right; right; right; vm_compute; reflexivity).
  split; [exact H|].
  split; [vm_compute; reflexivity|].
  exact (proj2 (azure_misconfiguration_throws_before_fetch
                  JSON_parse_ref encodeURIComponent_ref (respond rate_limited_response)
                  None (lit "Hi") None azure_http_cfg true H)).
Defined.

Lemma other_providers_use_deepseek_witness :
  lit "mistral" <> lit "openai"
  /\ call_fetched (callAI JSON_parse_ref encodeURIComponent_ref
                          (respond rate_limited_response)
                          (lit "mistral") None (lit "Hi") None deepseek_cfg)
     = [{| url := lit "https://api.deepseek.com/chat/completions";
           headers := [json_content_type;
                       (lit "Authorization", lit "Bearer ds-key")];
           body := VObj [(lit "model", VStr (lit "deepseek-chat"));
                         (lit "messages",
                          VArr [chat_message "system" default_system_prompt;
                                chat_message "user" (lit "Hi")]);
                         (lit "temperature", num "0.7");
                         (lit "stream", VBool false)] |}]
  /\ callAI JSON_parse_ref encodeURIComponent_ref (respond rate_limited_response)
            (lit "mistral") None (lit "Hi") None empty_cfg
     = mkCallRun (Throw (Error (lit "DeepSeek API key not set. Add it in Settings.")))
                 [].
Proof.
  assert (H1 : lit "mistral" <> lit "openai") by (vm_compute; discriminate).
  assert (H2 : lit "mistral" <> lit "anthropic") by (vm_compute; discriminate).
  assert (H3 : lit "mistral" <> lit "google") by (vm_compute; discriminate).
  assert (H4 : lit "mistral" <> lit "azure") by (vm_compute; discriminate).
  split; [exact H1|].
  split; [vm_compute; reflexivity|].
  exact (proj1 (proj1 (other_providers_use_deepseek
                         JSON_parse_ref encodeURIComponent_ref
                         (respond rate_limited_response)
                         (lit "mistral") None (lit "Hi") None empty_cfg true
                         H1 H2 H3 H4)
                      eq_refl)).
Defined.

Lemma http_failure_message_witness :
  callAI JSON_parse_ref encodeURIComponent_ref (respond rate_limited_response)
         (lit "openai") None (lit "Hi") None example_cfg
  = mkCallRun (Throw (Error (lit "openai API error 429: rate limited")))
      [{| url := lit "https://api.openai.com/v1/chat/completions";
          headers := [json_content_type;
                      (lit "Authorization", lit "Bearer sk-test")];
          body := VObj [(lit "model", VStr (lit "gpt-4o-mini"));
                        (lit "messages",
                         VArr [chat_message "system" default_system_prompt;
                               chat_message "user" (lit "Hi")]);
                        (lit "temperature", num "0.7")] |}]
  /\ http_error_message JSON_parse_ref (lit "openai") 429 rate_limited_body
     = lit "openai API error 429: rate limited".
Proof.
  split; [vm_compute; reflexivity|].
  exact (proj2 (proj2 (proj2 (proj2 (proj2
           (http_failure_message JSON_parse_ref encodeURIComponent_ref
              (respond rate_limited_response)
              (lit "openai") None (lit "Hi") None example_cfg true))))
           eq_refl)).
Defined.

(* ================================================================== *)
(** ** The history cursor *)
(* ================================================================== *)

Lemma addToHistory_cursor_ok (text : str) (p : panel) :
  cursor_ok (addToHistory text p).
Proof.
  unfold cursor_ok.
  destruct (responseHistory (addToHistory text p)) as [|x l] eqn:E.
  - exfalso. rewrite addToHistory_entries in E.
    destruct (responseHistory p) as [|a [|b h]]; simpl in E; try discriminate.
    destruct (Nat.ltb 10 (length (h ++ [text]) + 2)) eqn:El.
    + replace (Nat.ltb 10 (S (S (length (h ++ [text]))))) with true in E
        by (rewrite <- El; f_equal; lia).
      simpl in E. discriminate.
    + replace (Nat.ltb 10 (S (S (length (h ++ [text]))))) with false in E
        by (rewrite <- El; f_equal; lia).
      discriminate.
  - assert (Hi : historyIndex (addToHistory text p)
                 = (Z.of_nat (length (responseHistory (addToHistory text p))) - 1)%Z)
      by reflexivity.
    rewrite Hi, E. simpl length. lia.
Qed.

Lemma navigateHistory_cursor_ok (direction : Z) (p : panel) :
  cursor_ok p -> cursor_ok (navigateHistory direction p).
Proof.
  unfold cursor_ok, navigateHistory.
  destruct (responseHistory p) as [|x l] eqn:E; intros H.
  - rewrite E. exact H.
  - cbn [responseHistory historyIndex]. cbn [length] in *. lia.
Qed.

Lemma step_cursor_ok (p : panel) (ev : event) :
  cursor_ok p -> cursor_ok (fst (step p ev)).
Proof.
  intros H. destruct ev as [k now d cfg|m| |direction]; simpl.
  - destruct (send_history k now d cfg p) as [E1 E2].
    unfold cursor_ok in *. rewrite E1, E2. exact H.
  - unfold deliver. destruct (currentPort p); [|exact H].
    destruct m as [text|text|err|]; simpl.
    + destruct (ToString (or_else text (VStr []))); exact H.
    + apply addToHistory_cursor_ok.
    + exact H.
    + exact H.
  - exact H.
  - apply navigateHistory_cursor_ok. exact H.
Qed.

Lemma after_cursor_ok (evs : list event) (p : panel) :
  cursor_ok p -> cursor_ok (after p evs).
Proof.
  revert p. induction evs as [|ev evs IH]; intros p H; [exact H|].
  simpl. apply IH. apply step_cursor_ok. exact H.
Qed.

(** X1.  Whatever the panel has handled since it was loaded, the cursor
    is -1 on an empty history and otherwise the position of an entry;
    and a navigation on a non-empty history shows the entry under the
    cursor. *)
Theorem history_cursor_in_range :
  (forall evs, cursor_ok (after initial evs))
  /\ (forall p ev, cursor_ok p -> cursor_ok (fst (step p ev)))
  /\ (forall evs direction,
        responseHistory (after initial evs) <> [] ->
        nth_error (responseHistory (after initial evs))
                  (Z.to_nat (historyIndex
                               (navigateHistory direction (after initial evs))))
        = Some (output (navigateHistory direction (after initial evs)))).
Proof.
  split; [|split].
  - intros evs. apply after_cursor_ok. reflexivity.
  - apply step_cursor_ok.
  - intros evs direction Hne.
    set (p := after initial evs) in *.
    unfold navigateHistory.
    destruct (responseHistory p) as [|x l] eqn:E; [contradiction|].
    cbn [historyIndex output]. rewrite <- E.
    apply nth_error_nth'. rewrite E. simpl length. lia.
Qed.

(** X2.  With the cursor in range, a history button is enabled exactly
    when a navigation in its direction moves the cursor: the cursor
    stays at the first entry on "previous" and at the last on "next",
    and moves by one otherwise, so that "previous" then "next" comes
    back to where it started. *)
Theorem history_buttons_match_navigation :
  forall p,
    cursor_ok p ->
    (prev_disabled (updateHistoryUI p) = false
     <-> historyIndex (navigateHistory (-1) p) <> historyIndex p)
    /\ (next_disabled (updateHistoryUI p) = false
        <-> historyIndex (navigateHistory 1 p) <> historyIndex p)
    /\ (prev_disabled (updateHistoryUI p) = false ->
        historyIndex (navigateHistory (-1) p) = (historyIndex p - 1)%Z
        /\ historyIndex (navigateHistory 1 (navigateHistory (-1) p)) = historyIndex p)
    /\ (next_disabled (updateHistoryUI p) = false ->
        historyIndex (navigateHistory 1 p) = (historyIndex p + 1)%Z)
    /\ responseHistory (navigateHistory (-1) p) = responseHistory p
    /\ responseHistory (navigateHistory 1 p) = responseHistory p.
Proof.
  intros p H. unfold cursor_ok in H. unfold updateHistoryUI, navigateHistory.
  cbn [prev_disabled next_disabled].
  destruct (responseHistory p) as [|x l] eqn:E.
  - rewrite H. simpl. rewrite ?E, ?H.
    repeat split; try congruence; try discriminate; try lia.
  - cbn [historyIndex responseHistory length] in *.
    destruct (Z.ltb_spec 0 (historyIndex p));
      destruct (Z.ltb_spec (historyIndex p) (Z.of_nat (S (length l)) - 1));
      cbn [negb]; repeat split; intros; try discriminate; try lia; try reflexivity.
Qed.

Lemma history_buttons_match_navigation_witness :
  cursor_ok browsing_panel
  /\ responseHistory browsing_panel = [lit "one"; lit "two"; lit "three"]
  /\ historyIndex browsing_panel = 1%Z
  /\ historyIndex (navigateHistory 1 (navigateHistory (-1) browsing_panel)) = 1%Z.
Proof.
  assert (H : cursor_ok browsing_panel)
    by (vm_compute; split; [discriminate|reflexivity]).
  split; [exact H|]. split; [reflexivity|]. split; [reflexivity|].
  apply (proj2 (proj1 (proj2 (proj2 (history_buttons_match_navigation
                                       browsing_panel H)))
                      eq_refl)).
Defined.

(* ================================================================== *)
(** ** Sending and cancelling *)
(* ================================================================== *)

(** X3.  [send] opens a port exactly when the call passes the rate limit,
    the input does not trim to nothing and the selected provider
    validates.  It then posts one [start] message with the selected
    provider, the trimmed model, the prompt built from the trimmed
    input, and the system prompt, and leaves the panel streaming with
    an empty output, the trimmed input kept for the comparison view and
    the history untouched. *)
Theorem send_posts_exactly_when_allowed :
  forall k now d cfg p,
    (In Connect (snd (send k now d cfg p))
     <-> (RATE_LIMIT_MS <= now - lastRequestTime p)%Z
         /\ trim (input_value d) <> []
         /\ validateProvider (provider_value d) cfg = true)
    /\ ((RATE_LIMIT_MS <= now - lastRequestTime p)%Z ->
        trim (input_value d) <> [] ->
        validateProvider (provider_value d) cfg = true ->
        send k now d cfg p
        = ({| currentPort := true; isStreaming := true;
              responseHistory := responseHistory p;
              historyIndex := historyIndex p;
              currentOriginalText := trim (input_value d);
              lastRequestTime := now; raw := []; output := [] |},
           [StorageGet; Connect;
            PostStart (provider_value d) (trim (model_value d))
                      (buildPrompt k (trim (input_value d)) (emailContext_value d))
                      (systemPrompt_value d)])).
Proof.
  intros k now d cfg p.
  unfold send, send_begin.
  destruct (Z.ltb_spec (now - lastRequestTime p) RATE_LIMIT_MS) as [Hlt|Hge].
  - split.
    + split.
      * simpl. intros [H|[]]. discriminate.
      * intros [H _]. lia.
    + intros H. lia.
  - destruct (trim (input_value d)) as [|c t] eqn:Et; cbn [is_empty].
    + split.
      * split.
        -- simpl. intros [H|[H|[]]]; discriminate.
        -- intros [_ [H _]]. contradiction.
      * intros _ H. contradiction.
    + unfold send_resume. cbn [pending_provider pending_model pending_text].
      destruct (validateProvider (provider_value d) cfg) eqn:Ev; cbn [negb].
      * split.
        -- split.
           ++ intros _. repeat split; [lia|discriminate].
           ++ intros _. simpl. right. left. reflexivity.
        -- intros _ _ _. reflexivity.
      * split.
        -- split.
           ++ simpl. intros [H|[H|[H|[]]]]; discriminate.
           ++ intros [_ [_ H]]. discriminate.
        -- intros _ _ H. discriminate.
Qed.


Ltac two_keys :=
  match goal with
  | H1 : str_eqb ?k ?a = true, H2 : str_eqb ?k ?b = true |- _ =>
    apply str_eqb_eq in H1; apply str_eqb_eq in H2;
    rewrite H1 in H2; vm_compute in H2; discriminate H2
  end.

Ltac one_shortcut :=
  repeat match goal with
         | H : _ \/ _ |- _ => destruct H
         | H : False |- _ => destruct H
         | H : DoSend _ = DoSend _ |- _ => injection H as <-
         | H : @eq shortcut _ _ |- _ => discriminate H
         | H : key ?e = _, E : str_eqb (key ?e) _ = false |- _ =>
           rewrite H in E; vm_compute in E; discriminate E
         | |- _ /\ _ => split
         end;
  try reflexivity; try congruence; try (apply str_eqb_eq; assumption);
  try (left; reflexivity).

(** X5.  One key press triggers at most one handler.  The shortcut sends
    only when nothing is streaming and cancels only while something is;
    and whatever the shortcut does is the revise request. *)
Theorem shortcuts_trigger_at_most_one_handler :
  forall isMac settingsOpen e p,
    length (handleKeyboardShortcuts isMac settingsOpen e p) <= 1
    /\ (forall k, In (DoSend k) (handleKeyboardShortcuts isMac settingsOpen e p) ->
                  k = revise /\ isStreaming p = false
                  /\ key e = lit "Enter"
                  /\ (if isMac then metaKey e else ctrlKey e) = true)
    /\ (In DoCancel (handleKeyboardShortcuts isMac settingsOpen e p) <->
        key e = lit "Escape" /\ isStreaming p = true).
Proof.
  intros isMac settingsOpen e p. unfold handleKeyboardShortcuts. cbv zeta.
  remember (if isMac then metaKey e else ctrlKey e) as modifier eqn:Hm.
  clear Hm.
  destruct (str_eqb (key e) (lit "Enter")) eqn:E1;
    destruct (str_eqb (key e) (lit "Escape")) eqn:E2;
    destruct (str_eqb (key e) (lit "k")) eqn:E3;
    destruct (str_eqb (key e) (lit "d")) eqn:E4;
    destruct (str_eqb (key e) (lit "s")) eqn:E5;
    try two_keys;
    destruct modifier; destruct (isStreaming p) eqn:Es; destruct settingsOpen;
    cbn [andb negb app length In];
    (split; [lia|split; [intros k Hk|split; [intros Hc|intros [Hk Hs]]]]);
    one_shortcut.
Qed.

(* ================================================================== *)
(** ** Trimming *)
(* ================================================================== *)

Lemma trimStart_head (s : str) :
  trimStart s = []
  \/ exists c r, trimStart s = c :: r /\ is_white_space c = false.
Proof.
  induction s as [|c s IH]; [left; reflexivity|].
  cbn [trimStart]. destruct (is_white_space c) eqn:E; [exact IH|].
  right. exists c, s. split; [reflexivity|exact E].
Qed.

Lemma trimStart_fixed (c : code_unit) (r : str) :
  is_white_space c = false -> trimStart (c :: r) = c :: r.
Proof. intros H. cbn [trimStart]. rewrite H. reflexivity. Qed.

Lemma trimStart_idempotent (s : str) : trimStart (trimStart s) = trimStart s.
Proof.
  destruct (trimStart_head s) as [E|[c [r [E H]]]]; rewrite E;
    [reflexivity|apply trimStart_fixed; exact H].
Qed.

Lemma trimStart_white_app (w s : str) :
  all_white_space w -> trimStart (w ++ s) = trimStart s.
Proof.
  unfold all_white_space. induction w as [|c w IH]; intros H; [reflexivity|].
  cbn [forallb] in H. apply andb_true_iff in H as [Hc Hw].
  cbn [app trimStart]. rewrite Hc. apply IH. exact Hw.
Qed.

Lemma trimStart_all_white (w : str) : all_white_space w -> trimStart w = [].
Proof.
  intros H. rewrite <- (app_nil_r w). rewrite trimStart_white_app by exact H.
  reflexivity.
Qed.

Lemma trimStart_app_nonempty (s t : str) :
  trimStart s <> [] -> trimStart (s ++ t) = trimStart s ++ t.
Proof.
  induction s as [|c s IH]; intros H; [contradiction|].
  cbn [app trimStart] in *. destruct (is_white_space c); [apply IH; exact H|].
  reflexivity.
Qed.

Lemma trimStart_empty_all_white (s : str) : trimStart s = [] -> all_white_space s.
Proof.
  unfold all_white_space. induction s as [|c s IH]; intros H; [reflexivity|].
  cbn [trimStart] in H. destruct (is_white_space c) eqn:E; [|discriminate].
  cbn [forallb]. rewrite E. apply IH. exact H.
Qed.

Lemma all_white_space_app (a b : str) :
  all_white_space a -> all_white_space b -> all_white_space (a ++ b).
Proof.
  unfold all_white_space. intros Ha Hb. rewrite forallb_app, Ha, Hb. reflexivity.
Qed.

Lemma all_white_space_rev (w : str) : all_white_space w -> all_white_space (rev w).
Proof.
  unfold all_white_space. intros H. apply forallb_forall. intros x Hx.
  apply in_rev in Hx. rewrite forallb_forall in H. apply H. exact Hx.
Qed.

Lemma trimEnd_white_app (s w : str) :
  all_white_space w -> trimEnd (s ++ w) = trimEnd s.
Proof.
  intros H. unfold trimEnd. rewrite rev_app_distr.
  rewrite trimStart_white_app by (apply all_white_space_rev; exact H).
  reflexivity.
Qed.

Lemma trimEnd_idempotent (s : str) : trimEnd (trimEnd s) = trimEnd s.
Proof.
  unfold trimEnd. rewrite rev_involutive, trimStart_idempotent. reflexivity.
Qed.

(** Trimming the end keeps a first character that is not white space. *)
Lemma trimEnd_keeps_head (c : code_unit) (r : str) :
  is_white_space c = false ->
  exists r', trimEnd (c :: r) = c :: r'.
Proof.
  intros H. unfold trimEnd. cbn [rev].
  destruct (trimStart_head (rev r)) as [E|[d [t [E Hd]]]].
  - rewrite (trimStart_white_app (rev r) [c])
      by (apply trimStart_empty_all_white; exact E).
    rewrite trimStart_fixed by exact H. exists []. reflexivity.
  - rewrite trimStart_app_nonempty by (rewrite E; discriminate).
    rewrite rev_app_distr. cbn [rev app]. eexists. reflexivity.
Qed.

Lemma trimStart_trimEnd_trimStart (s : str) :
  trimStart (trimEnd (trimStart s)) = trimEnd (trimStart s).
Proof.
  destruct (trimStart_head s) as [E|[c [r [E H]]]]; rewrite E; [reflexivity|].
  destruct (trimEnd_keeps_head c r H) as [r' E']. rewrite E'.
  apply trimStart_fixed. exact H.
Qed.

Lemma trim_idempotent (s : str) : trim (trim s) = trim s.
Proof.
  unfold trim. rewrite trimStart_trimEnd_trimStart. apply trimEnd_idempotent.
Qed.

Lemma trim_white_around (before s after : str) :
  all_white_space before -> all_white_space after ->
  trim (before ++ s ++ after) = trim s.
Proof.
  intros Hb Ha. unfold trim. rewrite trimStart_white_app by exact Hb.
  destruct (trimStart s) as [|c r] eqn:E.
  - rewrite trimStart_all_white
      by (apply all_white_space_app;
          [apply trimStart_empty_all_white; exact E|exact Ha]).
    reflexivity.
  - rewrite trimStart_app_nonempty by (rewrite E; discriminate).
    rewrite E. apply trimEnd_white_app. exact Ha.
Qed.

Section StreamFacts.

Variable JSON_parse : str -> option value.
Variable encodeURIComponent : str -> result str.
Variable fetch : request -> result response.

(** X6.  White space around a record does not matter: a line is processed
    as its trimmed form is, so spaces, tabs or a stray carriage return
    before or after a [data:] record change nothing; trimming twice is
    trimming once. *)
Theorem records_are_trimmed :
  forall provider onDelta st line,
    process_line JSON_parse provider onDelta st (trim line)
    = process_line JSON_parse provider onDelta st line
    /\ trim (trim line) = trim line
    /\ (forall before after,
          all_white_space before -> all_white_space after ->
          process_line JSON_parse provider onDelta st (before ++ line ++ after)
          = process_line JSON_parse provider onDelta st line).
Proof.
  intros provider onDelta st line.
  split; [|split].
  - unfold process_line. rewrite trim_idempotent. reflexivity.
  - apply trim_idempotent.
  - intros before after Hb Ha. unfold process_line.
    rewrite trim_white_around by assumption. reflexivity.
Qed.

(** X7.  The result of reading a body does not depend on how the
    transport cuts it into chunks: two sequences of chunks with the same
    concatenation leave the same accumulated text and the same
    fragments delivered, in the same order. *)
Theorem chunking_does_not_matter :
  forall provider onDelta chunks1 chunks2 st,
    concat chunks1 = concat chunks2 ->
    read_loop JSON_parse provider onDelta chunks1 [] st
    = read_loop JSON_parse provider onDelta chunks2 [] st.
Proof.
  intros provider onDelta chunks1 chunks2 st H.
  rewrite !read_loop_lines by (intros []). cbn [app]. rewrite H. reflexivity.
Qed.

(** X8.  Only lines that end in a line break are processed.  Text after
    the last line break is never looked at, not even when the stream
    ends: appending to the body any text without a line feed changes
    neither the accumulated text nor the fragments delivered, and a
    body without any line feed delivers nothing. *)
Theorem unterminated_tail_is_dropped :
  forall provider onDelta chunks tail st,
    ~ In LF tail ->
    read_loop JSON_parse provider onDelta (chunks ++ [tail]) [] st
    = read_loop JSON_parse provider onDelta chunks [] st
    /\ (~ In LF (concat chunks) ->
        read_loop JSON_parse provider onDelta chunks [] st = st).
Proof.
  intros provider onDelta chunks tail st Htail.
  rewrite !read_loop_lines by (intros []). cbn [app].
  split.
  - rewrite concat_app. cbn [concat]. rewrite app_nil_r.
    rewrite split_lines_app.
    assert (Hlast : ~ In LF (last (split_lines (concat chunks)) [] ++ tail)).
    { intros Hin. apply in_app_or in Hin as [Hin|Hin];
        [exact (last_no_LF _ Hin)|exact (Htail Hin)]. }
    rewrite (split_lines_no_LF _ Hlast).
    rewrite removelast_last. reflexivity.
  - intros H. rewrite split_lines_no_LF by exact H. reflexivity.
Qed.

Lemma streamAI_deltas_concat provider model prompt systemPrompt cfg (s : str) :
  outcome (streamAI JSON_parse encodeURIComponent fetch provider model prompt
                    systemPrompt cfg true) = Ok s ->
  concat_texts (deltas (streamAI JSON_parse encodeURIComponent fetch provider model
                                 prompt systemPrompt cfg true)) = Ok s.
Proof.
  unfold streamAI.
  destruct (streamAI_request encodeURIComponent provider model prompt systemPrompt cfg)
    as [req|e]; [|discriminate].
  destruct (fetch req) as [resp|e]; [|discriminate].
  destruct (negb (ok resp)); [discriminate|].
  destruct (reader resp) as [[chunks [|reason]]|]; cbn [outcome deltas];
    try discriminate; intros H; injection H as <-.
  - apply (read_loop_accumulated JSON_parse provider chunks [] (mkSse [] [])).
    split; [reflexivity|constructor].
  - cbn [concat_texts ToString bind]. rewrite app_nil_r. reflexivity.
Qed.

(** X9.  [onDelta] is only ever called for a response that arrived and is
    [ok]: when [streamAI] throws one of its own errors, for a missing
    credential, a non-HTTPS endpoint or an HTTP failure, or when [fetch]
    itself fails, the callback has not been called. *)
Theorem onDelta_only_on_ok_response :
  forall provider model prompt systemPrompt cfg onDelta,
    (deltas (streamAI JSON_parse encodeURIComponent fetch provider model prompt
                      systemPrompt cfg onDelta) <> [] ->
     exists req resp,
       streamAI_request encodeURIComponent provider model prompt systemPrompt cfg
       = Ok req
       /\ fetch req = Ok resp /\ ok resp = true)
    /\ (forall message,
          outcome (streamAI JSON_parse encodeURIComponent fetch provider model prompt
                            systemPrompt cfg onDelta) = Throw (Error message) ->
          deltas (streamAI JSON_parse encodeURIComponent fetch provider model prompt
                           systemPrompt cfg onDelta) = [])
    /\ (forall req e,
          streamAI_request encodeURIComponent provider model prompt systemPrompt cfg
          = Ok req ->
          fetch req = Throw e ->
          streamAI JSON_parse encodeURIComponent fetch provider model prompt
                   systemPrompt cfg onDelta
          = mkStreamRun (Throw e) [req] []).
Proof.
  intros provider model prompt systemPrompt cfg onDelta.
  unfold streamAI.
  destruct (streamAI_request encodeURIComponent provider model prompt systemPrompt cfg)
    as [req|e0].
  - destruct (fetch req) as [resp|e1] eqn:Hfetch.
    + destruct (ok resp) eqn:Hok; cbn [negb].
      * split; [|split].
        -- intros _. exists req, resp. repeat split; assumption.
        -- intros message. destruct (reader resp) as [[chunks [|reason]]|];
             cbn [outcome]; discriminate.
        -- intros req' e H. injection H as <-. rewrite Hfetch. discriminate.
      * split; [|split].
        -- intros H. exfalso. apply H. reflexivity.
        -- intros message _. reflexivity.
        -- intros req' e H. injection H as <-. rewrite Hfetch. discriminate.
    + split; [|split].
      * intros H. exfalso. apply H. reflexivity.
      * intros message _. reflexivity.
      * intros req' e H. injection H as <-. rewrite Hfetch.
        intros H. injection H as ->. reflexivity.
  - split; [|split].
    + intros H. exfalso. apply H. reflexivity.
    + intros message _. reflexivity.
    + intros req e H. discriminate.
Qed.

Lemma concat_texts_filter (ds : list value) (s : str) :
  concat_texts ds = Ok s ->
  exists s', concat_texts (filter truthy ds) = Ok s' /\ (s = [] -> s' = []).
Proof.
  revert s. induction ds as [|t ds IH]; intros s H.
  - exists []. split; [reflexivity|intros _; reflexivity].
  - cbn [concat_texts] in H.
    destruct (ToString t) as [a|e] eqn:Et; [|discriminate]. cbn [bind] in H.
    destruct (concat_texts ds) as [b|e]; [|discriminate]. cbn [bind] in H.
    injection H as <-. destruct (IH b eq_refl) as [b' [Hb' Hempty]].
    cbn [filter]. destruct (truthy t).
    + exists (a ++ b'). cbn [concat_texts]. rewrite Et, Hb'. cbn [bind].
      split; [reflexivity|].
      intros H. apply app_eq_nil in H as [-> Hb]. rewrite (Hempty Hb). reflexivity.
    + exists b'. split; [exact Hb'|].
      intros H. apply app_eq_nil in H as [_ Hb]. exact (Hempty Hb).
Qed.

Lemma deltas_accumulate (ds : list value) :
  forall (p : panel) (s : str),
    currentPort p = true ->
    Forall (fun t => truthy t = true) ds ->
    concat_texts ds = Ok s ->
    currentPort (after p (map (fun t => Message (MsgDelta t)) ds)) = true
    /\ raw (after p (map (fun t => Message (MsgDelta t)) ds)) = raw p ++ s
    /\ responseHistory (after p (map (fun t => Message (MsgDelta t)) ds))
       = responseHistory p
    /\ historyIndex (after p (map (fun t => Message (MsgDelta t)) ds))
       = historyIndex p
    /\ currentOriginalText (after p (map (fun t => Message (MsgDelta t)) ds))
       = currentOriginalText p
    /\ lastRequestTime (after p (map (fun t => Message (MsgDelta t)) ds))
       = lastRequestTime p
    /\ (ds <> [] ->
        output (after p (map (fun t => Message (MsgDelta t)) ds)) = raw p ++ s).
Proof.
  induction ds as [|t ds IH]; intros p s Hport Hall Hs.
  - cbn [concat_texts] in Hs. injection Hs as <-. cbn [map after fold_left].
    rewrite app_nil_r. repeat split; try assumption. intros H. contradiction.
  - inversion Hall as [|? ? Ht Hds]; subst.
    cbn [concat_texts] in Hs.
    destruct (ToString t) as [a|e] eqn:Et; [|discriminate]. cbn [bind] in Hs.
    destruct (concat_texts ds) as [b|e] eqn:Eb; [|discriminate]. cbn [bind] in Hs.
    injection Hs as <-.
    change (after p (map (fun t0 => Message (MsgDelta t0)) (t :: ds)))
      with (after (fst (deliver (MsgDelta t) p))
                  (map (fun t0 => Message (MsgDelta t0)) ds)).
    assert (Hstep : fst (deliver (MsgDelta t) p)
                    = {| currentPort := true; isStreaming := isStreaming p;
                         responseHistory := responseHistory p;
                         historyIndex := historyIndex p;
                         currentOriginalText := currentOriginalText p;
                         lastRequestTime := lastRequestTime p;
                         raw := raw p ++ a; output := raw p ++ a |}).
    { unfold deliver. rewrite Hport. cbn [on_message]. unfold or_else.
      rewrite Ht, Et. cbn [fst]. rewrite Hport. reflexivity. }
    rewrite Hstep.
    match goal with
    | |- context [after ?q _] =>
      destruct (IH q b eq_refl Hds eq_refl) as [H1 [H2 [H3 [H4 [H5 [H6 H7]]]]]]
    end.
    cbn [raw responseHistory historyIndex currentOriginalText lastRequestTime
         currentPort] in *.
    rewrite app_assoc.
    repeat split; try assumption.
    intros _. destruct ds as [|t' ds'].
    + cbn [concat_texts] in Eb. injection Eb as <-.
      cbn [map after fold_left output]. rewrite app_nil_r. reflexivity.
    + apply H7. discriminate.
Qed.

(** X10.  A stream that completes reaches the history as one entry: on a
    panel that has just sent a request, the messages the worker posts
    for a [streamAI] run that returns leave the panel showing exactly
    the returned text, not streaming, with the port closed and with the
    returned text added to the history as [addToHistory] adds it. *)
Theorem completed_stream_reaches_history :
  forall describe provider model prompt systemPrompt cfg s p,
    currentPort p = true ->
    raw p = [] ->
    outcome (streamAI JSON_parse encodeURIComponent fetch provider model prompt
                      systemPrompt cfg true) = Ok s ->
    after p (map Message
               (port_messages describe
                  (streamAI JSON_parse encodeURIComponent fetch provider model prompt
                            systemPrompt cfg true)))
    = addToHistory s
        {| currentPort := false; isStreaming := false;
           responseHistory := responseHistory p; historyIndex := historyIndex p;
           currentOriginalText := currentOriginalText p;
           lastRequestTime := lastRequestTime p;
           raw := s; output := s |}.
Proof.
  intros describe provider model prompt systemPrompt cfg s p Hport Hraw Hout.
  pose proof (streamAI_deltas_concat provider model prompt systemPrompt cfg s Hout)
    as Hconcat.
  unfold port_messages. rewrite Hout.
  set (ds := deltas (streamAI JSON_parse encodeURIComponent fetch provider model prompt
                              systemPrompt cfg true)) in *.
  destruct (concat_texts_filter ds s Hconcat) as [s' [Hs' Hempty]].
  assert (Hall : Forall (fun t => truthy t = true) (filter truthy ds)).
  { apply Forall_forall. intros t Ht. apply filter_In in Ht. apply Ht. }
  rewrite map_app, map_map, after_app.
  destruct (deltas_accumulate (filter truthy ds) p s' Hport Hall Hs')
    as [H1 [H2 [H3 [H4 [H5 [H6 _]]]]]].
  set (q := after p (map (fun t => Message (MsgDelta t)) (filter truthy ds))) in *.
  cbn [map after fold_left step fst]. unfold deliver. rewrite H1.
  cbn [on_message fst]. rewrite H2, H3, H4, H5, H6, Hraw. cbn [app].
  destruct s as [|c s0]; cbn [is_empty].
  - rewrite (Hempty eq_refl). reflexivity.
  - reflexivity.
Qed.

(** X11.  For a provider string that matches none of the five names,
    [callAI] sends the DeepSeek request and then returns the empty
    string whatever the answer contains, while [streamAI] extracts the
    deltas of such a provider exactly as it does for DeepSeek. *)
Theorem unrecognized_provider_call_returns_empty :
  forall provider model prompt systemPrompt cfg req resp body data,
    provider <> lit "openai" -> provider <> lit "anthropic" ->
    provider <> lit "google" -> provider <> lit "azure" ->
    provider <> lit "deepseek" ->
    callAI_request encodeURIComponent provider model prompt systemPrompt cfg = Ok req ->
    fetch req = Ok resp -> ok resp = true ->
    text resp = Ok body -> JSON_parse body = Some data ->
    callAI JSON_parse encodeURIComponent fetch provider model prompt systemPrompt cfg
    = mkCallRun (Ok (VStr [])) [req]
    /\ url req = lit "https://api.deepseek.com/chat/completions"
    /\ (forall onDelta evt st,
          handle_event provider onDelta evt st
          = handle_event (lit "deepseek") onDelta evt st).
Proof.
  intros provider model prompt systemPrompt cfg req resp body data
         H1 H2 H3 H4 H5 Hreq Hfetch Hok Htext Hparse.
  destruct (not_a_named_provider provider H1 H2 H3 H4) as [Ea [Eo [En Eg]]].
  pose proof (str_eqb_neq _ _ H5) as Ed.
  split; [|split].
  - unfold callAI. rewrite Hreq, Hfetch. cbn [bind]. rewrite Hok. cbn [negb].
    unfold json, parse. rewrite Htext. cbn [bind]. rewrite Hparse. cbn [bind].
    unfold callAI_normalize. rewrite Eo, Ed, Ea, En, Eg. reflexivity.
  - unfold callAI_request in Hreq. rewrite Ea, Eo, En, Eg in Hreq. cbv zeta in Hreq.
    destruct (is_empty (or_empty (deepseek_key cfg))); [discriminate|].
    injection Hreq as <-. reflexivity.
  - intros onDelta evt st. unfold handle_event. rewrite En, Eg. reflexivity.
Qed.

(** X12.  After an [ok] answer [callAI] never fails for a payload that is
    merely missing: a JSON body without [choices], [content] and
    [candidates] gives the empty string for every provider.  A body
    that is not JSON at all makes it throw a SyntaxError, after the
    request was sent. *)
Theorem missing_payload_is_empty_text :
  forall provider model prompt systemPrompt cfg req resp body,
    callAI_request encodeURIComponent provider model prompt systemPrompt cfg = Ok req ->
    fetch req = Ok resp -> ok resp = true -> text resp = Ok body ->
    (forall data,
       JSON_parse body = Some data ->
       opt_get (lit "choices") data = VUndefined ->
       opt_get (lit "content") data = VUndefined ->
       opt_get (lit "candidates") data = VUndefined ->
       callAI JSON_parse encodeURIComponent fetch provider model prompt systemPrompt
              cfg
       = mkCallRun (Ok (VStr [])) [req])
    /\ (JSON_parse body = None ->
        callAI JSON_parse encodeURIComponent fetch provider model prompt systemPrompt
               cfg
        = mkCallRun (Throw SyntaxError) [req]).
Proof.
  intros provider model prompt systemPrompt cfg req resp body Hreq Hfetch Hok Htext.
  unfold callAI. rewrite Hreq, Hfetch. cbn [bind]. rewrite Hok. cbn [negb].
  unfold json, parse. rewrite Htext. cbn [bind].
  split.
  - intros data Hparse Hchoices Hcontent Hcandidates. rewrite Hparse. cbn [bind].
    unfold callAI_normalize, openai_call_text, anthropic_call_text, google_call_text.
    rewrite Hchoices, Hcontent, Hcandidates.
    destruct (str_eqb provider (lit "openai") || str_eqb provider (lit "deepseek")
              || str_eqb provider (lit "azure")); [reflexivity|].
    destruct (str_eqb provider (lit "anthropic")); [reflexivity|].
    destruct (str_eqb provider (lit "google")); reflexivity.
  - intros Hparse. rewrite Hparse. reflexivity.
Qed.

Lemma configured_not_empty (x : option str) :
  configured x = true ->
  is_empty (or_empty x) = false /\ is_empty (trim (or_empty x)) = false.
Proof.
  destruct x as [s|]; [|discriminate]. cbn [configured or_empty].
  destruct s as [|c s]; [discriminate|]. intros H.
  split; [reflexivity|]. destruct (trim (c :: s)); [discriminate|reflexivity].
Qed.

(** X13.  A provider that the side panel validated has its credentials
    when the request is built: for a selected provider that is one of
    the five names, neither [callAI] nor [streamAI] throws a
    missing-credential error, and for [openai], [anthropic] and
    [deepseek] both build their request.  ([encodeURIComponent] is taken
    to throw nothing but a URIError.) *)
Theorem validated_provider_has_credentials :
  forall provider model prompt systemPrompt cfg,
    (forall s e, encodeURIComponent s = Throw e -> e = URIError) ->
    In provider providerPriority ->
    validateProvider provider cfg = true ->
    (forall message,
       callAI_request encodeURIComponent provider model prompt systemPrompt cfg
       = Throw (Error message) ->
       ~ In message missing_credential_errors)
    /\ (forall message,
          streamAI_request encodeURIComponent provider model prompt systemPrompt cfg
          = Throw (Error message) ->
          ~ In message missing_credential_errors)
    /\ (provider <> lit "google" -> provider <> lit "azure" ->
        exists creq sreq,
          callAI_request encodeURIComponent provider model prompt systemPrompt cfg
          = Ok creq
          /\ streamAI_request encodeURIComponent provider model prompt systemPrompt cfg
             = Ok sreq).
Proof.
  intros provider model prompt systemPrompt cfg Huri Hin Hvalid.
  assert (Henc : forall (s : str) (k : str -> result request) message,
             (forall x, k x <> Throw (Error message)) ->
             (v <- encodeURIComponent s ;; k v) <> Throw (Error message)).
  { intros s k message Hk. destruct (encodeURIComponent s) as [v|e] eqn:Ee;
      cbn [bind]; [apply Hk|].
    intros H. injection H as ->. apply Huri in Ee. discriminate. }
  assert (Hhttps : forall m,
             (m = lit "Azure endpoint must use HTTPS. Please update your endpoint URL."
              \/ m = lit "Azure endpoint must use HTTPS.") ->
             ~ In m missing_credential_errors).
  { intros m [->| ->]; intros H; vm_compute in H;
      repeat (destruct H as [H|H]; [discriminate H|]); exact H. }
  unfold providerPriority in Hin. cbn [map In] in Hin.
  destruct Hin as [<-|[<-|[<-|[<-|[<-|[]]]]]];
    unfold validateProvider in Hvalid;
    repeat match type of Hvalid with
           | context [str_eqb (lit ?a) (lit ?b)] =>
             let v := eval vm_compute in (str_eqb (lit a) (lit b)) in
             change (str_eqb (lit a) (lit b)) with v in Hvalid
           end;
    cbv iota in Hvalid;
    unfold callAI_request, streamAI_request;
    repeat match goal with
           | |- context [str_eqb (lit ?a) (lit ?b)] =>
             let v := eval vm_compute in (str_eqb (lit a) (lit b)) in
             change (str_eqb (lit a) (lit b)) with v
           end;
    cbv iota zeta.
  - destruct (configured_not_empty _ Hvalid) as [E _]. rewrite E.
    repeat split; try discriminate. intros _ _. eexists. eexists. split; reflexivity.
  - destruct (configured_not_empty _ Hvalid) as [E _]. rewrite E.
    repeat split; try discriminate. intros _ _. eexists. eexists. split; reflexivity.
  - destruct (configured_not_empty _ Hvalid) as [E _]. rewrite E.
    split; [|split].
    + intros message H. exfalso. revert H. apply Henc. intros m. apply Henc.
      intros k. discriminate.
    + intros message H. exfalso. revert H. apply Henc. intros m. apply Henc.
      intros k. discriminate.
    + intros H. contradiction.
  - destruct (configured_not_empty _ Hvalid) as [E _]. rewrite E.
    repeat split; try discriminate. intros _ _. eexists. eexists. split; reflexivity.
  - apply andb_true_iff in Hvalid as [Hvalid Hd].
    apply andb_true_iff in Hvalid as [Hk He].
    destruct (configured_not_empty _ Hk) as [Ek _].
    destruct (configured_not_empty _ He) as [_ Ee].
    destruct (configured_not_empty _ Hd) as [_ Ed].
    rewrite Ek, Ee, Ed. cbn [orb].
    destruct (startsWith (trim (or_empty (azure_endpoint cfg))) (lit "https://"));
      cbn [negb].
    + split; [|split].
      * intros message H. exfalso. revert H. apply Henc. intros v. discriminate.
      * intros message H. exfalso. revert H. apply Henc. intros v. discriminate.
      * intros _ H. contradiction.
    + split; [|split].
      * intros message H. injection H as <-. apply Hhttps. left. reflexivity.
      * intros message H. injection H as <-. apply Hhttps. right. reflexivity.
      * intros _ H. contradiction.
Qed.

Ltac both_throw :=
  split;
  [split; intros _; eexists; reflexivity
  |intros creq sreq Hc Hs; discriminate Hc].

Ltac absurd_provider :=
  match goal with
  | H : lit _ = lit _ |- _ => vm_compute in H; discriminate H
  | H : ?p = lit _, E : str_eqb ?p (lit _) = false |- _ =>
    rewrite H in E; vm_compute in E; discriminate E
  | H : ?p = lit _, E : str_eqb ?p (lit _) = true |- _ =>
    rewrite H in E; vm_compute in E; discriminate E
  | H : ?p <> lit ?a, E : str_eqb ?p (lit ?a) = true |- _ =>
    apply str_eqb_eq in E; contradiction
  end.

Ltac same_fields k :=
  cbn [body opt_get lookup];
  repeat match goal with
         | |- context [str_eqb k ?x] => destruct (str_eqb k x) eqn:?
         end;
  try reflexivity; try two_keys;
  match goal with
  | H : k <> ?a, E : str_eqb k ?a = true |- _ =>
    apply str_eqb_eq in E; contradiction
  end.

Ltac both_built :=
  split;
  [split; intros [e He]; discriminate He
  |intros creq sreq Hc Hs; injection Hc as <-; injection Hs as <-;
   split; [reflexivity|];
   split; [intros Hg; first [reflexivity|absurd_provider]|];
   split; [intros Hg; first [absurd_provider
                            |eexists; eexists; repeat split; reflexivity]|];
   split; [intros k Hk; same_fields k|reflexivity]].

(** X14.  [callAI] and [streamAI] build their requests alike.  From the
    same arguments either both throw before the request or both build
    one; the two requests have the same headers, the same URL (for
    google the same model and key in the URL, with the action
    [streamGenerateContent] and [alt=sse] in place of [generateContent]),
    and bodies that agree on every field but [stream], which only the
    streaming body of the other providers sets to [true]. *)
Theorem call_and_stream_requests_agree :
  forall provider model prompt systemPrompt cfg,
    ((exists e,
        callAI_request encodeURIComponent provider model prompt systemPrompt cfg
        = Throw e)
     <-> (exists e,
            streamAI_request encodeURIComponent provider model prompt systemPrompt cfg
            = Throw e))
    /\ (forall creq sreq,
          callAI_request encodeURIComponent provider model prompt systemPrompt cfg
          = Ok creq ->
          streamAI_request encodeURIComponent provider model prompt systemPrompt cfg
          = Ok sreq ->
          headers creq = headers sreq
          /\ (provider <> lit "google" -> url creq = url sreq)
          /\ (provider = lit "google" ->
              exists m k,
                url creq
                = lit "https://generativelanguage.googleapis.com/v1beta/models/"
                  ++ m ++ lit ":generateContent?key=" ++ k
                /\ url sreq
                   = lit "https://generativelanguage.googleapis.com/v1beta/models/"
                     ++ m ++ lit ":streamGenerateContent?key=" ++ k ++ lit "&alt=sse")
          /\ (forall k, k <> lit "stream" ->
                        opt_get k (body creq) = opt_get k (body sreq))
          /\ opt_get (lit "stream") (body sreq)
             = if str_eqb provider (lit "google") then VUndefined else VBool true).
Proof.
  intros provider model prompt systemPrompt cfg.
  unfold callAI_request, streamAI_request. cbv zeta.
  destruct (str_eqb provider (lit "azure")) eqn:Ea.
  { apply str_eqb_eq in Ea. subst provider.
    change (str_eqb (lit "azure") (lit "google")) with false.
    assert (Ea : str_eqb (lit "azure") (lit "azure") = true) by reflexivity.
    destruct (is_empty (trim (or_empty (azure_endpoint cfg)))
              || is_empty (or_empty (azure_api_key cfg))
              || is_empty (trim (or_empty (azure_deployment cfg)))); [both_throw|].
    destruct (negb (startsWith (trim (or_empty (azure_endpoint cfg)))
                               (lit "https://"))); [both_throw|].
    destruct (encodeURIComponent
                (trim (or_default (azure_api_version cfg) (lit "2024-02-01"))));
      cbn [bind]; [both_built|both_throw]. }
  destruct (str_eqb provider (lit "openai")) eqn:Eo.
  { apply str_eqb_eq in Eo. subst provider.
    change (str_eqb (lit "openai") (lit "google")) with false.
    assert (Eo : str_eqb (lit "openai") (lit "openai") = true) by reflexivity.
    destruct (is_empty (or_empty (openai_key cfg))); [both_throw|both_built]. }
  destruct (str_eqb provider (lit "anthropic")) eqn:En.
  { apply str_eqb_eq in En. subst provider.
    change (str_eqb (lit "anthropic") (lit "google")) with false.
    assert (En : str_eqb (lit "anthropic") (lit "anthropic") = true) by reflexivity.
    destruct (is_empty (or_empty (anthropic_key cfg))); [both_throw|both_built]. }
  destruct (str_eqb provider (lit "google")) eqn:Eg.
  { destruct (is_empty (or_empty (google_key cfg))); [both_throw|].
    destruct (encodeURIComponent (or_default model (lit "gemini-1.5-flash")));
      cbn [bind]; [|both_throw].
    destruct (encodeURIComponent (or_empty (google_key cfg)));
      cbn [bind]; [|both_throw].
    split; [split; intros [e He]; discriminate He|].
    intros creq sreq Hc Hs. injection Hc as <-. injection Hs as <-.
    split; [reflexivity|].
    split; [intros Hg; absurd_provider|].
    split; [intros _; eexists; eexists; split; reflexivity|].
    split; [intros k Hk; same_fields k|reflexivity]. }
  destruct (is_empty (or_empty (deepseek_key cfg))); [both_throw|both_built].
Qed.

Lemma startsWith_app (s p t : str) :
  startsWith s p = true -> startsWith (s ++ t) p = true.
Proof.
  revert s. induction p as [|a p IH]; intros s H;
    [destruct (s ++ t); reflexivity|].
  destruct s as [|b s]; [discriminate|]. cbn [app startsWith] in *.
  apply andb_true_iff in H as [H1 H2]. rewrite H1. cbn [andb]. apply IH. exact H2.
Qed.

Lemma https_head (s : str) :
  startsWith s (lit "https://") = true -> exists r, s = 104%N :: r.
Proof.
  change (lit "https://") with [104; 116; 116; 112; 115; 58; 47; 47]%N.
  destruct s as [|c r]; [discriminate|]. cbn [startsWith]. intros H.
  apply andb_true_iff in H as [H _]. apply N.eqb_eq in H. subst c.
  exists r. reflexivity.
Qed.

Lemma trim_with_slash (endpoint : str) :
  startsWith endpoint (lit "https://") = true ->
  trim (endpoint ++ lit "/") = endpoint ++ lit "/".
Proof.
  intros H. destruct (https_head endpoint H) as [r ->].
  change (lit "/") with [47%N]. unfold trim.
  change ((104%N :: r) ++ [47%N]) with (104%N :: (r ++ [47%N])).
  rewrite trimStart_fixed by reflexivity.
  unfold trimEnd.
  change (104%N :: r ++ [47%N]) with ((104%N :: r) ++ [47%N]).
  rewrite rev_app_distr. cbn [rev app].
  rewrite trimStart_fixed by reflexivity.
  cbn [rev]. rewrite rev_app_distr, rev_involutive. reflexivity.
Qed.

Lemma endsWith_slash (endpoint : str) :
  endsWith (endpoint ++ lit "/") (lit "/") = true.
Proof.
  unfold endsWith. change (lit "/") with [47%N]. rewrite rev_app_distr.
  cbn [rev app startsWith]. rewrite N.eqb_refl.
  destruct (rev endpoint); reflexivity.
Qed.

(** X15.  A final slash on the Azure endpoint is optional: for an HTTPS
    endpoint stored without surrounding white space, [callAI] and
    [streamAI] build the same request, with the same URL, whether or not
    the endpoint ends in a slash. *)
Theorem azure_endpoint_final_slash_is_optional :
  forall model prompt systemPrompt cfg endpoint,
    trim endpoint = endpoint ->
    startsWith endpoint (lit "https://") = true ->
    endsWith endpoint (lit "/") = false ->
    callAI_request encodeURIComponent (lit "azure") model prompt systemPrompt
                   (with_azure_endpoint (endpoint ++ lit "/") cfg)
    = callAI_request encodeURIComponent (lit "azure") model prompt systemPrompt
                     (with_azure_endpoint endpoint cfg)
    /\ streamAI_request encodeURIComponent (lit "azure") model prompt systemPrompt
                        (with_azure_endpoint (endpoint ++ lit "/") cfg)
       = streamAI_request encodeURIComponent (lit "azure") model prompt systemPrompt
                          (with_azure_endpoint endpoint cfg).
Proof.
  intros model prompt systemPrompt cfg endpoint Htrim Hhttps Hslash.
  pose proof (trim_with_slash endpoint Hhttps) as Htrim'.
  pose proof (startsWith_app endpoint (lit "https://") (lit "/") Hhttps) as Hhttps'.
  pose proof (endsWith_slash endpoint) as Hslash'.
  assert (Hne : is_empty endpoint = false)
    by (destruct (https_head endpoint Hhttps) as [r ->]; reflexivity).
  assert (Hne' : is_empty (endpoint ++ lit "/") = false)
    by (destruct (https_head endpoint Hhttps) as [r ->]; reflexivity).
  unfold callAI_request, streamAI_request.
  rewrite !str_eqb_refl. cbv zeta.
  cbn [with_azure_endpoint azure_endpoint azure_api_key azure_deployment
       azure_api_version or_empty].
  rewrite Htrim, Htrim', Hhttps, Hhttps', Hslash, Hslash', Hne, Hne'.
  split; reflexivity.
Qed.

Lemma or_default_nonempty (x : option str) (d : str) :
  d <> [] -> or_default x d <> [].
Proof. intros H. destruct x as [[|c s]|]; cbn [or_default]; congruence. Qed.

Lemma or_default_given (s d : str) : s <> [] -> or_default (Some s) d = s.
Proof. intros H. destruct s; [contradiction|reflexivity]. Qed.

Lemma default_system_prompt_nonempty : default_system_prompt <> [].
Proof. vm_compute. discriminate. Qed.

(** X16.  The system prompt the panel chooses is never empty, and it is
    the one sent: a blank custom prompt falls back to the default
    prompt, a custom prompt is used trimmed, and the chosen prompt
    reaches the Anthropic request as its [system] field and the
    OpenAI request as its system message, never replaced by the default
    of [streamAI]. *)
Theorem chosen_system_prompt_is_sent :
  forall preset custom s,
    getSystemPrompt preset custom = Some s ->
    s <> []
    /\ (preset = lit "custom" ->
        s = if is_empty (trim custom) then default_system_prompt else trim custom)
    /\ (forall model prompt cfg req,
          streamAI_request encodeURIComponent (lit "anthropic") model prompt (Some s)
                           cfg = Ok req ->
          opt_get (lit "system") (body req) = VStr s)
    /\ (forall model prompt cfg req,
          streamAI_request encodeURIComponent (lit "openai") model prompt (Some s)
                           cfg = Ok req ->
          opt_get (lit "messages") (body req)
          = VArr [chat_message "system" s; chat_message "user" prompt]).
Proof.
  intros preset custom s H.
  assert (Hs : s <> []).
  { unfold getSystemPrompt in H.
    destruct (str_eqb preset (lit "custom")).
    - assert (E : s = or_default (Some (trim custom)) default_system_prompt)
        by congruence.
      rewrite E. apply or_default_nonempty. apply default_system_prompt_nonempty.
    - destruct (preset_text preset SYSTEM_PROMPTS) as [text|].
      + assert (E : s = or_default (Some text) default_system_prompt) by congruence.
        rewrite E. apply or_default_nonempty. apply default_system_prompt_nonempty.
      + destruct (existsb (str_eqb preset) object_prototype_names); [discriminate|].
        injection H as <-. apply default_system_prompt_nonempty. }
  split; [exact Hs|]. split; [|split].
  - intros ->. unfold getSystemPrompt in H.
    change (str_eqb (lit "custom") (lit "custom")) with true in H. cbv iota in H.
    injection H as <-. destruct (trim custom); reflexivity.
  - intros model prompt cfg req. unfold streamAI_request.
    change (str_eqb (lit "anthropic") (lit "azure")) with false.
    change (str_eqb (lit "anthropic") (lit "openai")) with false.
    change (str_eqb (lit "anthropic") (lit "anthropic")) with true.
    cbv iota zeta. rewrite (or_default_given s default_system_prompt Hs).
    destruct (is_empty (or_empty (anthropic_key cfg))); [discriminate|].
    intros Hreq. injection Hreq as <-. reflexivity.
  - intros model prompt cfg req. unfold streamAI_request.
    change (str_eqb (lit "openai") (lit "azure")) with false.
    change (str_eqb (lit "openai") (lit "openai")) with true.
    cbv iota zeta. rewrite (or_default_given s default_system_prompt Hs).
    destruct (is_empty (or_empty (openai_key cfg))); [discriminate|].
    intros Hreq. injection Hreq as <-. reflexivity.
Qed.

End StreamFacts.

(* ================================================================== *)
(** ** Provider selection *)
(* ================================================================== *)

Lemma present_and_nonblank_configured (x : option str) :
  present_and_nonblank x = configured x.
Proof.
  destruct x as [s|]; [|reflexivity]. cbn [present_and_nonblank configured].
  destruct s as [|c s]; [reflexivity|]. cbn [is_empty negb andb].
  destruct (trim (c :: s)); reflexivity.
Qed.

Lemma prototype_name_cases (provider : str) :
  existsb (str_eqb provider) object_prototype_names = true ->
  In provider object_prototype_names.
Proof.
  intros H. apply existsb_exists in H as [x [Hin Hx]].
  apply str_eqb_eq in Hx. subst x. exact Hin.
Qed.

(** X17.  The two configuration tests of the side panel agree on every
    provider name except the names of members that every object
    inherits: there [validateProvider], which indexes an object literal,
    accepts, while [isProviderConfigured], which switches on the name,
    refuses. *)
Theorem configuration_tests_agree :
  forall provider cfg,
    (existsb (str_eqb provider) object_prototype_names = false ->
     isProviderConfigured provider cfg = validateProvider provider cfg)
    /\ (existsb (str_eqb provider) object_prototype_names = true ->
        isProviderConfigured provider cfg = false
        /\ validateProvider provider cfg = true).
Proof.
  intros provider cfg. split.
  - intros H. unfold isProviderConfigured, validateProvider.
    rewrite H, !present_and_nonblank_configured. reflexivity.
  - intros H. apply prototype_name_cases in H.
    unfold object_prototype_names in H. cbn [map In] in H.
    repeat (destruct H as [<-|H]; [split; reflexivity|]). destruct H.
Qed.

Lemma find_first {A : Type} (f : A -> bool) (l : list A) (x : A) :
  find f l = Some x ->
  exists before after,
    l = before ++ x :: after /\ f x = true /\ forallb (fun y => negb (f y)) before = true.
Proof.
  induction l as [|a l IH]; [discriminate|]. cbn [find].
  destruct (f a) eqn:Ea.
  - intros H. injection H as <-. exists [], l. repeat split. exact Ea.
  - intros H. destruct (IH H) as [before [after [-> [Hx Hb]]]].
    exists (a :: before), after. repeat split; [exact Hx|].
    cbn [forallb]. rewrite Ea, Hb. reflexivity.
Qed.

Lemma isProviderConfigured_validates (provider : str) (cfg : config) :
  isProviderConfigured provider cfg = true -> validateProvider provider cfg = true.
Proof.
  unfold isProviderConfigured, validateProvider.
  rewrite !present_and_nonblank_configured.
  repeat match goal with
         | |- context [if ?b then _ else _] => destruct b; [exact (fun H => H)|]
         end.
  discriminate.
Qed.

(** X18.  Auto-selection keeps a selected provider that is configured,
    without a toast; otherwise it selects the first configured provider
    in the order openai, anthropic, google, deepseek, azure and
    announces it; with no configured provider it changes nothing.
    Whenever one of the five is configured, the provider selected
    afterwards is configured and passes the validation of [send].  The
    silent variant selects the same provider and shows no toast. *)
Theorem autoSelectProvider_selects_first_configured :
  forall current cfg,
    (isProviderConfigured current cfg = true ->
     autoSelectProvider current cfg = mkSelection current true None)
    /\ (isProviderConfigured current cfg = false ->
        forall provider,
          selected (autoSelectProvider current cfg) = provider ->
          provider <> current ->
          exists before after,
            providerPriority = before ++ provider :: after
            /\ forallb (fun other => negb (isProviderConfigured other cfg)) before
               = true
            /\ announced (autoSelectProvider current cfg)
               = Some (lit "Auto-selected " ++ getProviderName provider))
    /\ (forallb (fun other => negb (isProviderConfigured other cfg)) providerPriority
        = true ->
        isProviderConfigured current cfg = false ->
        autoSelectProvider current cfg = mkSelection current false None)
    /\ (forall provider,
          In provider providerPriority ->
          isProviderConfigured provider cfg = true ->
          isProviderConfigured (selected (autoSelectProvider current cfg)) cfg = true
          /\ validateProvider (selected (autoSelectProvider current cfg)) cfg = true)
    /\ selected (autoSelectProviderSilent current cfg)
       = selected (autoSelectProvider current cfg)
    /\ announced (autoSelectProviderSilent current cfg) = None.
Proof.
  intros current cfg. unfold autoSelectProvider, autoSelectProviderSilent.
  destruct (isProviderConfigured current cfg) eqn:Ec.
  - split; [reflexivity|]. split; [discriminate|]. split; [discriminate|].
    split; [|split; reflexivity].
    intros provider _ _. cbn [selected]. split; [exact Ec|].
    apply isProviderConfigured_validates. exact Ec.
  - split; [discriminate|].
    destruct (find (fun provider => isProviderConfigured provider cfg) providerPriority)
      as [first|] eqn:Ef.
    + destruct (find_first _ _ _ Ef) as [before [after [Hl [Hf Hb]]]].
      split; [|split; [|split; [|split; reflexivity]]].
      * intros _ provider Hsel _. cbn [selected announced] in *. subst provider.
        exists before, after. repeat split; assumption.
      * intros Hnone _. exfalso.
        rewrite forallb_forall in Hnone.
        assert (Hin : In first providerPriority)
          by (rewrite Hl; apply in_or_app; right; left; reflexivity).
        specialize (Hnone first Hin). rewrite Hf in Hnone. discriminate.
      * intros provider _ _. cbn [selected]. split; [exact Hf|].
        apply isProviderConfigured_validates. exact Hf.
    + split; [|split; [|split; [|split; reflexivity]]].
      * intros _ provider Hsel Hne. cbn [selected] in Hsel. congruence.
      * intros _ _. reflexivity.
      * intros provider Hin Hp. exfalso.
        pose proof (find_none _ _ Ef provider Hin) as Hn. cbv beta in Hn.
        congruence.
Qed.

(* ================================================================== *)
(** ** The history holds the last ten responses *)
(* ================================================================== *)

Lemma addToHistory_entries_skipn (text : str) (p : panel) :
  length (responseHistory p) <= 10 ->
  responseHistory (addToHistory text p)
  = skipn (length (responseHistory p ++ [text]) - 10) (responseHistory p ++ [text]).
Proof.
  intros Hp. rewrite addToHistory_entries.
  assert (Hlen : length (responseHistory p ++ [text])
                 = S (length (responseHistory p)))
    by (rewrite length_app; simpl; lia).
  destruct (Nat.ltb_spec 10 (length (responseHistory p ++ [text]))) as [Hfull|Hroom].
  - replace (length (responseHistory p ++ [text]) - 10) with 1 by lia.
    destruct (responseHistory p ++ [text]); reflexivity.
  - replace (length (responseHistory p ++ [text]) - 10) with 0 by lia. reflexivity.
Qed.

Lemma skipn_last_ten {A : Type} (l rest : list A) :
  skipn (length (skipn (length l - 10) l ++ rest) - 10)
        (skipn (length l - 10) l ++ rest)
  = skipn (length (l ++ rest) - 10) (l ++ rest).
Proof.
  assert (E : skipn (length l - 10) l ++ rest = skipn (length l - 10) (l ++ rest)).
  { rewrite skipn_app. replace (length l - 10 - length l) with 0 by lia.
    reflexivity. }
  rewrite E, skipn_skipn. f_equal.
  rewrite length_skipn, length_app. lia.
Qed.

Lemma pushes_keep_last_ten (texts : list str) :
  forall p,
    length (responseHistory p) <= 10 ->
    responseHistory (fold_left (fun q text => addToHistory text q) texts p)
    = skipn (length (responseHistory p ++ texts) - 10) (responseHistory p ++ texts).
Proof.
  induction texts as [|t rest IH]; intros p Hp.
  - cbn [fold_left]. rewrite app_nil_r.
    replace (length (responseHistory p) - 10) with 0 by lia. reflexivity.
  - cbn [fold_left]. rewrite IH by (apply addToHistory_bounded; exact Hp).
    rewrite addToHistory_entries_skipn by exact Hp.
    rewrite skipn_last_ten. rewrite <- app_assoc. reflexivity.
Qed.

(** X19.  The history is the last ten responses, oldest first: after any
    number of pushes it holds the entries it had followed by the pushed
    texts, cut to the ten most recent; from the empty history, the last
    ten of the texts pushed. *)
Theorem history_holds_the_last_ten :
  (forall texts p,
     length (responseHistory p) <= 10 ->
     responseHistory (fold_left (fun q text => addToHistory text q) texts p)
     = skipn (length (responseHistory p ++ texts) - 10) (responseHistory p ++ texts))
  /\ (forall texts,
        responseHistory (fold_left (fun q text => addToHistory text q) texts initial)
        = skipn (length texts - 10) texts).
Proof.
  split.
  - intros texts p. apply pushes_keep_last_ten.
  - intros texts. rewrite pushes_keep_last_ten by (simpl; lia). reflexivity.
Qed.

(* ================================================================== *)
(** ** More closed examples *)
(* ================================================================== *)

Lemma encodeURIComponent_ref_throws_URIError (s : str) (e : exn) :
  encodeURIComponent_ref s = Throw e -> e = URIError.
Proof.
  assert (Hgen : forall n (s : str), length s <= n ->
                   encodeURIComponent_ref s = Throw e -> e = URIError).
  { clear s. induction n as [|n IH]; intros s Hlen H.
    - destruct s; [discriminate|simpl in Hlen; lia].
    - destruct s as [|c rest]; [discriminate|]. simpl in Hlen.
      cbn [encodeURIComponent_ref] in H.
      destruct (is_uri_unreserved c).
      + destruct (encodeURIComponent_ref rest) eqn:E; cbn [bind] in H;
          [discriminate|]. injection H as <-. apply (IH rest); [lia|exact E].
      + destruct (N.leb 55296 c && N.leb c 56319).
        * destruct rest as [|d rest']; [congruence|].
          destruct (N.leb 56320 d && N.leb d 57343); [|congruence].
          destruct (encodeURIComponent_ref rest') eqn:E; cbn [bind] in H;
            [discriminate|]. injection H as <-.
          apply (IH rest'); [simpl in Hlen; lia|exact E].
        * destruct (N.leb 56320 c && N.leb c 57343); [congruence|].
          destruct (encodeURIComponent_ref rest) eqn:E; cbn [bind] in H;
            [discriminate|]. injection H as <-. apply (IH rest); [lia|exact E]. }
  apply (Hgen (length s)). lia.
Qed.

Lemma chunking_does_not_matter_witness :
  concat example_chunks = concat [concat example_chunks]
  /\ read_loop JSON_parse_ref (lit "openai") true example_chunks [] (mkSse [] [])
     = read_loop JSON_parse_ref (lit "openai") true [concat example_chunks] []
                 (mkSse [] [])
  /\ read_loop JSON_parse_ref (lit "openai") true example_chunks [] (mkSse [] [])
     = mkSse (lit "Hello") [VStr (lit "Hel"); VStr (lit "lo")].
Proof.
  assert (H : concat example_chunks = concat [concat example_chunks])
    by (vm_compute; reflexivity).
  split; [exact H|]. split; [|vm_compute; reflexivity].
  exact (chunking_does_not_matter JSON_parse_ref (lit "openai") true
           example_chunks [concat example_chunks] (mkSse [] []) H).
Defined.

Lemma unterminated_tail_is_dropped_witness :
  ~ In LF (openai_record "lost")
  /\ read_loop JSON_parse_ref (lit "openai") true
       (example_chunks ++ [openai_record "lost"]) [] (mkSse [] [])
     = read_loop JSON_parse_ref (lit "openai") true example_chunks [] (mkSse [] [])
  /\ process_line JSON_parse_ref (lit "openai") true (mkSse [] [])
       (openai_record "lost")
     = mkSse (lit "lost") [VStr (lit "lost")].
Proof.
  assert (H : ~ In LF (openai_record "lost")).
  { intros Hin. vm_compute in Hin.
    repeat (destruct Hin as [Hin|Hin]; [discriminate Hin|]). exact Hin. }
  split; [exact H|]. split; [|vm_compute; reflexivity].
  exact (proj1 (unterminated_tail_is_dropped JSON_parse_ref (lit "openai") true
                  example_chunks (openai_record "lost") (mkSse [] []) H)).
Defined.

Lemma completed_stream_reaches_history_witness :
  currentPort streaming_panel = true
  /\ raw streaming_panel = []
  /\ after streaming_panel
       (map Message
          (port_messages (fun _ => [])
             (streamAI JSON_parse_ref encodeURIComponent_ref
                       (respond streamed_response)
                       (lit "openai") None (lit "Hi") None example_cfg true)))
     = {| currentPort := false; isStreaming := false;
          responseHistory := [lit "Hello"]; historyIndex := 0;
          currentOriginalText := lit "Hello"; lastRequestTime := 5000;
          raw := lit "Hello"; output := lit "Hello" |}.
Proof.
  split; [reflexivity|]. split; [reflexivity|].
  rewrite (completed_stream_reaches_history
             JSON_parse_ref encodeURIComponent_ref (respond streamed_response)
             (fun _ => []) (lit "openai") None (lit "Hi") None example_cfg
             (lit "Hello") streaming_panel eq_refl eq_refl
             ltac:(vm_compute; reflexivity)).
  vm_compute. reflexivity.
Defined.

Lemma unrecognized_provider_call_returns_empty_witness :
  lit "mistral" <> lit "deepseek"
  /\ callAI JSON_parse_ref encodeURIComponent_ref (respond chat_completion_response)
            (lit "mistral") None (lit "Hi") None deepseek_cfg
     = mkCallRun (Ok (VStr []))
         (call_fetched (callAI JSON_parse_ref encodeURIComponent_ref
                               (respond chat_completion_response)
                               (lit "mistral") None (lit "Hi") None deepseek_cfg))
  /\ call_outcome (callAI JSON_parse_ref encodeURIComponent_ref
                          (respond chat_completion_response)
                          (lit "deepseek") None (lit "Hi") None deepseek_cfg)
     = Ok (VStr (lit "Hello")).
Proof.
  assert (H1 : lit "mistral" <> lit "openai") by (vm_compute; discriminate).
  assert (H2 : lit "mistral" <> lit "anthropic") by (vm_compute; discriminate).
  assert (H3 : lit "mistral" <> lit "google") by (vm_compute; discriminate).
  assert (H4 : lit "mistral" <> lit "azure") by (vm_compute; discriminate).
  assert (H5 : lit "mistral" <> lit "deepseek") by (vm_compute; discriminate).
  split; [exact H5|]. split; [|vm_compute; reflexivity].
  rewrite (proj1 (unrecognized_provider_call_returns_empty
                    JSON_parse_ref encodeURIComponent_ref
                    (respond chat_completion_response)
                    (lit "mistral") None (lit "Hi") None deepseek_cfg
                    _ chat_completion_response _ _
                    H1 H2 H3 H4 H5 eq_refl eq_refl eq_refl eq_refl
                    ltac:(vm_compute; reflexivity))).
  vm_compute. reflexivity.
Defined.

Lemma missing_payload_is_empty_text_witness :
  call_outcome (callAI JSON_parse_ref encodeURIComponent_ref
                       (respond empty_object_response)
                       (lit "anthropic") None (lit "Hi") None two_keys_cfg)
  = Ok (VStr []).
Proof.
  rewrite (proj1 (missing_payload_is_empty_text
                    JSON_parse_ref encodeURIComponent_ref
                    (respond empty_object_response)
                    (lit "anthropic") None (lit "Hi") None two_keys_cfg
                    _ empty_object_response (lit "{}")
                    eq_refl eq_refl eq_refl eq_refl)
                 (VObj []) ltac:(vm_compute; reflexivity) eq_refl eq_refl eq_refl).
  reflexivity.
Defined.

Lemma validated_provider_has_credentials_witness :
  In (lit "anthropic") providerPriority
  /\ validateProvider (lit "anthropic") two_keys_cfg = true
  /\ exists creq sreq,
       callAI_request encodeURIComponent_ref (lit "anthropic") None (lit "Hi") None
                      two_keys_cfg = Ok creq
       /\ streamAI_request encodeURIComponent_ref (lit "anthropic") None (lit "Hi")
                           None two_keys_cfg = Ok sreq.
Proof.
  assert (Hin : In (lit "anthropic") providerPriority)
    by (right; left; reflexivity).
  split; [exact Hin|]. split; [reflexivity|].
  apply (proj2 (proj2 (validated_provider_has_credentials
                         encodeURIComponent_ref (lit "anthropic") None (lit "Hi")
                         None two_keys_cfg encodeURIComponent_ref_throws_URIError
                         Hin eq_refl))).
  - vm_compute. discriminate.
  - vm_compute. discriminate.
Defined.

Lemma azure_endpoint_final_slash_is_optional_witness :
  callAI_request encodeURIComponent_ref (lit "azure") None (lit "Hi") None
                 (with_azure_endpoint (lit "https://foo.openai.azure.com" ++ lit "/")
                                      azure_https_cfg)
  = callAI_request encodeURIComponent_ref (lit "azure") None (lit "Hi") None
                   (with_azure_endpoint (lit "https://foo.openai.azure.com")
                                        azure_https_cfg)
  /\ (exists req,
        callAI_request encodeURIComponent_ref (lit "azure") None (lit "Hi") None
                       azure_https_cfg = Ok req
        /\ url req
           = lit "https://foo.openai.azure.com/openai/deployments/gpt4/chat/completions?api-version=2024-02-01").
Proof.
  split.
  - apply (azure_endpoint_final_slash_is_optional encodeURIComponent_ref
             None (lit "Hi") None azure_https_cfg (lit "https://foo.openai.azure.com"));
      vm_compute; reflexivity.
  - eexists. split; vm_compute; reflexivity.
Defined.

Lemma chosen_system_prompt_is_sent_witness :
  getSystemPrompt (lit "custom") (lit "  Be brief.  ") = Some (lit "Be brief.")
  /\ lit "Be brief." <> [].
Proof.
  assert (H : getSystemPrompt (lit "custom") (lit "  Be brief.  ")
              = Some (lit "Be brief.")) by (vm_compute; reflexivity).
  split; [exact H|].
  exact (proj1 (chosen_system_prompt_is_sent encodeURIComponent_ref
                  (lit "custom") (lit "  Be brief.  ") (lit "Be brief.") H)).
Defined.

(* ================================================================== *)
(** ** A stream that fails *)
(* ================================================================== *)

Section FailedStreams.

Variable JSON_parse : str -> option value.
Variable encodeURIComponent : str -> result str.
Variable fetch : request -> result response.

Lemma streamAI_deltas_have_texts provider model prompt systemPrompt cfg :
  exists s,
    concat_texts (deltas (streamAI JSON_parse encodeURIComponent fetch provider model
                                   prompt systemPrompt cfg true)) = Ok s.
Proof.
  unfold streamAI.
  destruct (streamAI_request encodeURIComponent provider model prompt systemPrompt cfg)
    as [req|e]; [|exists []; reflexivity].
  destruct (fetch req) as [resp|e]; [|exists []; reflexivity].
  destruct (negb (ok resp)); [exists []; reflexivity|].
  destruct (reader resp) as [[chunks fin]|]; cbn [deltas].
  - eexists.
    apply (read_loop_accumulated JSON_parse provider chunks [] (mkSse [] [])).
    split; [reflexivity|constructor].
  - eexists. reflexivity.
Qed.

(** X20.  A stream that fails leaves what it delivered on screen and
    nothing in the history: on a panel that has just sent a request,
    the messages of a [streamAI] run that throws leave the panel not
    streaming, with the port closed, the history and its cursor as they
    were, and, when at least one delta was delivered, showing the
    concatenation of the texts delivered before the failure. *)
Theorem failed_stream_keeps_partial_output :
  forall describe provider model prompt systemPrompt cfg err p,
    currentPort p = true ->
    raw p = [] ->
    outcome (streamAI JSON_parse encodeURIComponent fetch provider model prompt
                      systemPrompt cfg true) = Throw err ->
    exists partial,
      concat_texts
        (filter truthy
           (deltas (streamAI JSON_parse encodeURIComponent fetch provider model prompt
                             systemPrompt cfg true))) = Ok partial
      /\ raw (panel_after_run describe
                (streamAI JSON_parse encodeURIComponent fetch provider model prompt
                          systemPrompt cfg true) p) = partial
      /\ (filter truthy
            (deltas (streamAI JSON_parse encodeURIComponent fetch provider model prompt
                              systemPrompt cfg true)) <> [] ->
          output (panel_after_run describe
                    (streamAI JSON_parse encodeURIComponent fetch provider model
                              prompt systemPrompt cfg true) p) = partial)
      /\ isStreaming (panel_after_run describe
                        (streamAI JSON_parse encodeURIComponent fetch provider model
                                  prompt systemPrompt cfg true) p) = false
      /\ currentPort (panel_after_run describe
                        (streamAI JSON_parse encodeURIComponent fetch provider model
                                  prompt systemPrompt cfg true) p) = false
      /\ responseHistory (panel_after_run describe
                            (streamAI JSON_parse encodeURIComponent fetch provider
                                      model prompt systemPrompt cfg true) p)
         = responseHistory p
      /\ historyIndex (panel_after_run describe
                         (streamAI JSON_parse encodeURIComponent fetch provider model
                                   prompt systemPrompt cfg true) p)
         = historyIndex p.
Proof.
  intros describe provider model prompt systemPrompt cfg err p Hport Hraw Hout.
  destruct (streamAI_deltas_have_texts provider model prompt systemPrompt cfg)
    as [s Hs].
  set (r := streamAI JSON_parse encodeURIComponent fetch provider model prompt
                     systemPrompt cfg true) in *.
  destruct (concat_texts_filter (deltas r) s Hs) as [partial [Hp _]].
  exists partial. split; [exact Hp|].
  assert (Hall : Forall (fun t => truthy t = true) (filter truthy (deltas r))).
  { apply Forall_forall. intros t Ht. apply filter_In in Ht. apply Ht. }
  destruct (deltas_accumulate (filter truthy (deltas r)) p partial Hport Hall Hp)
    as [H1 [H2 [H3 [H4 [H5 [H6 H7]]]]]].
  unfold panel_after_run, port_messages. rewrite Hout.
  rewrite map_app, map_map, after_app.
  set (q := after p (map (fun t => Message (MsgDelta t)) (filter truthy (deltas r))))
    in *.
  cbn [map after fold_left step fst]. unfold deliver. rewrite H1.
  cbn [on_message fst raw output isStreaming currentPort responseHistory historyIndex].
  rewrite Hraw in *. cbn [app] in *.
  repeat split; try assumption.
Qed.

End FailedStreams.

Lemma failed_stream_keeps_partial_output_witness :
  currentPort streaming_panel = true
  /\ raw streaming_panel = []
  /\ outcome (streamAI JSON_parse_ref encodeURIComponent_ref
                       (respond interrupted_response)
                       (lit "openai") None (lit "Hi") None example_cfg true)
     = Throw (Rejection (lit "network error"))
  /\ output (panel_after_run (fun _ => [])
               (streamAI JSON_parse_ref encodeURIComponent_ref
                         (respond interrupted_response)
                         (lit "openai") None (lit "Hi") None example_cfg true)
               streaming_panel)
     = lit "Hel"
  /\ exists partial,
       raw (panel_after_run (fun _ => [])
              (streamAI JSON_parse_ref encodeURIComponent_ref
                        (respond interrupted_response)
                        (lit "openai") None (lit "Hi") None example_cfg true)
              streaming_panel)
       = partial.
Proof.
  assert (H : outcome (streamAI JSON_parse_ref encodeURIComponent_ref
                                (respond interrupted_response)
                                (lit "openai") None (lit "Hi") None example_cfg true)
              = Throw (Rejection (lit "network error")))
    by (vm_compute; reflexivity).
  split; [reflexivity|]. split; [reflexivity|]. split; [exact H|].
  split; [vm_compute; reflexivity|].
  destruct (failed_stream_keeps_partial_output
              JSON_parse_ref encodeURIComponent_ref (respond interrupted_response)
              (fun _ => []) (lit "openai") None (lit "Hi") None example_cfg
              (Rejection (lit "network error")) streaming_panel eq_refl eq_refl H)
    as [partial [_ [Hraw _]]].
  exists partial. exact Hraw.
Defined.
